(** * Finance tracker: persistence store, recurrence and alert engines

    A shallow embedding of the Python sources
    [models/*.py], [utils/database.py], [utils/reminders.py] and the text
    protection of [utils/security.py].

    Conventions of the embedding.
    - SQLite [REAL] columns and Python [float]s are exact rationals [Q];
      rounding of IEEE doubles is outside the model, and numeric results are
      compared with [==] (equality of rationals).
    - SQLite [INTEGER] columns and Python [int]s are [Z]; a nullable column or
      an [Optional] attribute is an [option].
    - SQLite [TEXT] and Python [str] are [string]; the comparison of two texts
      is the byte-wise lexicographic order [String.leb].
    - A table is the list of its rows in rowid order; [AUTOINCREMENT] keys are
      drawn from a per-table counter (the [sqlite_sequence] table).
    - A column holds values of the type the model class passes for it.
    - A Python [dict] with string keys is a [gmap string pyval].
    - The wall clock ([datetime.now()]) is an explicit argument.
    - The store operations are total functions on stores, as the source
      raises nowhere on these paths; where a library call can raise
      ([strptime], a date out of range) the result is an [option].
    - In [utils/security.py] a text is the list of its code points, and the
      outcome of a call names the exception it raises, if any. *)

From Stdlib Require Import ZArith QArith Lia Lqa String Ascii List Bool.
From Stdlib Require Import Sorted Permutation.
From stdpp Require Import gmap strings.
Import ListNotations.

Local Open Scope string_scope.
Local Open Scope Z_scope.

(** ** Python's [datetime] (the part the sources use)

    The calendar arithmetic follows the standard library ([_ymd2ord],
    [_ord2ymd], [strptime] and [strftime] with the format ["%Y-%m-%d"]). *)

Module Datetime.

Record t := mk
  { year : Z; month : Z; day : Z;
    hour : Z; minute : Z; second : Z; microsecond : Z }.

Definition is_leap (y : Z) : bool :=
  (y mod 4 =? 0) && (negb (y mod 100 =? 0) || (y mod 400 =? 0)).

Definition days_in_month_table (m : Z) : Z :=
  match m with
  | 1 => 31 | 2 => 28 | 3 => 31 | 4 => 30 | 5 => 31 | 6 => 30
  | 7 => 31 | 8 => 31 | 9 => 30 | 10 => 31 | 11 => 30 | 12 => 31
  | _ => -1
  end.

Definition days_before_month_table (m : Z) : Z :=
  match m with
  | 1 => 0 | 2 => 31 | 3 => 59 | 4 => 90 | 5 => 120 | 6 => 151
  | 7 => 181 | 8 => 212 | 9 => 243 | 10 => 273 | 11 => 304 | 12 => 334
  | _ => -1
  end.

Definition days_before_year (y : Z) : Z :=
  let p := y - 1 in p * 365 + p / 4 - p / 100 + p / 400.

Definition days_in_month (y m : Z) : Z :=
  if (m =? 2) && is_leap y then 29 else days_in_month_table m.

Definition days_before_month (y m : Z) : Z :=
  days_before_month_table m + (if (2 <? m) && is_leap y then 1 else 0).

Definition ymd2ord (y m d : Z) : Z :=
  days_before_year y + days_before_month y m + d.

Definition DI400Y : Z := 146097.
Definition DI100Y : Z := 36524.
Definition DI4Y : Z := 1461.

Definition ord2ymd (ordinal : Z) : Z * Z * Z :=
  let n := ordinal - 1 in
  let n400 := n / DI400Y in
  let n := n mod DI400Y in
  let y := n400 * 400 + 1 in
  let n100 := n / DI100Y in
  let n := n mod DI100Y in
  let n4 := n / DI4Y in
  let n := n mod DI4Y in
  let n1 := n / 365 in
  let n := n mod 365 in
  let y := y + n100 * 100 + n4 * 4 + n1 in
  if (n1 =? 4) || (n100 =? 4) then (y - 1, 12, 31)
  else
    let leapyear := (n1 =? 3) && (negb (n4 =? 24) || (n100 =? 3)) in
    let m := Z.shiftr (n + 50) 5 in
    let preceding :=
      days_before_month_table m + (if (2 <? m) && leapyear then 1 else 0) in
    if n <? preceding then
      let m' := m - 1 in
      let preceding' :=
        preceding
        - (days_in_month_table m' + (if (m' =? 2) && leapyear then 1 else 0)) in
      (y, m', n - preceding' + 1)
    else (y, m, n - preceding + 1).

Definition MINYEAR : Z := 1.
Definition MAXYEAR : Z := 9999.
Definition MAXORDINAL : Z := 3652059.

(** The check of the [datetime] constructor on the calendar fields. *)
Definition valid_date (y m d : Z) : bool :=
  (MINYEAR <=? y) && (y <=? MAXYEAR) && (1 <=? m) && (m <=? 12)
  && (1 <=? d) && (d <=? days_in_month y m).

Definition toordinal (dt : t) : Z := ymd2ord (year dt) (month dt) (day dt).

(** [dt + timedelta(days=k)]: [None] stands for [OverflowError]. *)
Definition add_days (dt : t) (k : Z) : option t :=
  let o := toordinal dt + k in
  if (1 <=? o) && (o <=? MAXORDINAL) then
    let '(y, m, d) := ord2ymd o in
    Some (mk y m d (hour dt) (minute dt) (second dt) (microsecond dt))
  else None.

Definition digit_char (z : Z) : ascii :=
  match z with
  | 0 => "0" | 1 => "1" | 2 => "2" | 3 => "3" | 4 => "4"
  | 5 => "5" | 6 => "6" | 7 => "7" | 8 => "8" | _ => "9"
  end%char.

(** The value of a decimal digit, from its character code. *)
Definition digit_val (c : ascii) : option Z :=
  let code := Z.of_N (N_of_ascii c) in
  if (48 <=? code) && (code <=? 57) then Some (code - 48) else None.

Definition pad2 (z : Z) : string :=
  String (digit_char (z / 10 mod 10)) (String (digit_char (z mod 10)) "").

Definition pad4 (z : Z) : string :=
  String (digit_char (z / 1000 mod 10))
    (String (digit_char (z / 100 mod 10)) (pad2 z)).

(** [dt.strftime("%Y-%m-%d")]. From the year 1000 on the text is the same
    on every platform; a year below 1000 is printed here with four digits,
    as [strptime] reads it, while the C library of the platform decides
    whether it pads it. *)
Definition strftime_ymd (dt : t) : string :=
  (pad4 (year dt) ++ "-" ++ pad2 (month dt) ++ "-" ++ pad2 (day dt))%string.

(** [dt.strftime("%H:%M")]. *)
Definition strftime_hm (dt : t) : string :=
  (pad2 (hour dt) ++ ":" ++ pad2 (minute dt))%string.

(** The directive [%m] (one of [1[0-2]], [0[1-9]], [[1-9]]) followed by the
    literal [-]; returns the month and the rest of the text. *)
Definition parse_month (s : string) : option (Z * string) :=
  let two :=
    match s with
    | String a (String b (String "-" r)) =>
        match digit_val a, digit_val b with
        | Some 1, Some x => if x <=? 2 then Some (10 + x, r) else None
        | Some 0, Some x => if 1 <=? x then Some (x, r) else None
        | _, _ => None
        end
    | _ => None
    end in
  match two with
  | Some res => Some res
  | None =>
      match s with
      | String a (String "-" r) =>
          match digit_val a with
          | Some x => if 1 <=? x then Some (x, r) else None
          | None => None
          end
      | _ => None
      end
  end.

(** The directive [%d] (one of [3[0-1]], [[1-2]\d], [0[1-9]], [[1-9]],
    [ [1-9]]) at the end of the text. *)
Definition parse_day (s : string) : option Z :=
  match s with
  | String a (String b "") =>
      match digit_val a, digit_val b with
      | Some 3, Some x => if x <=? 1 then Some (30 + x) else None
      | Some 1, Some x => Some (10 + x)
      | Some 2, Some x => Some (20 + x)
      | Some 0, Some x => if 1 <=? x then Some x else None
      | None, Some x =>
          if Ascii.eqb a " " && (1 <=? x) then Some x else None
      | _, _ => None
      end
  | String a "" =>
      match digit_val a with
      | Some x => if 1 <=? x then Some x else None
      | None => None
      end
  | _ => None
  end.

(** [datetime.strptime(s, "%Y-%m-%d")]: [None] stands for [ValueError]. *)
Definition strptime_ymd (s : string) : option t :=
  match s with
  | String a (String b (String c (String d (String "-" r)))) =>
      match digit_val a, digit_val b, digit_val c, digit_val d with
      | Some ya, Some yb, Some yc, Some yd =>
          let y := 1000 * ya + 100 * yb + 10 * yc + yd in
          match parse_month r with
          | Some (m, r') =>
              match parse_day r' with
              | Some dd =>
                  if valid_date y m dd then Some (mk y m dd 0 0 0 0)
                  else None
              | None => None
              end
          | None => None
          end
      | _, _, _, _ => None
      end
  | _ => None
  end.

(** The microseconds since midnight. *)
Definition time_of_day (dt : t) : Z :=
  ((hour dt * 60 + minute dt) * 60 + second dt) * 1000000 + microsecond dt.

Definition US_PER_DAY : Z := 86400000000.

(** The check of the [datetime] constructor on the clock fields. *)
Definition valid_time (dt : t) : bool :=
  (0 <=? hour dt) && (hour dt <=? 23) && (0 <=? minute dt)
  && (minute dt <=? 59) && (0 <=? second dt) && (second dt <=? 59)
  && (0 <=? microsecond dt) && (microsecond dt <=? 999999).

(** [(a - b).days]: a [timedelta] is normalised with its seconds and
    microseconds non-negative, so its days are the floor of the
    difference. *)
Definition sub_days (a b : t) : Z :=
  ((toordinal a - toordinal b) * US_PER_DAY + (time_of_day a - time_of_day b))
  / US_PER_DAY.

End Datetime.

(** ** Python values *)

Inductive pyval : Type :=
| VNone
| VBool (b : bool)
| VInt (z : Z)
| VFloat (q : Q)
| VStr (s : string)
| VDatetime (dt : Datetime.t).

(** The value of an [Optional[int]] and of an [Optional[str]] attribute. *)
Definition of_opt_int (o : option Z) : pyval :=
  match o with Some z => VInt z | None => VNone end.

Definition of_opt_str (o : option string) : pyval :=
  match o with Some s => VStr s | None => VNone end.

(** [data.get(key)] and [data.get(key, default)] read at a declared type.
    The outer [option] is [None] when the stored value is not of the type the
    class declares for the attribute: such objects are outside the model. *)
Definition get_opt_int (data : gmap string pyval) (key : string)
  : option (option Z) :=
  match data !! key with
  | None | Some VNone => Some None
  | Some (VInt z) => Some (Some z)
  | Some _ => None
  end.

Definition get_opt_str (data : gmap string pyval) (key : string)
  : option (option string) :=
  match data !! key with
  | None | Some VNone => Some None
  | Some (VStr s) => Some (Some s)
  | Some _ => None
  end.

Definition get_str (data : gmap string pyval) (key default : string)
  : option string :=
  match data !! key with
  | None => Some default
  | Some (VStr s) => Some s
  | Some _ => None
  end.

Definition get_float (data : gmap string pyval) (key : string) (default : Q)
  : option Q :=
  match data !! key with
  | None => Some default
  | Some (VFloat q) => Some q
  | Some _ => None
  end.

Definition get_int (data : gmap string pyval) (key : string) (default : Z)
  : option Z :=
  match data !! key with
  | None => Some default
  | Some (VInt z) => Some z
  | Some _ => None
  end.

Definition get_bool (data : gmap string pyval) (key : string) (default : bool)
  : option bool :=
  match data !! key with
  | None => Some default
  | Some (VBool b) => Some b
  | Some _ => None
  end.

(** Truthiness of an identifier ([if transaction.account_id:]): [None] and
    [0] are false. *)
Definition truthy_id (o : option Z) : option Z :=
  match o with
  | Some z => if z =? 0 then None else Some z
  | None => None
  end.

(** Truthiness of a text ([if trans['next_due_date']:]): [None] and the
    empty text are false. *)
Definition truthy_str (o : option string) : option string :=
  match o with
  | Some s => if String.eqb s "" then None else Some s
  | None => None
  end.

(** ** Entity model ([models/*.py])

    Every class is a record of its attributes at their declared types;
    [to_dict] builds the dictionary of the source, [from_dict] reads it back
    with [data.get] and calls the constructor. [from_dict] is [None] when a
    stored value is outside the declared type of its attribute or when
    parsing the date raises. *)

Module Transaction.

(** The [date] attribute holds a [datetime] or, as [add_transaction]
    allows, a text. *)
Inductive pydate : Type :=
| PyDatetime (dt : Datetime.t)
| PyStr (s : string).

Record t := mk
  { id : option Z;
    transaction_type : string;
    amount : Q;
    category_id : option Z;
    subcategory_id : option Z;
    account_id : option Z;
    to_account_id : option Z;
    date : pydate;
    time : string;
    description : string;
    payment_method : string;
    tags : string;
    receipt_path : option string;
    recurring_id : option Z }.

(** [self.date.strftime("%Y-%m-%d") if isinstance(self.date, datetime)
    else self.date] *)
Definition date_text (d : pydate) : string :=
  match d with
  | PyDatetime dt => Datetime.strftime_ymd dt
  | PyStr s => s
  end.

(** [__init__]: [date or datetime.now()] and
    [time or datetime.now().strftime("%H:%M")]. *)
Definition init (now : Datetime.t)
    (transaction_id : option Z) (transaction_type : string) (amount : Q)
    (category_id subcategory_id account_id to_account_id : option Z)
    (date : option pydate) (time : option string)
    (description payment_method tags : string)
    (receipt_path : option string) (recurring_id : option Z) : t :=
  {| id := transaction_id;
     transaction_type := transaction_type;
     amount := amount;
     category_id := category_id;
     subcategory_id := subcategory_id;
     account_id := account_id;
     to_account_id := to_account_id;
     date := match date with
             | Some (PyStr "") | None => PyDatetime now
             | Some d => d
             end;
     time := match truthy_str time with
             | Some s => s
             | None => Datetime.strftime_hm now
             end;
     description := description;
     payment_method := payment_method;
     tags := tags;
     receipt_path := receipt_path;
     recurring_id := recurring_id |}.

Definition to_dict (self : t) : gmap string pyval :=
  <["id" := of_opt_int (id self)]>
  (<["transaction_type" := VStr (transaction_type self)]>
  (<["amount" := VFloat (amount self)]>
  (<["category_id" := of_opt_int (category_id self)]>
  (<["subcategory_id" := of_opt_int (subcategory_id self)]>
  (<["account_id" := of_opt_int (account_id self)]>
  (<["to_account_id" := of_opt_int (to_account_id self)]>
  (<["date" := VStr (date_text (date self))]>
  (<["time" := VStr (time self)]>
  (<["description" := VStr (description self)]>
  (<["payment_method" := VStr (payment_method self)]>
  (<["tags" := VStr (tags self)]>
  (<["receipt_path" := of_opt_str (receipt_path self)]>
  (<["recurring_id" := of_opt_int (recurring_id self)]> ∅))))))))))))).

(** [date_str = data.get('date')]; a text is parsed with [strptime], any
    other value is passed on as it is. *)
Definition read_date (data : gmap string pyval) : option (option pydate) :=
  match data !! "date" with
  | Some (VStr s) =>
      match Datetime.strptime_ymd s with
      | Some dt => Some (Some (PyDatetime dt))
      | None => None
      end
  | Some (VDatetime dt) => Some (Some (PyDatetime dt))
  | None | Some VNone => Some None
  | Some _ => None
  end.

Definition from_dict (now : Datetime.t) (data : gmap string pyval)
  : option t :=
  d ← read_date data;
  i ← get_opt_int data "id";
  ty ← get_str data "transaction_type" "Expense";
  am ← get_float data "amount" 0%Q;
  cat ← get_opt_int data "category_id";
  sub ← get_opt_int data "subcategory_id";
  acc ← get_opt_int data "account_id";
  to_acc ← get_opt_int data "to_account_id";
  tm ← get_opt_str data "time";
  desc ← get_str data "description" "";
  pm ← get_str data "payment_method" "";
  tg ← get_str data "tags" "";
  rp ← get_opt_str data "receipt_path";
  rec ← get_opt_int data "recurring_id";
  Some (init now i ty am cat sub acc to_acc d tm desc pm tg rp rec).

End Transaction.

Module Account.

Record t := mk
  { id : option Z;
    name : string;
    account_type : string;
    initial_balance : Q;
    current_balance : Q;
    currency : string;
    icon : string;
    color : string;
    is_credit_card : bool;
    credit_limit : Q;
    due_date : option string;
    interest_rate : Q;
    notes : string }.

Definition to_dict (self : t) : gmap string pyval :=
  <["id" := of_opt_int (id self)]>
  (<["name" := VStr (name self)]>
  (<["account_type" := VStr (account_type self)]>
  (<["initial_balance" := VFloat (initial_balance self)]>
  (<["current_balance" := VFloat (current_balance self)]>
  (<["currency" := VStr (currency self)]>
  (<["icon" := VStr (icon self)]>
  (<["color" := VStr (color self)]>
  (<["is_credit_card" := VBool (is_credit_card self)]>
  (<["credit_limit" := VFloat (credit_limit self)]>
  (<["due_date" := of_opt_str (due_date self)]>
  (<["interest_rate" := VFloat (interest_rate self)]>
  (<["notes" := VStr (notes self)]> ∅)))))))))))).

Definition from_dict (data : gmap string pyval) : option t :=
  i ← get_opt_int data "id";
  n ← get_str data "name" "";
  ty ← get_str data "account_type" "Cash";
  ib ← get_float data "initial_balance" 0%Q;
  cb ← get_float data "current_balance" 0%Q;
  cur ← get_str data "currency" "USD";
  ic ← get_str data "icon" "wallet";
  col ← get_str data "color" "#2196F3";
  cc ← get_bool data "is_credit_card" false;
  cl ← get_float data "credit_limit" 0%Q;
  dd ← get_opt_str data "due_date";
  ir ← get_float data "interest_rate" 0%Q;
  nt ← get_str data "notes" "";
  Some (mk i n ty ib cb cur ic col cc cl dd ir nt).

End Account.

Module Category.

Record t := mk
  { id : option Z;
    name : string;
    category_type : string;
    icon : string;
    color : string }.

Definition to_dict (self : t) : gmap string pyval :=
  <["id" := of_opt_int (id self)]>
  (<["name" := VStr (name self)]>
  (<["category_type" := VStr (category_type self)]>
  (<["icon" := VStr (icon self)]>
  (<["color" := VStr (color self)]> ∅)))).

Definition from_dict (data : gmap string pyval) : option t :=
  i ← get_opt_int data "id";
  n ← get_str data "name" "";
  ty ← get_str data "category_type" "Expense";
  ic ← get_str data "icon" "tag";
  col ← get_str data "color" "#757575";
  Some (mk i n ty ic col).

End Category.

Module Subcategory.

Record t := mk
  { id : option Z;
    name : string;
    category_id : option Z }.

Definition to_dict (self : t) : gmap string pyval :=
  <["id" := of_opt_int (id self)]>
  (<["name" := VStr (name self)]>
  (<["category_id" := of_opt_int (category_id self)]> ∅)).

Definition from_dict (data : gmap string pyval) : option t :=
  i ← get_opt_int data "id";
  n ← get_str data "name" "";
  cat ← get_opt_int data "category_id";
  Some (mk i n cat).

End Subcategory.

Module Budget.

Record t := mk
  { id : option Z;
    category_id : option Z;
    amount : Q;
    period : string;
    start_date : option string;
    end_date : option string;
    alert_percentage : Q;
    spent : Q }.

Definition to_dict (self : t) : gmap string pyval :=
  <["id" := of_opt_int (id self)]>
  (<["category_id" := of_opt_int (category_id self)]>
  (<["amount" := VFloat (amount self)]>
  (<["period" := VStr (period self)]>
  (<["start_date" := of_opt_str (start_date self)]>
  (<["end_date" := of_opt_str (end_date self)]>
  (<["alert_percentage" := VFloat (alert_percentage self)]>
  (<["spent" := VFloat (spent self)]> ∅))))))).

Definition from_dict (data : gmap string pyval) : option t :=
  i ← get_opt_int data "id";
  cat ← get_opt_int data "category_id";
  am ← get_float data "amount" 0%Q;
  per ← get_str data "period" "Monthly";
  sd ← get_opt_str data "start_date";
  ed ← get_opt_str data "end_date";
  ap ← get_float data "alert_percentage" 80%Q;
  sp ← get_float data "spent" 0%Q;
  Some (mk i cat am per sd ed ap sp).

Definition get_percentage_used (self : t) : Q :=
  if Qeq_bool (amount self) 0 then 0%Q
  else (spent self / amount self * 100)%Q.

(** [self.spent > self.amount] *)
Definition is_over_budget (self : t) : bool :=
  negb (Qle_bool (spent self) (amount self)).

(** [self.get_percentage_used() >= self.alert_percentage] *)
Definition should_alert (self : t) : bool :=
  Qle_bool (alert_percentage self) (get_percentage_used self).

End Budget.

Module Goal.

Record t := mk
  { id : option Z;
    name : string;
    target_amount : Q;
    current_amount : Q;
    deadline : option string;
    icon : string;
    color : string;
    notes : string;
    completed : bool }.

Definition to_dict (self : t) : gmap string pyval :=
  <["id" := of_opt_int (id self)]>
  (<["name" := VStr (name self)]>
  (<["target_amount" := VFloat (target_amount self)]>
  (<["current_amount" := VFloat (current_amount self)]>
  (<["deadline" := of_opt_str (deadline self)]>
  (<["icon" := VStr (icon self)]>
  (<["color" := VStr (color self)]>
  (<["notes" := VStr (notes self)]>
  (<["completed" := VBool (completed self)]> ∅)))))))).

Definition from_dict (data : gmap string pyval) : option t :=
  i ← get_opt_int data "id";
  n ← get_str data "name" "";
  ta ← get_float data "target_amount" 0%Q;
  ca ← get_float data "current_amount" 0%Q;
  dl ← get_opt_str data "deadline";
  ic ← get_str data "icon" "flag";
  col ← get_str data "color" "#4CAF50";
  nt ← get_str data "notes" "";
  cp ← get_bool data "completed" false;
  Some (mk i n ta ca dl ic col nt cp).

Definition get_percentage_complete (self : t) : Q :=
  if Qeq_bool (target_amount self) 0 then 0%Q
  else (current_amount self / target_amount self * 100)%Q.

(** [max(0, self.target_amount - self.current_amount)]: the difference when
    it is greater than [0], else [0]. *)
Definition get_remaining_amount (self : t) : Q :=
  let rest := (target_amount self - current_amount self)%Q in
  if negb (Qle_bool rest 0) then rest else 0%Q.

End Goal.

Module Debt.

Record t := mk
  { id : option Z;
    debt_type : string;
    person_name : string;
    amount : Q;
    amount_paid : Q;
    date : option string;
    due_date : option string;
    interest_rate : Q;
    notes : string;
    settled : bool }.

Definition to_dict (self : t) : gmap string pyval :=
  <["id" := of_opt_int (id self)]>
  (<["debt_type" := VStr (debt_type self)]>
  (<["person_name" := VStr (person_name self)]>
  (<["amount" := VFloat (amount self)]>
  (<["amount_paid" := VFloat (amount_paid self)]>
  (<["date" := of_opt_str (date self)]>
  (<["due_date" := of_opt_str (due_date self)]>
  (<["interest_rate" := VFloat (interest_rate self)]>
  (<["notes" := VStr (notes self)]>
  (<["settled" := VBool (settled self)]> ∅))))))))).

Definition from_dict (data : gmap string pyval) : option t :=
  i ← get_opt_int data "id";
  ty ← get_str data "debt_type" "Borrowed";
  pn ← get_str data "person_name" "";
  am ← get_float data "amount" 0%Q;
  ap ← get_float data "amount_paid" 0%Q;
  d ← get_opt_str data "date";
  dd ← get_opt_str data "due_date";
  ir ← get_float data "interest_rate" 0%Q;
  nt ← get_str data "notes" "";
  st ← get_bool data "settled" false;
  Some (mk i ty pn am ap d dd ir nt st).

(** [max(0, self.amount - self.amount_paid)] *)
Definition get_remaining_amount (self : t) : Q :=
  let rest := (amount self - amount_paid self)%Q in
  if negb (Qle_bool rest 0) then rest else 0%Q.

Definition get_percentage_paid (self : t) : Q :=
  if Qeq_bool (amount self) 0 then 0%Q
  else (amount_paid self / amount self * 100)%Q.

End Debt.

Module RecurringTransaction.

Record t := mk
  { id : option Z;
    transaction_type : string;
    amount : Q;
    category_id : option Z;
    subcategory_id : option Z;
    account_id : option Z;
    description : string;
    frequency : string;
    custom_interval : Z;
    start_date : option string;
    end_date : option string;
    next_due_date : option string;
    auto_create : bool;
    active : bool }.

Definition to_dict (self : t) : gmap string pyval :=
  <["id" := of_opt_int (id self)]>
  (<["transaction_type" := VStr (transaction_type self)]>
  (<["amount" := VFloat (amount self)]>
  (<["category_id" := of_opt_int (category_id self)]>
  (<["subcategory_id" := of_opt_int (subcategory_id self)]>
  (<["account_id" := of_opt_int (account_id self)]>
  (<["description" := VStr (description self)]>
  (<["frequency" := VStr (frequency self)]>
  (<["custom_interval" := VInt (custom_interval self)]>
  (<["start_date" := of_opt_str (start_date self)]>
  (<["end_date" := of_opt_str (end_date self)]>
  (<["next_due_date" := of_opt_str (next_due_date self)]>
  (<["auto_create" := VBool (auto_create self)]>
  (<["active" := VBool (active self)]> ∅))))))))))))).

Definition from_dict (data : gmap string pyval) : option t :=
  i ← get_opt_int data "id";
  ty ← get_str data "transaction_type" "Expense";
  am ← get_float data "amount" 0%Q;
  cat ← get_opt_int data "category_id";
  sub ← get_opt_int data "subcategory_id";
  acc ← get_opt_int data "account_id";
  desc ← get_str data "description" "";
  fr ← get_str data "frequency" "Monthly";
  ci ← get_int data "custom_interval" 1;
  sd ← get_opt_str data "start_date";
  ed ← get_opt_str data "end_date";
  nd ← get_opt_str data "next_due_date";
  ac ← get_bool data "auto_create" true;
  av ← get_bool data "active" true;
  Some (mk i ty am cat sub acc desc fr ci sd ed nd ac av).

End RecurringTransaction.

(** ** Persistence store ([utils/database.py]) *)

Module Database.

(** *** Rows of the tables, one record per [CREATE TABLE] *)

Module CategoryRow.
Record t := mk
  { id : Z; name : string; category_type : string;
    icon : string; color : string }.
End CategoryRow.

Module AccountRow.
Record t := mk
  { id : Z;
    name : string;
    account_type : string;
    initial_balance : Q;
    current_balance : Q;
    currency : string;
    icon : string;
    color : string;
    is_credit_card : bool;
    credit_limit : Q;
    due_date : option string;
    interest_rate : Q;
    notes : string }.

Definition set_current_balance (r : t) (v : Q) : t :=
  mk (id r) (name r) (account_type r) (initial_balance r) v (currency r)
     (icon r) (color r) (is_credit_card r) (credit_limit r) (due_date r)
     (interest_rate r) (notes r).
End AccountRow.

Module TransactionRow.
Record t := mk
  { id : Z;
    transaction_type : string;
    amount : Q;
    category_id : option Z;
    subcategory_id : option Z;
    account_id : option Z;
    to_account_id : option Z;
    date : string;
    time : string;
    description : string;
    payment_method : string;
    tags : string;
    receipt_path : option string;
    recurring_id : option Z }.
End TransactionRow.

Module BudgetRow.
Record t := mk
  { id : Z;
    category_id : option Z;
    amount : Q;
    period : string;
    start_date : option string;
    end_date : option string;
    alert_percentage : Q;
    spent : Q }.

Definition set_spent (r : t) (v : Q) : t :=
  mk (id r) (category_id r) (amount r) (period r) (start_date r)
     (end_date r) (alert_percentage r) v.
End BudgetRow.

Module RecurringRow.
Record t := mk
  { id : Z;
    transaction_type : string;
    amount : Q;
    category_id : option Z;
    subcategory_id : option Z;
    account_id : option Z;
    description : string;
    frequency : string;
    custom_interval : Z;
    start_date : option string;
    end_date : option string;
    next_due_date : option string;
    auto_create : bool;
    active : bool }.

Definition set_next_due_date (r : t) (v : option string) : t :=
  mk (id r) (transaction_type r) (amount r) (category_id r)
     (subcategory_id r) (account_id r) (description r) (frequency r)
     (custom_interval r) (start_date r) (end_date r) v (auto_create r)
     (active r).
End RecurringRow.

(** *** The store: the nine tables and the key counters *)

Record Store := mkStore
  { categories : list CategoryRow.t;
    subcategories : list Subcategory.t;
    accounts : list AccountRow.t;
    transactions : list TransactionRow.t;
    budgets : list BudgetRow.t;
    goals : list Goal.t;
    debts : list Debt.t;
    recurring_transactions : list RecurringRow.t;
    settings : list (string * string);
    seq_accounts : Z;
    seq_transactions : Z;
    seq_budgets : Z;
    seq_recurring : Z }.

Definition set_accounts (db : Store) (v : list AccountRow.t) : Store :=
  mkStore (categories db) (subcategories db) v (transactions db)
    (budgets db) (goals db) (debts db) (recurring_transactions db)
    (settings db) (seq_accounts db) (seq_transactions db) (seq_budgets db)
    (seq_recurring db).

Definition set_transactions (db : Store) (v : list TransactionRow.t)
  : Store :=
  mkStore (categories db) (subcategories db) (accounts db) v
    (budgets db) (goals db) (debts db) (recurring_transactions db)
    (settings db) (seq_accounts db) (seq_transactions db) (seq_budgets db)
    (seq_recurring db).

Definition set_budgets (db : Store) (v : list BudgetRow.t) : Store :=
  mkStore (categories db) (subcategories db) (accounts db)
    (transactions db) v (goals db) (debts db) (recurring_transactions db)
    (settings db) (seq_accounts db) (seq_transactions db) (seq_budgets db)
    (seq_recurring db).

Definition set_recurring_transactions (db : Store)
    (v : list RecurringRow.t) : Store :=
  mkStore (categories db) (subcategories db) (accounts db)
    (transactions db) (budgets db) (goals db) (debts db) v
    (settings db) (seq_accounts db) (seq_transactions db) (seq_budgets db)
    (seq_recurring db).

(** A store with no rows. *)
Definition empty : Store :=
  mkStore [] [] [] [] [] [] [] [] [] 0 0 0 0.

(** *** SQL helpers *)

(** [SUM(x)]: [NULL] over no rows, else the rows added up in order. *)
Definition sql_sum (xs : list Q) : option Q :=
  match xs with
  | [] => None
  | _ :: _ => Some (fold_left Qplus xs 0%Q)
  end.

(** [result if result else 0.0]: [None] and a zero are false. *)
Definition or_zero (result : option Q) : Q :=
  match result with
  | Some q => if Qeq_bool q 0 then 0%Q else q
  | None => 0%Q
  end.

(** [date BETWEEN lo AND hi] on texts. *)
Definition between (date lo hi : string) : bool :=
  String.leb lo date && String.leb date hi.

(** [column = ?] between a nullable integer and an integer: [NULL] equals
    nothing. *)
Definition col_eq (column : option Z) (param : Z) : bool :=
  match column with
  | Some z => z =? param
  | None => false
  end.

(** *** Accounts *)

Definition add_account (db : Store) (account : Account.t) : Store * Z :=
  let account_id := seq_accounts db + 1 in
  let row :=
    AccountRow.mk account_id (Account.name account)
      (Account.account_type account) (Account.initial_balance account)
      (Account.current_balance account) (Account.currency account)
      (Account.icon account) (Account.color account)
      (Account.is_credit_card account) (Account.credit_limit account)
      (Account.due_date account) (Account.interest_rate account)
      (Account.notes account) in
  (mkStore (categories db) (subcategories db) (accounts db ++ [row])
     (transactions db) (budgets db) (goals db) (debts db)
     (recurring_transactions db) (settings db) account_id
     (seq_transactions db) (seq_budgets db) (seq_recurring db),
   account_id).

Definition get_accounts (db : Store) : list AccountRow.t := accounts db.

Definition get_account_by_id (db : Store) (account_id : Z)
  : option AccountRow.t :=
  find (fun r => AccountRow.id r =? account_id) (accounts db).

(** [UPDATE accounts SET current_balance = current_balance + ? WHERE id=?] *)
Definition update_account_balance (db : Store) (account_id : Z)
    (amount : Q) : Store :=
  set_accounts db
    (map (fun r =>
            if AccountRow.id r =? account_id
            then AccountRow.set_current_balance r
                   (AccountRow.current_balance r + amount)%Q
            else r)
         (accounts db)).

Definition get_total_balance (db : Store) : Q :=
  or_zero (sql_sum (map AccountRow.current_balance (accounts db))).

(** *** Transactions *)

Definition get_transaction_by_id (db : Store) (transaction_id : option Z)
  : option TransactionRow.t :=
  match transaction_id with
  | Some k => find (fun r => TransactionRow.id r =? k) (transactions db)
  | None => None
  end.

Definition add_transaction (db : Store) (transaction : Transaction.t)
  : Store * Z :=
  let transaction_id := seq_transactions db + 1 in
  let row :=
    TransactionRow.mk transaction_id
      (Transaction.transaction_type transaction)
      (Transaction.amount transaction)
      (Transaction.category_id transaction)
      (Transaction.subcategory_id transaction)
      (Transaction.account_id transaction)
      (Transaction.to_account_id transaction)
      (Transaction.date_text (Transaction.date transaction))
      (Transaction.time transaction)
      (Transaction.description transaction)
      (Transaction.payment_method transaction)
      (Transaction.tags transaction)
      (Transaction.receipt_path transaction)
      (Transaction.recurring_id transaction) in
  let db :=
    mkStore (categories db) (subcategories db) (accounts db)
      (transactions db ++ [row]) (budgets db) (goals db) (debts db)
      (recurring_transactions db) (settings db) (seq_accounts db)
      transaction_id (seq_budgets db) (seq_recurring db) in
  let ty := Transaction.transaction_type transaction in
  let amount := Transaction.amount transaction in
  let db :=
    match String.eqb ty "Expense",
          truthy_id (Transaction.account_id transaction) with
    | true, Some a => update_account_balance db a (- amount)%Q
    | _, _ =>
      match String.eqb ty "Income",
            truthy_id (Transaction.account_id transaction) with
      | true, Some a => update_account_balance db a amount
      | _, _ =>
        if String.eqb ty "Transfer" then
          let db :=
            match truthy_id (Transaction.account_id transaction) with
            | Some a => update_account_balance db a (- amount)%Q
            | None => db
            end in
          match truthy_id (Transaction.to_account_id transaction) with
          | Some a => update_account_balance db a amount
          | None => db
          end
        else db
      end
    end in
  (db, transaction_id).

Definition update_transaction (db : Store) (transaction : Transaction.t)
  : Store :=
  let old_trans := get_transaction_by_id db (Transaction.id transaction) in
  let db :=
    match old_trans with
    | Some old =>
      match String.eqb (TransactionRow.transaction_type old) "Expense",
            truthy_id (TransactionRow.account_id old) with
      | true, Some a =>
          update_account_balance db a (TransactionRow.amount old)
      | _, _ =>
        match String.eqb (TransactionRow.transaction_type old) "Income",
              truthy_id (TransactionRow.account_id old) with
        | true, Some a =>
            update_account_balance db a (- TransactionRow.amount old)%Q
        | _, _ => db
        end
      end
    | None => db
    end in
  let db :=
    set_transactions db
      (map (fun r =>
              if col_eq (Transaction.id transaction) (TransactionRow.id r)
              then
                TransactionRow.mk (TransactionRow.id r)
                  (Transaction.transaction_type transaction)
                  (Transaction.amount transaction)
                  (Transaction.category_id transaction)
                  (Transaction.subcategory_id transaction)
                  (Transaction.account_id transaction)
                  (Transaction.to_account_id transaction)
                  (Transaction.date_text (Transaction.date transaction))
                  (Transaction.time transaction)
                  (Transaction.description transaction)
                  (Transaction.payment_method transaction)
                  (Transaction.tags transaction)
                  (Transaction.receipt_path transaction)
                  (TransactionRow.recurring_id r)
              else r)
           (transactions db)) in
  let ty := Transaction.transaction_type transaction in
  let amount := Transaction.amount transaction in
  match String.eqb ty "Expense",
        truthy_id (Transaction.account_id transaction) with
  | true, Some a => update_account_balance db a (- amount)%Q
  | _, _ =>
    match String.eqb ty "Income",
          truthy_id (Transaction.account_id transaction) with
    | true, Some a => update_account_balance db a amount
    | _, _ => db
    end
  end.

Definition delete_transaction (db : Store) (transaction_id : Z) : Store :=
  let trans := get_transaction_by_id db (Some transaction_id) in
  let db :=
    match trans with
    | Some old =>
      match String.eqb (TransactionRow.transaction_type old) "Expense",
            truthy_id (TransactionRow.account_id old) with
      | true, Some a =>
          update_account_balance db a (TransactionRow.amount old)
      | _, _ =>
        match String.eqb (TransactionRow.transaction_type old) "Income",
              truthy_id (TransactionRow.account_id old) with
        | true, Some a =>
            update_account_balance db a (- TransactionRow.amount old)%Q
        | _, _ => db
        end
      end
    | None => db
    end in
  set_transactions db
    (List.filter (fun r => negb (TransactionRow.id r =? transaction_id))
       (transactions db)).

(** *** Budgets *)

Definition add_budget (db : Store) (budget : Budget.t) : Store * Z :=
  let budget_id := seq_budgets db + 1 in
  let row :=
    BudgetRow.mk budget_id (Budget.category_id budget)
      (Budget.amount budget) (Budget.period budget)
      (Budget.start_date budget) (Budget.end_date budget)
      (Budget.alert_percentage budget) (Budget.spent budget) in
  (mkStore (categories db) (subcategories db) (accounts db)
     (transactions db) (budgets db ++ [row]) (goals db) (debts db)
     (recurring_transactions db) (settings db) (seq_accounts db)
     (seq_transactions db) budget_id (seq_recurring db),
   budget_id).

(** [SELECT b.*, c.name as category_name, ... FROM budgets b LEFT JOIN
    categories c ON b.category_id = c.id ORDER BY b.id]: every budget row
    with the category it refers to, if there is one. *)
Definition get_budgets (db : Store)
  : list (BudgetRow.t * option CategoryRow.t) :=
  map (fun b =>
         (b, find (fun c => col_eq (BudgetRow.category_id b)
                              (CategoryRow.id c))
               (categories db)))
      (budgets db).

Definition update_budget_spent (db : Store) (category_id : Z)
    (period_start period_end : string) : Store :=
  let result :=
    sql_sum
      (map TransactionRow.amount
         (List.filter (fun r =>
                    col_eq (TransactionRow.category_id r) category_id
                    && String.eqb (TransactionRow.transaction_type r)
                         "Expense"
                    && between (TransactionRow.date r)
                         period_start period_end)
            (transactions db))) in
  let spent := or_zero result in
  set_budgets db
    (map (fun b =>
            if col_eq (BudgetRow.category_id b) category_id
            then BudgetRow.set_spent b spent
            else b)
         (budgets db)).

(** *** Recurring patterns *)

Definition add_recurring_transaction (db : Store)
    (recurring : RecurringTransaction.t) : Store * Z :=
  let recurring_id := seq_recurring db + 1 in
  let row :=
    RecurringRow.mk recurring_id
      (RecurringTransaction.transaction_type recurring)
      (RecurringTransaction.amount recurring)
      (RecurringTransaction.category_id recurring)
      (RecurringTransaction.subcategory_id recurring)
      (RecurringTransaction.account_id recurring)
      (RecurringTransaction.description recurring)
      (RecurringTransaction.frequency recurring)
      (RecurringTransaction.custom_interval recurring)
      (RecurringTransaction.start_date recurring)
      (RecurringTransaction.end_date recurring)
      (RecurringTransaction.next_due_date recurring)
      (RecurringTransaction.auto_create recurring)
      (RecurringTransaction.active recurring) in
  (mkStore (categories db) (subcategories db) (accounts db)
     (transactions db) (budgets db) (goals db) (debts db)
     (recurring_transactions db ++ [row]) (settings db) (seq_accounts db)
     (seq_transactions db) (seq_budgets db) recurring_id,
   recurring_id).

(** The order of [ORDER BY r.next_due_date]: [NULL] sorts first, texts
    byte-wise. *)
Definition due_leb (a b : option string) : bool :=
  match a, b with
  | None, _ => true
  | Some _, None => false
  | Some x, Some y => String.leb x y
  end.

Fixpoint insert_by_due (r : RecurringRow.t) (l : list RecurringRow.t)
  : list RecurringRow.t :=
  match l with
  | [] => [r]
  | x :: l' =>
      if due_leb (RecurringRow.next_due_date r) (RecurringRow.next_due_date x)
      then r :: l
      else x :: insert_by_due r l'
  end.

Definition order_by_due (l : list RecurringRow.t) : list RecurringRow.t :=
  fold_right insert_by_due [] l.

(** [SELECT r.*, c.name as category_name FROM recurring_transactions r
    LEFT JOIN categories c ON r.category_id = c.id WHERE r.active = 1
    ORDER BY r.next_due_date]; rows with equal dates keep their rowid
    order. *)
Definition get_recurring_transactions (db : Store)
  : list (RecurringRow.t * option CategoryRow.t) :=
  map (fun r =>
         (r, find (fun c => col_eq (RecurringRow.category_id r)
                              (CategoryRow.id c))
               (categories db)))
      (order_by_due
         (List.filter (fun r => RecurringRow.active r)
            (recurring_transactions db))).

(** *** Analytics *)

Record IncomeExpense := mkIncomeExpense { income : Q; expense : Q }.

Definition get_income_vs_expense (db : Store) (start_date end_date : string)
  : IncomeExpense :=
  let rows :=
    List.filter (fun r => between (TransactionRow.date r) start_date end_date)
      (transactions db) in
  let row0 :=
    sql_sum
      (map (fun r =>
              if String.eqb (TransactionRow.transaction_type r) "Income"
              then TransactionRow.amount r else 0%Q)
         rows) in
  let row1 :=
    sql_sum
      (map (fun r =>
              if String.eqb (TransactionRow.transaction_type r) "Expense"
              then TransactionRow.amount r else 0%Q)
         rows) in
  {| income := or_zero row0; expense := or_zero row1 |}.

(** *** Sorted and windowed queries *)

(** [ORDER BY] as a stable insertion sort: [leb a b] says that [a] may
    come before [b]; rows that compare equal keep their rowid order. *)
Fixpoint insert_row {A : Type} (leb : A -> A -> bool) (r : A) (l : list A)
  : list A :=
  match l with
  | [] => [r]
  | x :: l' => if leb r x then r :: l else x :: insert_row leb r l'
  end.

Definition order_by {A : Type} (leb : A -> A -> bool) (l : list A)
  : list A :=
  fold_right (insert_row leb) [] l.

(** [LIMIT limit OFFSET offset]: a negative limit is no limit, a negative
    offset is no offset. *)
Definition sql_limit {A : Type} (limit offset : Z) (rows : list A)
  : list A :=
  let rest := skipn (Z.to_nat offset) rows in
  if limit <? 0 then rest else firstn (Z.to_nat limit) rest.

(** The order of [ORDER BY t.date DESC, t.id DESC]. *)
Definition newest_first (a b : TransactionRow.t) : bool :=
  match String.compare (TransactionRow.date b) (TransactionRow.date a) with
  | Lt => true
  | Eq => TransactionRow.id b <=? TransactionRow.id a
  | Gt => false
  end.

(** [get_transactions]: every transaction with the category and the
    account it refers to, if any; the window is applied [if limit:], that
    is for a limit that is neither [None] nor [0]. *)
Definition get_transactions (db : Store) (limit : option Z) (offset : Z)
  : list (TransactionRow.t * option CategoryRow.t * option AccountRow.t) :=
  let rows :=
    map (fun t =>
           (t,
            find (fun c => col_eq (TransactionRow.category_id t)
                             (CategoryRow.id c))
              (categories db),
            find (fun a => col_eq (TransactionRow.account_id t)
                             (AccountRow.id a))
              (accounts db)))
        (order_by newest_first (transactions db)) in
  match truthy_id limit with
  | Some n => sql_limit n offset rows
  | None => rows
  end.

(** *** Accounts, continued *)

(** [UPDATE accounts SET name=?, ... WHERE id=?] with the fields of
    [account]; an [id] of [None] selects no row. *)
Definition update_account (db : Store) (account : Account.t) : Store :=
  set_accounts db
    (map (fun r =>
            if col_eq (Account.id account) (AccountRow.id r)
            then
              AccountRow.mk (AccountRow.id r) (Account.name account)
                (Account.account_type account)
                (Account.initial_balance account)
                (Account.current_balance account) (Account.currency account)
                (Account.icon account) (Account.color account)
                (Account.is_credit_card account)
                (Account.credit_limit account) (Account.due_date account)
                (Account.interest_rate account) (Account.notes account)
            else r)
         (accounts db)).

(** [DELETE FROM accounts WHERE id=?] *)
Definition delete_account (db : Store) (account_id : Z) : Store :=
  set_accounts db
    (List.filter (fun r => negb (AccountRow.id r =? account_id))
       (accounts db)).

(** *** Goals and debts *)

(** The order of [ORDER BY flag, date]: [0] before [1]; between equal
    flags the date decides, [NULL] first. *)
Definition flag_then_date_leb (flag_a : bool) (date_a : option string)
    (flag_b : bool) (date_b : option string) : bool :=
  match flag_a, flag_b with
  | false, true => true
  | true, false => false
  | _, _ => due_leb date_a date_b
  end.

(** [SELECT * FROM goals ORDER BY completed, deadline] *)
Definition get_goals (db : Store) : list Goal.t :=
  order_by
    (fun a b =>
       flag_then_date_leb (Goal.completed a) (Goal.deadline a)
         (Goal.completed b) (Goal.deadline b))
    (goals db).

(** [SELECT * FROM debts ORDER BY settled, due_date] *)
Definition get_debts (db : Store) : list Debt.t :=
  order_by
    (fun a b =>
       flag_then_date_leb (Debt.settled a) (Debt.due_date a)
         (Debt.settled b) (Debt.due_date b))
    (debts db).

(** *** Settings *)

Definition set_settings (db : Store) (v : list (string * string)) : Store :=
  mkStore (categories db) (subcategories db) (accounts db)
    (transactions db) (budgets db) (goals db) (debts db)
    (recurring_transactions db) v (seq_accounts db) (seq_transactions db)
    (seq_budgets db) (seq_recurring db).

Definition get_setting (db : Store) (key : string) : option string :=
  match find (fun row => String.eqb (fst row) key) (settings db) with
  | Some row => Some (snd row)
  | None => None
  end.

(** [INSERT OR REPLACE INTO settings (key, value) VALUES (?, ?)]: the row
    of that key, if any, is deleted, and the new row is added. *)
Definition set_setting (db : Store) (key value : string) : Store :=
  set_settings db
    (List.filter (fun row => negb (String.eqb (fst row) key)) (settings db)
     ++ [(key, value)])%list.

(** *** Default data *)

Definition expense_categories : list (string * string * string) :=
  [ ("Food & Dining", "restaurant", "#FF5722");
    ("Shopping", "cart", "#E91E63");
    ("Transportation", "car", "#9C27B0");
    ("Entertainment", "movie", "#673AB7");
    ("Bills & Utilities", "file-document", "#3F51B5");
    ("Healthcare", "hospital", "#2196F3");
    ("Education", "school", "#03A9F4");
    ("Travel", "airplane", "#00BCD4");
    ("Personal", "account", "#009688");
    ("Others", "dots-horizontal", "#795548") ].

Definition income_categories : list (string * string * string) :=
  [ ("Salary", "cash", "#4CAF50");
    ("Business", "briefcase", "#8BC34A");
    ("Investments", "trending-up", "#CDDC39");
    ("Gifts", "gift", "#FFC107");
    ("Other Income", "plus", "#FF9800") ].

Definition default_settings : list (string * string) :=
  [ ("currency", "USD");
    ("date_format", "%Y-%m-%d");
    ("theme", "Light");
    ("pin_code", "");
    ("auto_backup", "0");
    ("backup_frequency", "weekly");
    ("financial_month_start", "1") ].

(** One [INSERT INTO categories] per entry; the table and its key counter
    are threaded through. *)
Definition insert_categories (category_type : string)
    (entries : list (string * string * string))
    (table : list CategoryRow.t * Z) : list CategoryRow.t * Z :=
  fold_left
    (fun acc entry =>
       let '(name, icon, color) := entry in
       let category_id := snd acc + 1 in
       ((fst acc ++ [CategoryRow.mk category_id name category_type icon
                       color])%list,
        category_id))
    entries table.

(** [INSERT OR IGNORE INTO settings (key, value) VALUES (?, ?)] *)
Definition insert_or_ignore (rows : list (string * string))
    (row : string * string) : list (string * string) :=
  if existsb (fun r => String.eqb (fst r) (fst row)) rows then rows
  else (rows ++ [row])%list.

(** [initialize_default_data]. The key counter of the categories table,
    which the store record does not carry, is passed and returned; [notes]
    is the value that the default account reads back for the column that
    the insertion leaves out. *)
Definition initialize_default_data (db : Store) (seq_categories : Z)
    (notes : string) : Store * Z :=
  let count := Z.of_nat (length (categories db)) in
  let '(categories', seq_categories') :=
    if count =? 0 then
      insert_categories "Income" income_categories
        (insert_categories "Expense" expense_categories
           (categories db, seq_categories))
    else (categories db, seq_categories) in
  let count := Z.of_nat (length (accounts db)) in
  let '(accounts', seq_accounts') :=
    if count =? 0 then
      let account_id := seq_accounts db + 1 in
      ((accounts db ++
        [AccountRow.mk account_id "Cash" "Cash" 0%Q 0%Q "USD" "wallet"
           "#4CAF50" false 0%Q None 0%Q notes])%list,
       account_id)
    else (accounts db, seq_accounts db) in
  let settings' := fold_left insert_or_ignore default_settings (settings db) in
  (mkStore categories' (subcategories db) accounts' (transactions db)
     (budgets db) (goals db) (debts db) (recurring_transactions db)
     settings' seq_accounts' (seq_transactions db) (seq_budgets db)
     (seq_recurring db),
   seq_categories').

(** *** Analytics, continued *)

(** [get_expense_by_category]: one row per category that has an expense in
    the range, with the sum of these expenses, the largest sum first. A
    category is one group, its key being unique. *)
Definition get_expense_by_category (db : Store)
    (start_date end_date : string) : list (string * string * Q) :=
  let rows :=
    List.filter
      (fun t =>
         String.eqb (TransactionRow.transaction_type t) "Expense"
         && between (TransactionRow.date t) start_date end_date)
      (transactions db) in
  let groups :=
    flat_map
      (fun c =>
         match
           sql_sum
             (map TransactionRow.amount
                (List.filter
                   (fun t => col_eq (TransactionRow.category_id t)
                               (CategoryRow.id c))
                   rows))
         with
         | Some total => [(CategoryRow.name c, CategoryRow.color c, total)]
         | None => []
         end)
      (categories db) in
  order_by (fun a b => Qle_bool (snd b) (snd a)) groups.

End Database.

(** ** Recurrence and alert engines ([utils/reminders.py]) *)

Module ReminderManager.

Import Database.

(** [check_recurring_transactions], with [today] the text of the current
    day. *)
Definition check_recurring_transactions (db : Store) (today : string)
  : list (RecurringRow.t * option CategoryRow.t) :=
  let recurring := get_recurring_transactions db in
  fold_left
    (fun due_transactions trans =>
       match truthy_str (RecurringRow.next_due_date (fst trans)) with
       | Some d =>
           if String.leb d today then
             if RecurringRow.active (fst trans)
                && RecurringRow.auto_create (fst trans)
             then (due_transactions ++ [trans])%list
             else due_transactions
           else due_transactions
       | None => due_transactions
       end)
    recurring [].

(** [calculate_next_due_date]; [None] stands for the [ValueError] of
    [strptime] or the [OverflowError] of the addition. *)
Definition calculate_next_due_date (current_date frequency : string)
    (interval : Z) : option string :=
  match Datetime.strptime_ymd current_date with
  | None => None
  | Some date =>
      let next_date :=
        if String.eqb frequency "Daily" then Datetime.add_days date interval
        else if String.eqb frequency "Weekly"
        then Datetime.add_days date (7 * interval)
        else if String.eqb frequency "Monthly"
        then Datetime.add_days date (30 * interval)
        else if String.eqb frequency "Yearly"
        then Datetime.add_days date (365 * interval)
        else Datetime.add_days date interval in
      option_map Datetime.strftime_ymd next_date
  end.

(** The loop of [create_recurring_transaction_instances] over the due
    patterns found at its start. The count is [None] when
    [calculate_next_due_date] raises: the transaction of that pattern is
    already committed and the loop is left. *)
Fixpoint create_instances_loop (db : Store) (now : Datetime.t)
    (due_transactions : list (RecurringRow.t * option CategoryRow.t))
    (created_count : Z) : Store * option Z :=
  match due_transactions with
  | [] => (db, Some created_count)
  | (recurring, _) :: rest =>
      let transaction :=
        Transaction.init now None
          (RecurringRow.transaction_type recurring)
          (RecurringRow.amount recurring)
          (RecurringRow.category_id recurring)
          (RecurringRow.subcategory_id recurring)
          (RecurringRow.account_id recurring)
          None
          (Some (Transaction.PyDatetime now))
          None
          (RecurringRow.description recurring)
          "" ""
          None
          (Some (RecurringRow.id recurring)) in
      let db := fst (add_transaction db transaction) in
      match
        match RecurringRow.next_due_date recurring with
        | Some d =>
            calculate_next_due_date d (RecurringRow.frequency recurring)
              (RecurringRow.custom_interval recurring)
        | None => None
        end
      with
      | None => (db, None)
      | Some next_date =>
          let db :=
            set_recurring_transactions db
              (map (fun r =>
                      if RecurringRow.id r =? RecurringRow.id recurring
                      then RecurringRow.set_next_due_date r (Some next_date)
                      else r)
                 (recurring_transactions db)) in
          create_instances_loop db now rest (created_count + 1)
      end
  end.

Definition create_recurring_transaction_instances (db : Store)
    (now : Datetime.t) : Store * option Z :=
  let due_transactions :=
    check_recurring_transactions db (Datetime.strftime_ymd now) in
  create_instances_loop db now due_transactions 0.

(** The dictionary that [check_budget_alerts] appends. *)
Record BudgetAlert := mkBudgetAlert
  { alert_type : string;
    category : option string;
    percentage : Q;
    spent : Q;
    amount : Q;
    severity : string }.

(** [(budget['spent'] / budget['amount'] * 100) if budget['amount'] > 0
    else 0] *)
Definition budget_percentage (budget : BudgetRow.t) : Q :=
  if negb (Qle_bool (BudgetRow.amount budget) 0)
  then (BudgetRow.spent budget / BudgetRow.amount budget * 100)%Q
  else 0%Q.

Definition check_budget_alerts (db : Store) : list BudgetAlert :=
  let budgets := get_budgets db in
  fold_left
    (fun alerts budget =>
       let percentage := budget_percentage (fst budget) in
       if Qle_bool (BudgetRow.alert_percentage (fst budget)) percentage
       then
         (alerts ++
         [ {| alert_type := "budget_alert";
              category := option_map CategoryRow.name (snd budget);
              percentage := percentage;
              spent := BudgetRow.spent (fst budget);
              amount := BudgetRow.amount (fst budget);
              severity := if Qle_bool 100 percentage
                          then "high" else "medium" |} ])%list
       else alerts)
    budgets [].

(** The dictionary that [check_debt_due_dates] appends. *)
Module DebtAlert.
Record t := mk
  { alert_type : string;
    person : string;
    amount : Q;
    due_date : string;
    days_until_due : Z;
    severity : string }.
End DebtAlert.

(** The loop of [check_debt_due_dates] over the rows of [get_debts], with
    [today] the reading of the clock; [None] stands for the [ValueError]
    of [strptime]. *)
Fixpoint debt_alerts_loop (debts : list Debt.t) (today : Datetime.t)
    (alerts : list DebtAlert.t) : option (list DebtAlert.t) :=
  match debts with
  | [] => Some alerts
  | debt :: rest =>
      if Debt.settled debt then debt_alerts_loop rest today alerts
      else
        match truthy_str (Debt.due_date debt) with
        | None => debt_alerts_loop rest today alerts
        | Some text =>
            match Datetime.strptime_ymd text with
            | None => None
            | Some due_date =>
                let days_until_due := Datetime.sub_days due_date today in
                if days_until_due <=? 7 then
                  debt_alerts_loop rest today
                    (alerts ++
                     [ DebtAlert.mk "debt_due" (Debt.person_name debt)
                         (Debt.amount debt - Debt.amount_paid debt)%Q
                         text days_until_due
                         (if days_until_due <=? 0 then "high"
                          else "medium") ])%list
                else debt_alerts_loop rest today alerts
            end
        end
  end.

Definition check_debt_due_dates (db : Store) (today : Datetime.t)
  : option (list DebtAlert.t) :=
  debt_alerts_loop (get_debts db) today [].

(** The dictionary that [check_goal_deadlines] appends. *)
Module GoalAlert.
Record t := mk
  { alert_type : string;
    name : string;
    percentage : Q;
    remaining : Q;
    deadline : string;
    days_until_deadline : Z;
    severity : string }.
End GoalAlert.

(** [(goal['current_amount'] / goal['target_amount'] * 100) if
    goal['target_amount'] > 0 else 0] *)
Definition goal_percentage (goal : Goal.t) : Q :=
  if negb (Qle_bool (Goal.target_amount goal) 0)
  then (Goal.current_amount goal / Goal.target_amount goal * 100)%Q
  else 0%Q.

Fixpoint goal_alerts_loop (goals : list Goal.t) (today : Datetime.t)
    (alerts : list GoalAlert.t) : option (list GoalAlert.t) :=
  match goals with
  | [] => Some alerts
  | goal :: rest =>
      if Goal.completed goal then goal_alerts_loop rest today alerts
      else
        match truthy_str (Goal.deadline goal) with
        | None => goal_alerts_loop rest today alerts
        | Some text =>
            match Datetime.strptime_ymd text with
            | None => None
            | Some deadline =>
                let days_until_deadline :=
                  Datetime.sub_days deadline today in
                let percentage := goal_percentage goal in
                if (days_until_deadline <=? 30)
                   && negb (Qle_bool 100 percentage)
                then
                  goal_alerts_loop rest today
                    (alerts ++
                     [ GoalAlert.mk "goal_deadline" (Goal.name goal)
                         percentage
                         (Goal.target_amount goal
                          - Goal.current_amount goal)%Q
                         text days_until_deadline "low" ])%list
                else goal_alerts_loop rest today alerts
            end
        end
  end.

Definition check_goal_deadlines (db : Store) (today : Datetime.t)
  : option (list GoalAlert.t) :=
  goal_alerts_loop (get_goals db) today [].

End ReminderManager.

(** ** Text protection ([utils/security.py]) *)

(** A text is the list of its code points. *)
Module Security.

Inductive error : Type := ZeroDivisionError | ValueError.

Inductive outcome : Type :=
| Returns (text : list Z)
| Raises (e : error).

Definition MAXUNICODE : Z := 1114111.

(** [chr(i)]: [None] stands for its [ValueError]. *)
Definition chr (i : Z) : option Z :=
  if (0 <=? i) && (i <=? MAXUNICODE) then Some i else None.

(** The loop of [encrypt_simple] from index [i] on. *)
Fixpoint encrypt_loop (data key : list Z) (i : Z) (encrypted : list Z)
  : outcome :=
  match data with
  | [] => Returns encrypted
  | char :: rest =>
      let key_length := Z.of_nat (length key) in
      if key_length =? 0 then Raises ZeroDivisionError
      else
        let key_char := nth (Z.to_nat (i mod key_length)) key 0 in
        match chr (Z.lxor char key_char) with
        | Some encrypted_char =>
            encrypt_loop rest key (i + 1) (encrypted ++ [encrypted_char])
        | None => Raises ValueError
        end
  end.

Definition encrypt_simple (data key : list Z) : outcome :=
  encrypt_loop data key 0 [].

Definition decrypt_simple (data key : list Z) : outcome :=
  encrypt_simple data key.

End Security.

(** * Vocabulary of the specification *)

Import Database.

(** ** Frames of the store *)

(** What [update_account_balance] leaves alone in a row. *)
Definition same_but_balance (r r' : AccountRow.t) : Prop :=
  AccountRow.id r' = AccountRow.id r
  /\ AccountRow.name r' = AccountRow.name r
  /\ AccountRow.account_type r' = AccountRow.account_type r
  /\ AccountRow.initial_balance r' = AccountRow.initial_balance r
  /\ AccountRow.currency r' = AccountRow.currency r
  /\ AccountRow.icon r' = AccountRow.icon r
  /\ AccountRow.color r' = AccountRow.color r
  /\ AccountRow.is_credit_card r' = AccountRow.is_credit_card r
  /\ AccountRow.credit_limit r' = AccountRow.credit_limit r
  /\ AccountRow.due_date r' = AccountRow.due_date r
  /\ AccountRow.interest_rate r' = AccountRow.interest_rate r
  /\ AccountRow.notes r' = AccountRow.notes r.

(** Two stores agree on every table but [accounts], and on the key
    counters. *)
Definition same_but_accounts (db db' : Store) : Prop :=
  categories db' = categories db
  /\ subcategories db' = subcategories db
  /\ transactions db' = transactions db
  /\ budgets db' = budgets db
  /\ goals db' = goals db
  /\ debts db' = debts db
  /\ recurring_transactions db' = recurring_transactions db
  /\ settings db' = settings db
  /\ seq_accounts db' = seq_accounts db
  /\ seq_transactions db' = seq_transactions db
  /\ seq_budgets db' = seq_budgets db
  /\ seq_recurring db' = seq_recurring db.

(** Two stores agree on every table but [accounts] and [transactions], and
    on the key counters. *)
Definition same_other_tables (db db' : Store) : Prop :=
  categories db' = categories db
  /\ subcategories db' = subcategories db
  /\ budgets db' = budgets db
  /\ goals db' = goals db
  /\ debts db' = debts db
  /\ recurring_transactions db' = recurring_transactions db
  /\ settings db' = settings db
  /\ seq_accounts db' = seq_accounts db
  /\ seq_transactions db' = seq_transactions db
  /\ seq_budgets db' = seq_budgets db
  /\ seq_recurring db' = seq_recurring db.

(** ** Queries and alerts *)

(** The sum of a list of amounts, the "sum" of the specification. *)
Definition Qsum (xs : list Q) : Q := fold_right Qplus 0%Q xs.

(** An Expense row of the category dated inside the inclusive range. *)
Definition expense_in_period (category_id : Z) (lo hi : string)
    (r : TransactionRow.t) : bool :=
  col_eq (TransactionRow.category_id r) category_id
  && String.eqb (TransactionRow.transaction_type r) "Expense"
  && between (TransactionRow.date r) lo hi.

(** A row of the given type dated inside the inclusive range. *)
Definition typed_in_range (ty lo hi : string) (r : TransactionRow.t) : bool :=
  String.eqb (TransactionRow.transaction_type r) ty
  && between (TransactionRow.date r) lo hi.

(** The threshold test of the budget alert. *)
Definition alert_fires (budget : BudgetRow.t * option CategoryRow.t) : bool :=
  Qle_bool (BudgetRow.alert_percentage (fst budget))
    (ReminderManager.budget_percentage (fst budget)).

(** The alert reported for a budget that reached its threshold. *)
Definition alert_for (budget : BudgetRow.t * option CategoryRow.t)
  : ReminderManager.BudgetAlert :=
  ReminderManager.mkBudgetAlert "budget_alert"
    (option_map CategoryRow.name (snd budget))
    (ReminderManager.budget_percentage (fst budget))
    (BudgetRow.spent (fst budget))
    (BudgetRow.amount (fst budget))
    (if Qle_bool 100 (ReminderManager.budget_percentage (fst budget))
     then "high" else "medium").

(** ** The transaction write path *)

(** The row that [add_transaction] inserts under the key [k]. *)
Definition inserted_row (k : Z) (transaction : Transaction.t)
  : TransactionRow.t :=
  TransactionRow.mk k
    (Transaction.transaction_type transaction)
    (Transaction.amount transaction)
    (Transaction.category_id transaction)
    (Transaction.subcategory_id transaction)
    (Transaction.account_id transaction)
    (Transaction.to_account_id transaction)
    (Transaction.date_text (Transaction.date transaction))
    (Transaction.time transaction)
    (Transaction.description transaction)
    (Transaction.payment_method transaction)
    (Transaction.tags transaction)
    (Transaction.receipt_path transaction)
    (Transaction.recurring_id transaction).

(** The row that [update_transaction] writes over [r]: the attributes of the
    transaction, under the key and the [recurring_id] of [r]. *)
Definition updated_row (r : TransactionRow.t) (transaction : Transaction.t)
  : TransactionRow.t :=
  TransactionRow.mk (TransactionRow.id r)
    (Transaction.transaction_type transaction)
    (Transaction.amount transaction)
    (Transaction.category_id transaction)
    (Transaction.subcategory_id transaction)
    (Transaction.account_id transaction)
    (Transaction.to_account_id transaction)
    (Transaction.date_text (Transaction.date transaction))
    (Transaction.time transaction)
    (Transaction.description transaction)
    (Transaction.payment_method transaction)
    (Transaction.tags transaction)
    (Transaction.receipt_path transaction)
    (TransactionRow.recurring_id r).

(** The operations of the transaction write path. *)
Inductive op : Type :=
| Add (transaction : Transaction.t)
| Update (transaction : Transaction.t)
| Delete (transaction_id : Z).

Definition step (db : Store) (o : op) : Store :=
  match o with
  | Add transaction => fst (add_transaction db transaction)
  | Update transaction => update_transaction db transaction
  | Delete transaction_id => delete_transaction db transaction_id
  end.

Definition run (db : Store) (ops : list op) : Store := fold_left step ops db.

(** The signed balance effect of a transaction row on an account: an Expense
    takes its amount from its account, an Income adds it, a Transfer takes it
    from the source and adds it to the destination. *)
Definition signed_effect (account_id : Z) (r : TransactionRow.t) : Q :=
  let out :=
    if col_eq (TransactionRow.account_id r) account_id
    then (- TransactionRow.amount r)%Q else 0%Q in
  let into (o : option Z) :=
    if col_eq o account_id then TransactionRow.amount r else 0%Q in
  if String.eqb (TransactionRow.transaction_type r) "Expense" then out
  else if String.eqb (TransactionRow.transaction_type r) "Income"
  then into (TransactionRow.account_id r)
  else if String.eqb (TransactionRow.transaction_type r) "Transfer"
  then (out + into (TransactionRow.to_account_id r))%Q
  else 0%Q.

(** [initial_balance] plus the effects of the rows that exist. *)
Definition expected_balance (db : Store) (a : AccountRow.t) : Q :=
  (AccountRow.initial_balance a
   + Qsum (map (signed_effect (AccountRow.id a)) (transactions db)))%Q.

Definition balance_invariant (db : Store) : Prop :=
  forall a, In a (accounts db) ->
    (AccountRow.current_balance a == expected_balance db a)%Q.

(** The sum of the signed effects of a list of rows on an account. *)
Definition effects (account_id : Z) (rows : list TransactionRow.t) : Q :=
  Qsum (map (signed_effect account_id) rows).

(** The balances of the accounts are the initial balances plus [f]. *)
Definition balances_are (db : Store) (f : Z -> Q) : Prop :=
  forall a, In a (accounts db) ->
    (AccountRow.current_balance a
     == AccountRow.initial_balance a + f (AccountRow.id a))%Q.

(** [if account_id: update_account_balance(account_id, q)] *)
Definition credit (db : Store) (account_id : option Z) (q : Q) : Store :=
  match truthy_id account_id with
  | Some a => update_account_balance db a q
  | None => db
  end.

(** The store after the [INSERT] of [add_transaction]. *)
Definition with_new_row (db : Store) (row : TransactionRow.t) : Store :=
  mkStore (categories db) (subcategories db) (accounts db)
    (transactions db ++ [row]) (budgets db) (goals db) (debts db)
    (recurring_transactions db) (settings db) (seq_accounts db)
    (TransactionRow.id row) (seq_budgets db) (seq_recurring db).

(** The balance step of [add_transaction]. *)
Definition added (db : Store) (transaction : Transaction.t) : Store :=
  let ty := Transaction.transaction_type transaction in
  let amount := Transaction.amount transaction in
  if String.eqb ty "Expense"
  then credit db (Transaction.account_id transaction) (- amount)%Q
  else if String.eqb ty "Income"
  then credit db (Transaction.account_id transaction) amount
  else if String.eqb ty "Transfer"
  then credit (credit db (Transaction.account_id transaction) (- amount)%Q)
         (Transaction.to_account_id transaction) amount
  else db.

(** The reversal step of [update_transaction] and [delete_transaction]. *)
Definition reverted (db : Store) (old_trans : option TransactionRow.t)
  : Store :=
  match old_trans with
  | Some old =>
      if String.eqb (TransactionRow.transaction_type old) "Expense"
      then credit db (TransactionRow.account_id old) (TransactionRow.amount old)
      else if String.eqb (TransactionRow.transaction_type old) "Income"
      then credit db (TransactionRow.account_id old)
             (- TransactionRow.amount old)%Q
      else db
  | None => db
  end.

(** The last step of [update_transaction]. *)
Definition applied (db : Store) (transaction : Transaction.t) : Store :=
  if String.eqb (Transaction.transaction_type transaction) "Expense"
  then credit db (Transaction.account_id transaction)
         (- Transaction.amount transaction)%Q
  else if String.eqb (Transaction.transaction_type transaction) "Income"
  then credit db (Transaction.account_id transaction)
         (Transaction.amount transaction)
  else db.

(** The account on which the write path applies the effect of an Expense
    or of an Income: its [account_id], when it is not empty. *)
Definition applied_account (transaction : Transaction.t) : option Z :=
  if String.eqb (Transaction.transaction_type transaction) "Expense"
     || String.eqb (Transaction.transaction_type transaction) "Income"
  then truthy_id (Transaction.account_id transaction)
  else None.

(** The balance after that effect: an Expense takes the amount off, an
    Income adds it. *)
Definition applied_balance (transaction : Transaction.t) (balance : Q) : Q :=
  if String.eqb (Transaction.transaction_type transaction) "Expense"
  then (balance + - Transaction.amount transaction)%Q
  else (balance + Transaction.amount transaction)%Q.

(** The keys of the transactions are pairwise different and were drawn from
    the counter; no account has the key 0 (keys start at 1). *)
Definition wf_store (db : Store) : Prop :=
  List.NoDup (map TransactionRow.id (transactions db))
  /\ (forall r, In r (transactions db) ->
        TransactionRow.id r <= seq_transactions db)
  /\ (forall a, In a (accounts db) -> AccountRow.id a <> 0).

(** The operations on which the write path keeps the balances: any insert,
    and the edits and deletions that involve no Transfer and hit a row. *)
Definition supported (db : Store) (o : op) : Prop :=
  match o with
  | Add _ => True
  | Update transaction =>
      exists old,
        get_transaction_by_id db (Transaction.id transaction) = Some old
        /\ TransactionRow.transaction_type old <> "Transfer"
        /\ Transaction.transaction_type transaction <> "Transfer"
  | Delete transaction_id =>
      forall old,
        get_transaction_by_id db (Some transaction_id) = Some old ->
        TransactionRow.transaction_type old <> "Transfer"
  end.

Fixpoint all_supported (db : Store) (ops : list op) : Prop :=
  match ops with
  | [] => True
  | o :: rest => supported db o /\ all_supported (step db o) rest
  end.

(** ** Dates *)

(** The date as an eight-digit number. *)
Definition iso_number (dt : Datetime.t) : Z :=
  Datetime.year dt * 10000 + Datetime.month dt * 100 + Datetime.day dt.

(** ** Recurrence *)

(** A pattern is due on [today]: it has a date, the date has arrived, and
    the pattern is active and created automatically. *)
Definition is_due (today : string)
    (trans : RecurringRow.t * option CategoryRow.t) : bool :=
  match truthy_str (RecurringRow.next_due_date (fst trans)) with
  | Some d =>
      String.leb d today
      && (RecurringRow.active (fst trans)
          && RecurringRow.auto_create (fst trans))
  | None => false
  end.

(** The ISO date [k] days after the ISO date [D]; [None] when [D] is not a
    date or the result leaves the years 1 to 9999. *)
Definition shift_date (D : string) (k : Z) : option string :=
  match Datetime.strptime_ymd D with
  | Some date => option_map Datetime.strftime_ymd (Datetime.add_days date k)
  | None => None
  end.

(** The transaction that the materialization builds from a pattern. *)
Definition instance_of (now : Datetime.t) (recurring : RecurringRow.t)
  : Transaction.t :=
  Transaction.init now None
    (RecurringRow.transaction_type recurring)
    (RecurringRow.amount recurring)
    (RecurringRow.category_id recurring)
    (RecurringRow.subcategory_id recurring)
    (RecurringRow.account_id recurring)
    None (Some (Transaction.PyDatetime now)) None
    (RecurringRow.description recurring) "" "" None
    (Some (RecurringRow.id recurring)).

(** The next due date computed for a pattern, [None] when the computation
    raises. *)
Definition next_due_of (recurring : RecurringRow.t) : option string :=
  match RecurringRow.next_due_date recurring with
  | Some d =>
      ReminderManager.calculate_next_due_date d
        (RecurringRow.frequency recurring)
        (RecurringRow.custom_interval recurring)
  | None => None
  end.

(** The first day of the years in which every platform prints the year of
    a date with four digits. *)
Definition FIRST_FOUR_DIGIT_DAY : Z := Datetime.ymd2ord 1000 1 1.

(** [calculate_next_due_date D F N] is the date [k] days after [D]: for a
    cursor that is a date, when that day lies in the years 1000 to 9999, the
    result is the ISO text of the date whose day count is [k] more. *)
Definition moves_cursor (D F : string) (N k : Z) : Prop :=
  forall d,
    Datetime.strptime_ymd D = Some d ->
    FIRST_FOUR_DIGIT_DAY <= Datetime.toordinal d + k <= Datetime.MAXORDINAL ->
    exists D' d',
      ReminderManager.calculate_next_due_date D F N = Some D'
      /\ Datetime.strptime_ymd D' = Some d'
      /\ D' = Datetime.strftime_ymd d'
      /\ 1000 <= Datetime.year d'
      /\ Datetime.toordinal d' = Datetime.toordinal d + k.

(** A row that differs from [r] at most in its next due date. *)
Definition same_but_next_due (r r' : RecurringRow.t) : Prop :=
  RecurringRow.id r' = RecurringRow.id r
  /\ RecurringRow.transaction_type r' = RecurringRow.transaction_type r
  /\ RecurringRow.amount r' = RecurringRow.amount r
  /\ RecurringRow.category_id r' = RecurringRow.category_id r
  /\ RecurringRow.subcategory_id r' = RecurringRow.subcategory_id r
  /\ RecurringRow.account_id r' = RecurringRow.account_id r
  /\ RecurringRow.description r' = RecurringRow.description r
  /\ RecurringRow.frequency r' = RecurringRow.frequency r
  /\ RecurringRow.custom_interval r' = RecurringRow.custom_interval r
  /\ RecurringRow.start_date r' = RecurringRow.start_date r
  /\ RecurringRow.end_date r' = RecurringRow.end_date r
  /\ RecurringRow.auto_create r' = RecurringRow.auto_create r
  /\ RecurringRow.active r' = RecurringRow.active r.

(** [UPDATE recurring_transactions SET next_due_date=v WHERE id=k] on the
    rows. *)
Definition advance_rows (k : Z) (v : string) (rows : list RecurringRow.t)
  : list RecurringRow.t :=
  map (fun r =>
         if RecurringRow.id r =? k
         then RecurringRow.set_next_due_date r (Some v) else r)
      rows.

(** The cursor updates of a whole materialization pass. *)
Definition advance_all (due : list (RecurringRow.t * option CategoryRow.t))
    (rows : list RecurringRow.t) : list RecurringRow.t :=
  fold_left
    (fun rows x =>
       match next_due_of (fst x) with
       | Some v => advance_rows (RecurringRow.id (fst x)) v rows
       | None => rows
       end)
    due rows.

(** ** Round trip of the dictionaries *)

(** Midnight of the calendar day of a [datetime]. *)
Definition midnight (dt : Datetime.t) : Datetime.t :=
  Datetime.mk (Datetime.year dt) (Datetime.month dt) (Datetime.day dt) 0 0 0 0.

(** A transaction with its [date] attribute replaced. *)
Definition with_date (t : Transaction.t) (d : Transaction.pydate)
  : Transaction.t :=
  Transaction.mk (Transaction.id t) (Transaction.transaction_type t)
    (Transaction.amount t) (Transaction.category_id t)
    (Transaction.subcategory_id t) (Transaction.account_id t)
    (Transaction.to_account_id t) d (Transaction.time t)
    (Transaction.description t) (Transaction.payment_method t)
    (Transaction.tags t) (Transaction.receipt_path t)
    (Transaction.recurring_id t).

(** ** Sample values *)

Module Sample.

Definition noon : Datetime.t := Datetime.mk 2024 1 1 12 0 0 0.

Definition account (name : string) (balance : Q) : Account.t :=
  Account.mk None name "Bank" balance balance "USD" "bank" "#1976D2"
    false 0 None 0 "".

Definition transaction (ty : string) (amount : Q) (category : option Z)
    (account to_account : option Z) (date : string) : Transaction.t :=
  Transaction.init noon None ty amount category None account to_account
    (Some (Transaction.PyStr date)) None "" "" "" None None.

(** One account A with 1000.00. *)
Definition db_A : Store := fst (add_account empty (account "A" 1000)).

(** Accounts A with 1000.00 and B with 200.00. *)
Definition db_AB : Store := fst (add_account db_A (account "B" 200)).

(** The transaction that the entry form of [main.py] builds at noon. *)
Definition form_transaction : Transaction.t :=
  Transaction.init noon None "Expense" 50 (Some 3) None (Some 1) None
    (Some (Transaction.PyDatetime noon)) None "lunch" "" "" None None.

(** A replacement value for the transaction with key [k]. *)
Definition edit (k : Z) (ty : string) (amount : Q)
    (account to_account : option Z) : Transaction.t :=
  Transaction.init noon (Some k) ty amount None None account to_account
    (Some (Transaction.PyStr "2024-01-02")) None "" "" "" None None.

(** A and B after a Transfer of 300.00 from A to B. *)
Definition db_transfer : Store :=
  fst (add_transaction db_AB
         (transaction "Transfer" 300 None (Some 1) (Some 2) "2024-01-01")).

Definition budget (category : Z) (amount alert spent : Q) : Budget.t :=
  Budget.mk None (Some category) amount "Monthly" None None alert spent.

(** Category 3 has Expenses of 40 and 60 in January 2024 and one of 500 in
    March; two budgets watch category 3 and one watches category 4. *)
Definition db_budgets : Store :=
  let db := fst (add_transaction db_A
              (transaction "Expense" 40 (Some 3) (Some 1) None "2024-01-05")) in
  let db := fst (add_transaction db
              (transaction "Expense" 60 (Some 3) (Some 1) None "2024-01-31")) in
  let db := fst (add_transaction db
              (transaction "Expense" 500 (Some 3) (Some 1) None "2024-03-01")) in
  let db := fst (add_transaction db
              (transaction "Income" 70 (Some 3) (Some 1) None "2024-01-10")) in
  let db := fst (add_budget db (budget 3 100 80 0)) in
  let db := fst (add_budget db (budget 4 50 80 7)) in
  fst (add_budget db (budget 3 1000 80 999)).

(** Budgets of category 3 at 50%, 80% and 120% of their ceiling, and one
    with a ceiling of 0. *)
Definition db_alerts : Store :=
  let db := fst (add_budget empty (budget 3 200 80 100)) in
  let db := fst (add_budget db (budget 3 200 80 160)) in
  let db := fst (add_budget db (budget 3 200 80 240)) in
  fst (add_budget db (budget 3 0 80 500)).

Definition pattern (frequency : string) (interval : Z)
    (next_due_date : option string) (auto_create active : bool)
  : RecurringTransaction.t :=
  RecurringTransaction.mk None "Expense" 15 (Some 3) None (Some 1)
    "subscription" frequency interval None None next_due_date
    auto_create active.

(** Account A and one monthly pattern due on 2024-01-01. *)
Definition db_monthly : Store :=
  fst (add_recurring_transaction db_A
         (pattern "Monthly" 1 (Some "2024-01-01") true true)).

(** Account A, the monthly pattern and an active, automatic pattern
    without a next due date. *)
Definition db_undated : Store :=
  fst (add_recurring_transaction db_monthly
         (pattern "Monthly" 1 None true true)).

(** One Income of 2000.00 and one Expense of 300.00 in January 2024. *)
Definition db_report : Store :=
  let db := fst (add_transaction db_A
              (transaction "Income" 2000 None (Some 1) None "2024-01-10")) in
  fst (add_transaction db
         (transaction "Expense" 300 None (Some 1) None "2024-01-20")).

End Sample.

(** * Vocabulary of the further properties *)

(** ** Keys, accounts and settings *)

(** The keys of the transactions are pairwise different and at most the
    counter. *)
Definition keys_ok (db : Store) : Prop :=
  List.NoDup (map TransactionRow.id (transactions db))
  /\ (forall r, In r (transactions db) ->
        TransactionRow.id r <= seq_transactions db).

(** The row that [add_account] and [update_account] write under the key
    [k]. *)
Definition account_row (k : Z) (account : Account.t) : AccountRow.t :=
  AccountRow.mk k (Account.name account) (Account.account_type account)
    (Account.initial_balance account) (Account.current_balance account)
    (Account.currency account) (Account.icon account) (Account.color account)
    (Account.is_credit_card account) (Account.credit_limit account)
    (Account.due_date account) (Account.interest_rate account)
    (Account.notes account).

(** The row of a default setting, if the key is one. *)
Definition default_setting (key : string) : option string :=
  match find (fun row => String.eqb (fst row) key) default_settings with
  | Some row => Some (snd row)
  | None => None
  end.

(** ** Listings and reports *)

(** A transaction may come before another in the listing: its date is
    later, or the dates are equal and its key is not smaller. *)
Definition listed_before (a b : TransactionRow.t) : Prop :=
  String.compare (TransactionRow.date b) (TransactionRow.date a) = Lt
  \/ (TransactionRow.date a = TransactionRow.date b
      /\ TransactionRow.id b <= TransactionRow.id a).

(** The transaction is an Expense dated inside the inclusive range. *)
Definition expense_in_range (lo hi : string) (t : TransactionRow.t) : bool :=
  String.eqb (TransactionRow.transaction_type t) "Expense"
  && between (TransactionRow.date t) lo hi.

(** The sum of the Expenses of the range that refer to the category, as
    the query computes it: [None] when there is no such Expense. *)
Definition category_total (db : Store) (lo hi : string) (c : CategoryRow.t)
  : option Q :=
  sql_sum
    (map TransactionRow.amount
       (List.filter
          (fun t => expense_in_range lo hi t
                    && col_eq (TransactionRow.category_id t)
                         (CategoryRow.id c))
          (transactions db))).

(** The rows of the report before they are ordered: one per category with
    an Expense in the range. *)
Definition category_rows (db : Store) (lo hi : string)
  : list (string * string * Q) :=
  flat_map
    (fun c =>
       match category_total db lo hi c with
       | Some total => [(CategoryRow.name c, CategoryRow.color c, total)]
       | None => []
       end)
    (categories db).

(** The text is a date whose day lies between the days of [lo] and [hi],
    both included. *)
Definition on_days (lo hi : Datetime.t) (text : string) : bool :=
  match Datetime.strptime_ymd text with
  | Some d =>
      (Datetime.toordinal lo <=? Datetime.toordinal d)
      && (Datetime.toordinal d <=? Datetime.toordinal hi)
  | None => false
  end.

(** ** Debts and goals *)

(** The due date that [check_debt_due_dates] reads: the debt is not settled
    and its date is not empty. *)
Definition open_due_date (debt : Debt.t) : option string :=
  if Debt.settled debt then None else truthy_str (Debt.due_date debt).

(** The alert for a debt by the calendar: [gap] is the number of days from
    the day of [today] to the due day. *)
Definition debt_alert_on (today : Datetime.t) (debt : Debt.t)
  : list ReminderManager.DebtAlert.t :=
  match open_due_date debt with
  | Some text =>
      match Datetime.strptime_ymd text with
      | Some due =>
          let gap := Datetime.toordinal due - Datetime.toordinal today in
          if gap <=? 8 then
            [ ReminderManager.DebtAlert.mk "debt_due" (Debt.person_name debt)
                (Debt.amount debt - Debt.amount_paid debt)%Q text (gap - 1)
                (if gap <=? 1 then "high" else "medium") ]
          else []
      | None => []
      end
  | None => []
  end.

(** The deadline that [check_goal_deadlines] reads. *)
Definition open_deadline (goal : Goal.t) : option string :=
  if Goal.completed goal then None else truthy_str (Goal.deadline goal).

(** The alert for a goal by the calendar, with [gap] as for a debt. *)
Definition goal_alert_on (today : Datetime.t) (goal : Goal.t)
  : list ReminderManager.GoalAlert.t :=
  match open_deadline goal with
  | Some text =>
      match Datetime.strptime_ymd text with
      | Some deadline =>
          let gap := Datetime.toordinal deadline - Datetime.toordinal today in
          if (gap <=? 31)
             && negb (Qle_bool 100 (ReminderManager.goal_percentage goal))
          then
            [ ReminderManager.GoalAlert.mk "goal_deadline" (Goal.name goal)
                (ReminderManager.goal_percentage goal)
                (Goal.target_amount goal - Goal.current_amount goal)%Q
                text (gap - 1) "low" ]
          else []
      | None => []
      end
  | None => []
  end.

(** ** Further sample values *)

Module Fixture.

(** The store after the first start: the default categories with the keys
    1 to 15, the Cash account and the default settings. *)
Definition db_start : Store := fst (initialize_default_data empty 0 "").

(** Expenses of 40 and 60 on category 1 and one of 25 on category 2 in
    January 2024, all on the Cash account. *)
Definition db_spending : Store :=
  let db := fst (add_transaction db_start
              (Sample.transaction "Expense" 40 (Some 1) (Some 1) None
                 "2024-01-05")) in
  let db := fst (add_transaction db
              (Sample.transaction "Expense" 60 (Some 1) (Some 1) None
                 "2024-01-31")) in
  fst (add_transaction db
         (Sample.transaction "Expense" 25 (Some 2) (Some 1) None
            "2024-01-10")).

Definition with_debts (db : Store) (v : list Debt.t) : Store :=
  mkStore (categories db) (subcategories db) (accounts db)
    (transactions db) (budgets db) (goals db) v (recurring_transactions db)
    (settings db) (seq_accounts db) (seq_transactions db) (seq_budgets db)
    (seq_recurring db).

Definition with_goals (db : Store) (v : list Goal.t) : Store :=
  mkStore (categories db) (subcategories db) (accounts db)
    (transactions db) (budgets db) v (debts db) (recurring_transactions db)
    (settings db) (seq_accounts db) (seq_transactions db) (seq_budgets db)
    (seq_recurring db).

Definition debt (k : Z) (person : string) (amount paid : Q)
    (due_date : option string) (settled : bool) : Debt.t :=
  Debt.mk (Some k) "Borrowed" person amount paid None due_date 0 ""
    settled.

Definition goal (k : Z) (name : string) (target current : Q)
    (deadline : option string) (completed : bool) : Goal.t :=
  Goal.mk (Some k) name target current deadline "flag" "#4CAF50" ""
    completed.

(** Debts due one, eight and nine days after 2024-01-01, a settled one and
    one without a date. *)
Definition db_debts : Store :=
  with_debts empty
    [ debt 1 "Ann" 100 20 (Some "2024-01-02") false;
      debt 2 "Bob" 50 0 (Some "2024-01-09") false;
      debt 3 "Cid" 70 0 (Some "2024-01-10") false;
      debt 4 "Dan" 30 30 (Some "2023-12-01") true;
      debt 5 "Eve" 10 0 None false ].

(** One open debt whose date is not in the ISO form. *)
Definition db_bad_debt : Store :=
  with_debts empty [ debt 1 "Ann" 100 20 (Some "02/01/2024") false ].

(** Goals with deadlines 31 and 32 days after 2024-01-01, and one that is
    funded. *)
Definition db_goals : Store :=
  with_goals empty
    [ goal 1 "Bike" 400 100 (Some "2024-02-01") false;
      goal 2 "Trip" 900 0 (Some "2024-02-02") false;
      goal 3 "Desk" 200 200 (Some "2024-01-15") false ].

Definition db_bad_goal : Store :=
  with_goals empty [ goal 1 "Bike" 400 100 (Some "2024-2-30") false ].

(** Account A and an automatic pattern whose next due date is not in the
    ISO form. *)
Definition db_poison : Store :=
  fst (add_recurring_transaction Sample.db_A
         (Sample.pattern "Monthly" 1 (Some "01/02/2024") true true)).

(** The row of the pattern of [Sample.db_monthly]. *)
Definition monthly_row : RecurringRow.t :=
  RecurringRow.mk 1 "Expense" 15 (Some 3) None (Some 1) "subscription"
    "Monthly" 1 None None (Some "2024-01-01") true true.

(** The row of the pattern of [db_poison]. *)
Definition poison_row : RecurringRow.t :=
  RecurringRow.mk 1 "Expense" 15 (Some 3) None (Some 1) "subscription"
    "Monthly" 1 None None (Some "01/02/2024") true true.

Definition day (y m d : Z) : Datetime.t := Datetime.mk y m d 0 0 0 0.

(** The pattern of [db_poison] and, added after it, a Monthly pattern due
    on 2024-01-01. *)
Definition db_blocked : Store :=
  fst (add_recurring_transaction db_poison
         (Sample.pattern "Monthly" 1 (Some "2024-01-01") true true)).

(** The row of the Monthly pattern of [db_blocked]. *)
Definition blocked_row : RecurringRow.t :=
  RecurringRow.mk 2 "Expense" 15 (Some 3) None (Some 1) "subscription"
    "Monthly" 1 None None (Some "2024-01-01") true true.

(** The Monthly pattern of [Sample.db_monthly] and, added after it, a
    pattern whose next due date is no date of the calendar. *)
Definition db_late : Store :=
  fst (add_recurring_transaction Sample.db_monthly
         (Sample.pattern "Monthly" 1 (Some "2024-02-30") true true)).

(** The row of the second pattern of [db_late]. *)
Definition late_row : RecurringRow.t :=
  RecurringRow.mk 2 "Expense" 15 (Some 3) None (Some 1) "subscription"
    "Monthly" 1 None None (Some "2024-02-30") true true.

(** Noon of 2024-03-01. *)
Definition march : Datetime.t := Datetime.mk 2024 3 1 12 0 0 0.

End Fixture.

(** * Properties *)

(** ** Sums of rationals *)

Lemma fold_left_Qplus (xs : list Q) (a : Q) :
  (fold_left Qplus xs a == a + Qsum xs)%Q.
Proof.
  revert a. induction xs as [|x xs IH]; intros a; simpl.
  - ring.
  - rewrite IH. ring.
Qed.

Lemma or_zero_sql_sum (xs : list Q) : (or_zero (sql_sum xs) == Qsum xs)%Q.
Proof.
  destruct xs as [|x xs]; [reflexivity|].
  unfold sql_sum, or_zero.
  destruct (Qeq_bool _ 0) eqn:E.
  - apply Qeq_bool_eq in E. rewrite <- E. rewrite fold_left_Qplus. ring.
  - rewrite fold_left_Qplus. ring.
Qed.

Lemma Qsum_app (xs ys : list Q) : (Qsum (xs ++ ys) == Qsum xs + Qsum ys)%Q.
Proof.
  induction xs as [|x xs IH]; simpl.
  - ring.
  - rewrite IH. ring.
Qed.

(** ** Dates *)

Lemma digit_val_char (z : Z) :
  0 <= z <= 9 -> Datetime.digit_val (Datetime.digit_char z) = Some z.
Proof.
  intros H.
  assert (C : z = 0 \/ z = 1 \/ z = 2 \/ z = 3 \/ z = 4 \/ z = 5 \/ z = 6
              \/ z = 7 \/ z = 8 \/ z = 9) by lia.
  repeat (destruct C as [->|C]; [reflexivity|]). subst. reflexivity.
Qed.

Lemma parse_month_pad2 (m : Z) (rest : string) :
  1 <= m <= 12 ->
  Datetime.parse_month (Datetime.pad2 m ++ String "-" rest)%string
  = Some (m, rest).
Proof.
  intros H.
  assert (C : m = 1 \/ m = 2 \/ m = 3 \/ m = 4 \/ m = 5 \/ m = 6 \/ m = 7
              \/ m = 8 \/ m = 9 \/ m = 10 \/ m = 11 \/ m = 12) by lia.
  repeat (destruct C as [->|C]; [reflexivity|]). subst. reflexivity.
Qed.

Lemma parse_day_pad2 (d : Z) :
  1 <= d <= 31 -> Datetime.parse_day (Datetime.pad2 d) = Some d.
Proof.
  intros H.
  assert (C : d = 1 \/ d = 2 \/ d = 3 \/ d = 4 \/ d = 5 \/ d = 6 \/ d = 7
              \/ d = 8 \/ d = 9 \/ d = 10 \/ d = 11 \/ d = 12 \/ d = 13
              \/ d = 14 \/ d = 15 \/ d = 16 \/ d = 17 \/ d = 18 \/ d = 19
              \/ d = 20 \/ d = 21 \/ d = 22 \/ d = 23 \/ d = 24 \/ d = 25
              \/ d = 26 \/ d = 27 \/ d = 28 \/ d = 29 \/ d = 30 \/ d = 31)
    by lia.
  repeat (destruct C as [->|C]; [reflexivity|]). subst. reflexivity.
Qed.

Lemma days_in_month_le (y m : Z) : Datetime.days_in_month y m <= 31.
Proof.
  unfold Datetime.days_in_month.
  destruct ((m =? 2) && Datetime.is_leap y); [lia|].
  unfold Datetime.days_in_month_table.
  repeat (match goal with |- context [match ?x with _ => _ end] =>
            destruct x end; try lia).
Qed.

(** Formatting a valid date and parsing it back gives midnight of that
    day. *)
Lemma strptime_strftime (dt : Datetime.t) :
  Datetime.valid_date (Datetime.year dt) (Datetime.month dt)
    (Datetime.day dt) = true ->
  Datetime.strptime_ymd (Datetime.strftime_ymd dt) = Some (midnight dt).
Proof.
  destruct dt as [y m d hh mi ss us].
  cbn [Datetime.year Datetime.month Datetime.day]. intros Hv.
  unfold Datetime.valid_date, Datetime.MINYEAR, Datetime.MAXYEAR in Hv.
  repeat (apply andb_prop in Hv; destruct Hv as [Hv ?]).
  pose proof (days_in_month_le y m).
  assert (Hy : 1 <= y <= 9999) by lia.
  assert (Hm : 1 <= m <= 12) by lia.
  assert (Hd : 1 <= d <= 31) by lia.
  change (Datetime.strftime_ymd (Datetime.mk y m d hh mi ss us))
    with (String (Datetime.digit_char (y / 1000 mod 10))
            (String (Datetime.digit_char (y / 100 mod 10))
               (String (Datetime.digit_char (y / 10 mod 10))
                  (String (Datetime.digit_char (y mod 10))
                     (String "-"
                        (Datetime.pad2 m ++ String "-" (Datetime.pad2 d))))))).
  unfold Datetime.strptime_ymd, midnight.
  cbn [Datetime.year Datetime.month Datetime.day].
  rewrite !digit_val_char
    by (match goal with |- 0 <= ?a mod 10 <= 9 =>
          pose proof (Z.mod_pos_bound a 10); lia end).
  rewrite parse_month_pad2 by exact Hm.
  rewrite parse_day_pad2 by exact Hd.
  replace (1000 * (y / 1000 mod 10) + 100 * (y / 100 mod 10)
           + 10 * (y / 10 mod 10) + y mod 10) with y
    by (clear - Hy; Z.to_euclidean_division_equations; lia).
  unfold Datetime.valid_date, Datetime.MINYEAR, Datetime.MAXYEAR.
  replace ((1 <=? y) && (y <=? 9999) && (1 <=? m) && (m <=? 12) && (1 <=? d)
           && (d <=? Datetime.days_in_month y m)) with true;
    [reflexivity|].
  symmetry. repeat (apply andb_true_intro; split); lia.
Qed.

Lemma is_leap_true y :
  Datetime.is_leap y = true <->
  y mod 4 = 0 /\ (y mod 100 <> 0 \/ y mod 400 = 0).
Proof.
  unfold Datetime.is_leap.
  rewrite andb_true_iff, orb_true_iff, negb_true_iff, !Z.eqb_eq, Z.eqb_neq.
  reflexivity.
Qed.

Lemma days_before_year_split q400 q100 q4 q1 :
  0 <= q400 -> 0 <= q100 <= 3 -> 0 <= q4 <= 24 -> 0 <= q1 <= 3 ->
  Datetime.days_before_year (q400 * 400 + 1 + q100 * 100 + q4 * 4 + q1)
  = 146097 * q400 + 36524 * q100 + 1461 * q4 + 365 * q1.
Proof.
  intros. unfold Datetime.days_before_year. cbv zeta.
  Z.to_euclidean_division_equations. lia.
Qed.

Lemma is_leap_split q400 q100 q4 q1 :
  0 <= q400 -> 0 <= q100 <= 3 -> 0 <= q4 <= 24 -> 0 <= q1 <= 3 ->
  Datetime.is_leap (q400 * 400 + 1 + q100 * 100 + q4 * 4 + q1)
  = (q1 =? 3) && (negb (q4 =? 24) || (q100 =? 3)).
Proof.
  intros. apply eq_true_iff_eq.
  rewrite is_leap_true, andb_true_iff, orb_true_iff, negb_true_iff,
    !Z.eqb_eq, Z.eqb_neq.
  Z.to_euclidean_division_equations. lia.
Qed.

Lemma month_of_day_valid (L : bool) (y r1 : Z) :
  Datetime.is_leap y = L ->
  1 <= y <= 9999 ->
  0 <= r1 <= 364 ->
  let m := Z.shiftr (r1 + 50) 5 in
  let preceding :=
    Datetime.days_before_month_table m + (if (2 <? m) && L then 1 else 0) in
  let '(y', m', d') :=
    if r1 <? preceding then
      let m' := m - 1 in
      let preceding' :=
        preceding
        - (Datetime.days_in_month_table m'
           + (if (m' =? 2) && L then 1 else 0)) in
      (y, m', r1 - preceding' + 1)
    else (y, m, r1 - preceding + 1) in
  Datetime.valid_date y' m' d' = true
  /\ Datetime.days_before_month y' m' + d' = r1 + 1.
Proof.
  intros HL Hy Hr. cbv zeta.
  rewrite Z.shiftr_div_pow2 by lia. change (2 ^ 5) with 32.
  pose proof (Z.div_mod (r1 + 50) 32 ltac:(lia)) as Hdm.
  pose proof (Z.mod_pos_bound (r1 + 50) 32 ltac:(lia)) as Hmb.
  set (m := (r1 + 50) / 32) in *.
  assert (Hm : m = 1 \/ m = 2 \/ m = 3 \/ m = 4 \/ m = 5 \/ m = 6 \/ m = 7
               \/ m = 8 \/ m = 9 \/ m = 10 \/ m = 11 \/ m = 12) by lia.
  clearbody m.
  unfold Datetime.valid_date, Datetime.days_before_month,
    Datetime.days_in_month, Datetime.MINYEAR, Datetime.MAXYEAR.
  unfold Datetime.is_leap in HL.
  destruct L;
    repeat (destruct Hm as [->|Hm]); try subst m;
    simpl;
    match goal with
    | |- context [?a <? ?b] => destruct (Z.ltb_spec a b)
    end;
    simpl; unfold Datetime.is_leap; rewrite ?HL; simpl;
    try lia;
    (split; [|lia]);
    rewrite ?andb_true_iff, ?Z.leb_le; try lia.
Qed.

Lemma ord2ymd_spec (o : Z) :
  1 <= o <= Datetime.MAXORDINAL ->
  let '(y, m, d) := Datetime.ord2ymd o in
  Datetime.valid_date y m d = true /\ Datetime.ymd2ord y m d = o.
Proof.
  unfold Datetime.MAXORDINAL. intros Ho.
  unfold Datetime.ord2ymd, Datetime.DI400Y, Datetime.DI100Y, Datetime.DI4Y.
  cbv zeta.
  pose proof (Z.div_mod (o - 1) 146097 ltac:(lia)) as E400.
  pose proof (Z.mod_pos_bound (o - 1) 146097 ltac:(lia)) as B400.
  set (q400 := (o - 1) / 146097) in *.
  set (r400 := (o - 1) mod 146097) in *.
  pose proof (Z.div_mod r400 36524 ltac:(lia)) as E100.
  pose proof (Z.mod_pos_bound r400 36524 ltac:(lia)) as B100.
  set (q100 := r400 / 36524) in *.
  set (r100 := r400 mod 36524) in *.
  pose proof (Z.div_mod r100 1461 ltac:(lia)) as E4.
  pose proof (Z.mod_pos_bound r100 1461 ltac:(lia)) as B4.
  set (q4 := r100 / 1461) in *.
  set (r4 := r100 mod 1461) in *.
  pose proof (Z.div_mod r4 365 ltac:(lia)) as E1.
  pose proof (Z.mod_pos_bound r4 365 ltac:(lia)) as B1.
  set (q1 := r4 / 365) in *.
  set (r1 := r4 mod 365) in *.
  clearbody q400 r400 q100 r100 q4 r4 q1 r1.
  assert (Hq400 : 0 <= q400 <= 24) by lia.
  assert (Hq100 : 0 <= q100 <= 4) by lia.
  assert (Hq4 : 0 <= q4 <= 24) by lia.
  assert (Hq1 : 0 <= q1 <= 4) by lia.
  destruct (Z.eqb_spec q1 4) as [H14|H14];
    [|destruct (Z.eqb_spec q100 4) as [H1004|H1004]]; cbn [orb].
  - (* the last day of a leap year inside a century *)
    assert (Hq4' : q4 <= 23) by lia.
    assert (Hr1 : r1 = 0) by lia.
    assert (Hq100' : q100 <= 3) by lia.
    replace (q400 * 400 + 1 + q100 * 100 + q4 * 4 + q1 - 1)
      with (q400 * 400 + 1 + q100 * 100 + q4 * 4 + 3) by lia.
    unfold Datetime.valid_date, Datetime.ymd2ord, Datetime.days_in_month,
      Datetime.days_before_month, Datetime.MINYEAR, Datetime.MAXYEAR.
    rewrite days_before_year_split, is_leap_split by lia.
    cbn [Z.eqb Z.ltb Z.compare Pos.compare Pos.compare_cont andb
         Datetime.days_in_month_table Datetime.days_before_month_table Pos.eqb].
    destruct (Z.eqb_spec q4 24) as [?|_]; [lia|]. cbn [negb orb andb].
    split; [|lia].
    rewrite !andb_true_iff, !Z.leb_le. lia.
  - (* the last day of a 400-year cycle *)
    assert (q4 = 0 /\ q1 = 0 /\ r1 = 0 /\ r100 = 0 /\ r4 = 0) as (-> & -> & -> & -> & ->) by lia.
    subst q100.
    replace (q400 * 400 + 1 + 4 * 100 + 0 * 4 + 0 - 1)
      with (q400 * 400 + 1 + 3 * 100 + 24 * 4 + 3) by lia.
    unfold Datetime.valid_date, Datetime.ymd2ord, Datetime.days_in_month,
      Datetime.days_before_month, Datetime.MINYEAR, Datetime.MAXYEAR.
    rewrite days_before_year_split, is_leap_split by lia.
    cbn [Z.eqb Z.ltb Z.compare Pos.compare Pos.compare_cont andb negb orb
         Datetime.days_in_month_table Datetime.days_before_month_table Pos.eqb].
    split; [|lia].
    rewrite !andb_true_iff, !Z.leb_le. lia.
  - (* any other day *)
    assert (Hq100' : q100 <= 3) by lia.
    assert (Hq1' : q1 <= 3) by lia.
    set (y := q400 * 400 + 1 + q100 * 100 + q4 * 4 + q1).
    set (L := (q1 =? 3) && (negb (q4 =? 24) || (q100 =? 3))).
    assert (HL : Datetime.is_leap y = L)
      by (apply is_leap_split; lia).
    assert (Hy : 1 <= y <= 9999) by (unfold y; lia).
    assert (Hr1 : 0 <= r1 <= 364) by lia.
    pose proof (month_of_day_valid L y r1 HL Hy Hr1) as Hmd.
    cbv zeta in Hmd.
    destruct (if r1 <? _ then _ else _) as [[y' m'] d'] eqn:Etriple.
    assert (Hy' : y' = y).
    { destruct (r1 <? _) in Etriple; injection Etriple as <- _ _; reflexivity. }
    subst y'. destruct Hmd as [Hvalid Hday]. split; [exact Hvalid|].
    unfold Datetime.ymd2ord. unfold y at 1.
    rewrite days_before_year_split by lia. lia.
Qed.

(** Adding days moves the ordinal of the date by that many days and gives a
    date of the calendar. *)
Lemma add_days_spec (dt dt' : Datetime.t) (k : Z) :
  Datetime.add_days dt k = Some dt' ->
  Datetime.valid_date (Datetime.year dt') (Datetime.month dt')
    (Datetime.day dt') = true
  /\ Datetime.toordinal dt' = Datetime.toordinal dt + k.
Proof.
  unfold Datetime.add_days. cbv zeta.
  destruct ((1 <=? _) && (_ <=? Datetime.MAXORDINAL)) eqn:Hrange;
    [|discriminate].
  apply andb_prop in Hrange. destruct Hrange as [Hlo Hhi].
  apply Z.leb_le in Hlo, Hhi.
  pose proof (ord2ymd_spec (Datetime.toordinal dt + k) (conj Hlo Hhi)) as H.
  destruct (Datetime.ord2ymd (Datetime.toordinal dt + k)) as [[y m] d].
  intros E. injection E as <-. exact H.
Qed.

Lemma digit_char_compare (a b : Z) :
  0 <= a <= 9 -> 0 <= b <= 9 ->
  Ascii.compare (Datetime.digit_char a) (Datetime.digit_char b) = (a ?= b).
Proof.
  intros Ha Hb.
  assert (Ca : a = 0 \/ a = 1 \/ a = 2 \/ a = 3 \/ a = 4 \/ a = 5 \/ a = 6
               \/ a = 7 \/ a = 8 \/ a = 9) by lia.
  assert (Cb : b = 0 \/ b = 1 \/ b = 2 \/ b = 3 \/ b = 4 \/ b = 5 \/ b = 6
               \/ b = 7 \/ b = 8 \/ b = 9) by lia.
  repeat (destruct Ca as [->|Ca]); try subst a;
    repeat (destruct Cb as [->|Cb]); try subst b; reflexivity.
Qed.

Lemma digits_compare (a7 a6 a5 a4 a3 a2 a1 a0 b7 b6 b5 b4 b3 b2 b1 b0 : Z) :
  0 <= a7 <= 9 -> 0 <= a6 <= 9 -> 0 <= a5 <= 9 -> 0 <= a4 <= 9 ->
  0 <= a3 <= 9 -> 0 <= a2 <= 9 -> 0 <= a1 <= 9 -> 0 <= a0 <= 9 ->
  0 <= b7 <= 9 -> 0 <= b6 <= 9 -> 0 <= b5 <= 9 -> 0 <= b4 <= 9 ->
  0 <= b3 <= 9 -> 0 <= b2 <= 9 -> 0 <= b1 <= 9 -> 0 <= b0 <= 9 ->
  match a7 ?= b7 with
  | Eq =>
    match a6 ?= b6 with
    | Eq =>
      match a5 ?= b5 with
      | Eq =>
        match a4 ?= b4 with
        | Eq =>
          match a3 ?= b3 with
          | Eq =>
            match a2 ?= b2 with
            | Eq =>
              match a1 ?= b1 with
              | Eq => match a0 ?= b0 with Eq => Eq | c => c end
              | c => c
              end
            | c => c
            end
          | c => c
          end
        | c => c
        end
      | c => c
      end
    | c => c
    end
  | c => c
  end
  = ((1000 * a7 + 100 * a6 + 10 * a5 + a4) * 10000 + (10 * a3 + a2) * 100
     + (10 * a1 + a0)
     ?= (1000 * b7 + 100 * b6 + 10 * b5 + b4) * 10000 + (10 * b3 + b2) * 100
        + (10 * b1 + b0)).
Proof.
  intros.
  destruct (Z.compare_spec a7 b7); [|symmetry; apply Z.compare_lt_iff; lia
                                    |symmetry; apply Z.compare_gt_iff; lia].
  destruct (Z.compare_spec a6 b6); [|symmetry; apply Z.compare_lt_iff; lia
                                    |symmetry; apply Z.compare_gt_iff; lia].
  destruct (Z.compare_spec a5 b5); [|symmetry; apply Z.compare_lt_iff; lia
                                    |symmetry; apply Z.compare_gt_iff; lia].
  destruct (Z.compare_spec a4 b4); [|symmetry; apply Z.compare_lt_iff; lia
                                    |symmetry; apply Z.compare_gt_iff; lia].
  destruct (Z.compare_spec a3 b3); [|symmetry; apply Z.compare_lt_iff; lia
                                    |symmetry; apply Z.compare_gt_iff; lia].
  destruct (Z.compare_spec a2 b2); [|symmetry; apply Z.compare_lt_iff; lia
                                    |symmetry; apply Z.compare_gt_iff; lia].
  destruct (Z.compare_spec a1 b1); [|symmetry; apply Z.compare_lt_iff; lia
                                    |symmetry; apply Z.compare_gt_iff; lia].
  subst. destruct (Z.compare_spec a0 b0); symmetry;
    [apply Z.compare_eq_iff|apply Z.compare_lt_iff|apply Z.compare_gt_iff];
    lia.
Qed.

Lemma strftime_compare (a b : Datetime.t) :
  0 <= Datetime.year a <= 9999 -> 0 <= Datetime.month a <= 99 ->
  0 <= Datetime.day a <= 99 ->
  0 <= Datetime.year b <= 9999 -> 0 <= Datetime.month b <= 99 ->
  0 <= Datetime.day b <= 99 ->
  String.compare (Datetime.strftime_ymd a) (Datetime.strftime_ymd b)
  = (iso_number a ?= iso_number b).
Proof.
  destruct a as [y m d h1 h2 h3 h4], b as [y' m' d' h1' h2' h3' h4'].
  unfold iso_number. cbn [Datetime.year Datetime.month Datetime.day].
  intros Hy Hm Hd Hy' Hm' Hd'.
  unfold Datetime.strftime_ymd, Datetime.pad4, Datetime.pad2.
  cbn [Datetime.year Datetime.month Datetime.day].
  cbv [String.append]. cbn [String.compare].
  rewrite !digit_char_compare
    by (match goal with |- 0 <= ?a mod 10 <= 9 =>
          pose proof (Z.mod_pos_bound a 10); lia end).
  change (Ascii.compare "-" "-") with Eq. cbv iota.
  rewrite (digits_compare
             (y / 1000 mod 10) (y / 100 mod 10) (y / 10 mod 10) (y mod 10)
             (m / 10 mod 10) (m mod 10) (d / 10 mod 10) (d mod 10)
             (y' / 1000 mod 10) (y' / 100 mod 10) (y' / 10 mod 10) (y' mod 10)
             (m' / 10 mod 10) (m' mod 10) (d' / 10 mod 10) (d' mod 10))
    by (match goal with |- 0 <= ?a mod 10 <= 9 =>
          pose proof (Z.mod_pos_bound a 10); lia end).
  f_equal; Z.to_euclidean_division_equations; lia.
Qed.

Lemma days_before_year_le (y y' : Z) :
  1 <= y -> y <= y' ->
  Datetime.days_before_year y <= Datetime.days_before_year y'.
Proof.
  intros. unfold Datetime.days_before_year. cbv zeta.
  Z.to_euclidean_division_equations. lia.
Qed.

Lemma days_before_year_succ (y : Z) :
  1 <= y ->
  Datetime.days_before_year (y + 1)
  = Datetime.days_before_year y + 365
    + (if Datetime.is_leap y then 1 else 0).
Proof.
  intros Hy. unfold Datetime.days_before_year. cbv zeta.
  destruct (Datetime.is_leap y) eqn:L.
  - apply is_leap_true in L. Z.to_euclidean_division_equations. lia.
  - assert (N : ~ (y mod 4 = 0 /\ (y mod 100 <> 0 \/ y mod 400 = 0))).
    { intros H. apply is_leap_true in H. congruence. }
    Z.to_euclidean_division_equations. lia.
Qed.

Lemma valid_date_bounds (y m d : Z) :
  Datetime.valid_date y m d = true ->
  1 <= y <= 9999 /\ 1 <= m <= 12 /\ 1 <= d <= Datetime.days_in_month y m.
Proof.
  unfold Datetime.valid_date, Datetime.MINYEAR, Datetime.MAXYEAR.
  rewrite !andb_true_iff, !Z.leb_le. lia.
Qed.

Lemma day_of_year_bounds (y m d : Z) :
  Datetime.valid_date y m d = true ->
  1 <= Datetime.days_before_month y m + d
    <= 365 + (if Datetime.is_leap y then 1 else 0).
Proof.
  intros H. apply valid_date_bounds in H. destruct H as (_ & Hm & Hd).
  unfold Datetime.days_before_month, Datetime.days_in_month in *.
  assert (C : m = 1 \/ m = 2 \/ m = 3 \/ m = 4 \/ m = 5 \/ m = 6 \/ m = 7
              \/ m = 8 \/ m = 9 \/ m = 10 \/ m = 11 \/ m = 12) by lia.
  destruct (Datetime.is_leap y);
    repeat (destruct C as [->|C]); try subst m; simpl in *; lia.
Qed.

Lemma day_of_year_lt (y m d m' d' : Z) :
  Datetime.valid_date y m d = true ->
  Datetime.valid_date y m' d' = true ->
  m < m' ->
  Datetime.days_before_month y m + d < Datetime.days_before_month y m' + d'.
Proof.
  intros H H'. apply valid_date_bounds in H, H'.
  destruct H as (_ & Hm & Hd), H' as (_ & Hm' & Hd'). intros Hlt.
  unfold Datetime.days_before_month, Datetime.days_in_month in *.
  assert (C : m = 1 \/ m = 2 \/ m = 3 \/ m = 4 \/ m = 5 \/ m = 6 \/ m = 7
              \/ m = 8 \/ m = 9 \/ m = 10 \/ m = 11 \/ m = 12) by lia.
  assert (C' : m' = 1 \/ m' = 2 \/ m' = 3 \/ m' = 4 \/ m' = 5 \/ m' = 6
               \/ m' = 7 \/ m' = 8 \/ m' = 9 \/ m' = 10 \/ m' = 11
               \/ m' = 12) by lia.
  destruct (Datetime.is_leap y);
    repeat (destruct C as [->|C]); try subst m;
    repeat (destruct C' as [->|C']); try subst m';
    simpl in *; lia.
Qed.

Lemma iso_lt_ordinal (a b : Datetime.t) :
  Datetime.valid_date (Datetime.year a) (Datetime.month a) (Datetime.day a)
  = true ->
  Datetime.valid_date (Datetime.year b) (Datetime.month b) (Datetime.day b)
  = true ->
  iso_number a < iso_number b ->
  Datetime.toordinal a < Datetime.toordinal b.
Proof.
  destruct a as [y m d h1 h2 h3 h4], b as [y' m' d' h1' h2' h3' h4'].
  unfold iso_number, Datetime.toordinal, Datetime.ymd2ord.
  cbn [Datetime.year Datetime.month Datetime.day]. intros Ha Hb Hlt.
  pose proof (valid_date_bounds _ _ _ Ha) as (Hy & Hm & Hd).
  pose proof (valid_date_bounds _ _ _ Hb) as (Hy' & Hm' & Hd').
  pose proof (days_in_month_le y m). pose proof (days_in_month_le y' m').
  pose proof (day_of_year_bounds _ _ _ Ha) as Ba.
  pose proof (day_of_year_bounds _ _ _ Hb) as Bb.
  assert (Cases : y < y' \/ (y = y' /\ m < m') \/ (y = y' /\ m = m' /\ d < d'))
    by lia.
  destruct Cases as [Hyy|[[-> Hmm]|(-> & -> & Hdd)]].
  - pose proof (days_before_year_succ y ltac:(lia)) as Hs.
    pose proof (days_before_year_le (y + 1) y' ltac:(lia) ltac:(lia)).
    lia.
  - pose proof (day_of_year_lt _ _ _ _ _ Ha Hb Hmm). lia.
  - lia.
Qed.

(** The order of the ISO texts of two valid dates is the order of their
    days. *)
Lemma iso_text_order (a b : Datetime.t) :
  Datetime.valid_date (Datetime.year a) (Datetime.month a) (Datetime.day a)
  = true ->
  Datetime.valid_date (Datetime.year b) (Datetime.month b) (Datetime.day b)
  = true ->
  String.leb (Datetime.strftime_ymd a) (Datetime.strftime_ymd b) = true
  <-> Datetime.toordinal a <= Datetime.toordinal b.
Proof.
  intros Ha Hb.
  pose proof (valid_date_bounds _ _ _ Ha) as (Hy & Hm & Hd).
  pose proof (valid_date_bounds _ _ _ Hb) as (Hy' & Hm' & Hd').
  pose proof (days_in_month_le (Datetime.year a) (Datetime.month a)).
  pose proof (days_in_month_le (Datetime.year b) (Datetime.month b)).
  unfold String.leb. rewrite strftime_compare by lia.
  destruct (Z.compare_spec (iso_number a) (iso_number b)) as [E|L|G].
  - split; [intros _|reflexivity].
    assert (Datetime.toordinal a = Datetime.toordinal b); [|lia].
    unfold iso_number in E. unfold Datetime.toordinal.
    assert (Datetime.year a = Datetime.year b
            /\ Datetime.month a = Datetime.month b
            /\ Datetime.day a = Datetime.day b) as (-> & -> & ->) by lia.
    reflexivity.
  - split; [intros _|reflexivity].
    pose proof (iso_lt_ordinal a b Ha Hb L). lia.
  - split; [discriminate|].
    pose proof (iso_lt_ordinal b a Hb Ha G). lia.
Qed.

(** [BETWEEN] on the ISO texts of valid dates is the inclusive range of
    days. *)
Lemma between_iso (a lo hi : Datetime.t) :
  Datetime.valid_date (Datetime.year a) (Datetime.month a) (Datetime.day a)
  = true ->
  Datetime.valid_date (Datetime.year lo) (Datetime.month lo) (Datetime.day lo)
  = true ->
  Datetime.valid_date (Datetime.year hi) (Datetime.month hi) (Datetime.day hi)
  = true ->
  between (Datetime.strftime_ymd a) (Datetime.strftime_ymd lo)
    (Datetime.strftime_ymd hi) = true
  <-> Datetime.toordinal lo <= Datetime.toordinal a <= Datetime.toordinal hi.
Proof.
  intros Ha Hlo Hhi. unfold between.
  rewrite andb_true_iff, (iso_text_order lo a Hlo Ha),
    (iso_text_order a hi Ha Hhi).
  reflexivity.
Qed.

(** ** Frame lemmas of the store *)

Lemma set_accounts_id (db : Store) : set_accounts db (accounts db) = db.
Proof. destruct db; reflexivity. Qed.

Lemma set_transactions_id (db : Store) :
  set_transactions db (transactions db) = db.
Proof. destruct db; reflexivity. Qed.

Lemma map_id_on {A : Type} (f : A -> A) (l : list A) :
  (forall x, In x l -> f x = x) -> map f l = l.
Proof.
  induction l as [|x l IH]; intros H; simpl; [reflexivity|].
  rewrite H by (left; reflexivity).
  rewrite IH; [reflexivity|]. intros y Hy. apply H. right. exact Hy.
Qed.

Lemma same_but_balance_refl r : same_but_balance r r.
Proof. repeat split. Qed.

Lemma update_account_balance_rows db account_id delta :
  Forall2
    (fun r r' =>
       same_but_balance r r'
       /\ AccountRow.current_balance r' =
            if AccountRow.id r =? account_id
            then (AccountRow.current_balance r + delta)%Q
            else AccountRow.current_balance r)
    (accounts db) (accounts (update_account_balance db account_id delta)).
Proof.
  unfold update_account_balance. destruct db as [c s acc t b g d r st n1 n2 n3 n4].
  simpl. induction acc as [|x acc IH]; simpl; constructor; [|exact IH].
  destruct (AccountRow.id x =? account_id);
    (split; [repeat split | reflexivity]).
Qed.

(** C9. [update_account_balance] on an identifier that matches no account
    returns the store as it was; on any identifier it keeps the number and
    order of the account rows, adds the delta to [current_balance] of exactly
    the rows with that identifier, and changes no other field of any account
    and no other table. *)
Theorem update_account_balance_frame (db : Store) (account_id : Z) (delta : Q) :
  ((forall r, In r (accounts db) -> AccountRow.id r <> account_id) ->
   update_account_balance db account_id delta = db)
  /\ Forall2
       (fun r r' =>
          same_but_balance r r'
          /\ AccountRow.current_balance r' =
               if AccountRow.id r =? account_id
               then (AccountRow.current_balance r + delta)%Q
               else AccountRow.current_balance r)
       (accounts db) (accounts (update_account_balance db account_id delta))
  /\ same_but_accounts db (update_account_balance db account_id delta).
Proof.
  split; [|split].
  - intros Hno. unfold update_account_balance.
    rewrite map_id_on; [apply set_accounts_id|].
    intros r Hr. specialize (Hno r Hr).
    destruct (Z.eqb_spec (AccountRow.id r) account_id); [contradiction|reflexivity].
  - apply update_account_balance_rows.
  - repeat split.
Qed.

Lemma update_account_balance_frame_witness :
  update_account_balance Sample.db_A 7 50 = Sample.db_A.
Proof.
  apply (update_account_balance_frame Sample.db_A 7 50).
  intros r [<-|[]]. discriminate.
Defined.

(** ** Budget consumption *)

Lemma filter_none {A : Type} (f : A -> bool) (l : list A) :
  (forall x, In x l -> f x = false) -> List.filter f l = [].
Proof.
  induction l as [|x l IH]; intros H; simpl; [reflexivity|].
  rewrite (H x) by (left; reflexivity).
  apply IH. intros y Hy. apply H. right. exact Hy.
Qed.

Lemma in_map_cases {A : Type} (f : A -> A) (l : list A) (y : A) :
  In y (map f l) -> exists x, In x l /\ y = f x.
Proof.
  intros H. apply in_map_iff in H. destruct H as [x [E Hx]].
  exists x. split; [exact Hx | symmetry; exact E].
Qed.

(** C4. [update_budget_spent] computes one figure, equal to the sum of the
    amounts of the Expense rows of the category dated inside the inclusive
    range (0 when there is none), writes that same figure into [spent] of every
    budget row of the category, and changes nothing else in the store. *)
Theorem update_budget_spent_spec (db : Store) (category_id : Z)
    (period_start period_end : string) :
  let db' := update_budget_spent db category_id period_start period_end in
  let X :=
    Qsum (map TransactionRow.amount
            (List.filter (expense_in_period category_id period_start period_end)
               (transactions db))) in
  (exists figure : Q,
      (figure == X)%Q
      /\ budgets db' =
           map (fun b =>
                  if col_eq (BudgetRow.category_id b) category_id
                  then BudgetRow.set_spent b figure else b)
               (budgets db))
  /\ (forall b', In b' (budgets db') ->
        BudgetRow.category_id b' = Some category_id ->
        (BudgetRow.spent b' == X)%Q)
  /\ ((forall r, In r (transactions db) ->
         expense_in_period category_id period_start period_end r = false) ->
      forall b', In b' (budgets db') ->
        BudgetRow.category_id b' = Some category_id ->
        BudgetRow.spent b' = 0%Q)
  /\ categories db' = categories db
  /\ subcategories db' = subcategories db
  /\ accounts db' = accounts db
  /\ transactions db' = transactions db
  /\ goals db' = goals db
  /\ debts db' = debts db
  /\ recurring_transactions db' = recurring_transactions db
  /\ settings db' = settings db.
Proof.
  intros db' X.
  assert (Hfig : exists figure : Q,
      (figure == X)%Q
      /\ (X = 0%Q -> figure = 0%Q)
      /\ budgets db' =
           map (fun b =>
                  if col_eq (BudgetRow.category_id b) category_id
                  then BudgetRow.set_spent b figure else b)
               (budgets db)).
  { exists (or_zero (sql_sum (map TransactionRow.amount
              (List.filter (expense_in_period category_id period_start period_end)
                 (transactions db))))).
    split; [|split]; [| |reflexivity].
    - apply or_zero_sql_sum.
    - unfold X. intros HX.
      destruct (List.filter _ (transactions db)) as [|r l]; [reflexivity|].
      unfold sql_sum, or_zero. cbn [map].
      destruct (Qeq_bool _ 0) eqn:E; [reflexivity|].
      exfalso. apply Qeq_bool_neq in E. apply E.
      rewrite fold_left_Qplus. cbn [map] in HX. rewrite HX. ring. }
  destruct Hfig as [figure [Hfig [Hzero Hb]]].
  assert (Hrow : forall b', In b' (budgets db') ->
            BudgetRow.category_id b' = Some category_id ->
            BudgetRow.spent b' = figure).
  { intros b' Hin Hcat. rewrite Hb in Hin.
    apply in_map_cases in Hin. destruct Hin as [b [_ ->]].
    destruct (col_eq (BudgetRow.category_id b) category_id) eqn:E.
    - reflexivity.
    - rewrite Hcat in E. simpl in E. rewrite Z.eqb_refl in E. discriminate. }
  split; [exists figure; split; assumption|].
  split; [intros b' Hin Hcat; rewrite (Hrow b' Hin Hcat); exact Hfig|].
  split; [|repeat split].
  intros Hnone b' Hin Hcat. rewrite (Hrow b' Hin Hcat). apply Hzero.
  unfold X.
  rewrite (filter_none _ _ Hnone). reflexivity.
Qed.

Lemma update_budget_spent_spec_witness :
  let b3 := BudgetRow.mk 3 (Some 3) 1000 "Monthly" None None 80 100 in
  let b2 := BudgetRow.mk 2 (Some 4) 50 "Monthly" None None 80 0 in
  (In b3 (budgets (update_budget_spent Sample.db_budgets 3
                     "2024-01-01" "2024-01-31"))
   /\ BudgetRow.category_id b3 = Some 3
   /\ (BudgetRow.spent b3 == 40 + (60 + 0))%Q)
  /\ (In b2 (budgets (update_budget_spent Sample.db_budgets 4
                        "2024-01-01" "2024-01-31"))
      /\ BudgetRow.category_id b2 = Some 4
      /\ BudgetRow.spent b2 = 0%Q).
Proof.
  intros b3 b2.
  assert (H3 : In b3 (budgets (update_budget_spent Sample.db_budgets 3
                                 "2024-01-01" "2024-01-31"))).
  { vm_compute. right. right. left. reflexivity. }
  assert (H2 : In b2 (budgets (update_budget_spent Sample.db_budgets 4
                                 "2024-01-01" "2024-01-31"))).
  { vm_compute. right. left. reflexivity. }
  split.
  - split; [exact H3|]. split; [reflexivity|].
    exact (proj1 (proj2 (update_budget_spent_spec Sample.db_budgets 3
                           "2024-01-01" "2024-01-31")) b3 H3 eq_refl).
  - split; [exact H2|]. split; [reflexivity|].
    refine (proj1 (proj2 (proj2 (update_budget_spent_spec Sample.db_budgets 4
                           "2024-01-01" "2024-01-31"))) _ b2 H2 eq_refl).
    intros r Hr. vm_compute in Hr.
    repeat (destruct Hr as [<-|Hr]; [reflexivity|]). destruct Hr.
Defined.

(** On the sample store of budgets the two budgets of category 3 get
    100 (the March expense and the Income row are left out), the budget of
    category 4 keeps its figure. *)
Example update_budget_spent_sample :
  map (fun b => (BudgetRow.id b, BudgetRow.spent b))
    (budgets (update_budget_spent Sample.db_budgets 3
                "2024-01-01" "2024-01-31"))
  = [(1, 100%Q); (2, 7%Q); (3, 100%Q)].
Proof. vm_compute. reflexivity. Qed.

(** ** Income and expense totals *)

Lemma Qsum_case_filter (p : TransactionRow.t -> bool)
    (l : list TransactionRow.t) :
  (Qsum (map (fun r => if p r then TransactionRow.amount r else 0%Q) l)
   == Qsum (map TransactionRow.amount (List.filter p l)))%Q.
Proof.
  induction l as [|r l IH]; simpl; [reflexivity|].
  destruct (p r); simpl; rewrite IH; ring.
Qed.

Lemma filter_filter {A : Type} (f g : A -> bool) (l : list A) :
  List.filter f (List.filter g l) = List.filter (fun x => f x && g x) l.
Proof.
  induction l as [|x l IH]; simpl; [reflexivity|].
  destruct (g x); simpl; rewrite ?andb_true_r, ?andb_false_r;
    [destruct (f x)|]; rewrite IH; reflexivity.
Qed.

(** C8. [get_income_vs_expense] returns the sum of the amounts of the Income
    rows and the sum of the amounts of the Expense rows dated inside the
    inclusive range; with no row in the range both figures are the number 0;
    with exactly one Income of 2000 and one Expense of 300 in the range the
    figures are 2000 and 300. *)
Theorem get_income_vs_expense_spec (db : Store) (start_date end_date : string) :
  let res := get_income_vs_expense db start_date end_date in
  (income res ==
     Qsum (map TransactionRow.amount
             (List.filter (typed_in_range "Income" start_date end_date)
                (transactions db))))%Q
  /\ (expense res ==
        Qsum (map TransactionRow.amount
                (List.filter (typed_in_range "Expense" start_date end_date)
                   (transactions db))))%Q
  /\ ((forall r, In r (transactions db) ->
         between (TransactionRow.date r) start_date end_date = false) ->
      res = mkIncomeExpense 0 0)
  /\ (forall ti te,
        TransactionRow.transaction_type ti = "Income" ->
        (TransactionRow.amount ti == 2000)%Q ->
        TransactionRow.transaction_type te = "Expense" ->
        (TransactionRow.amount te == 300)%Q ->
        (let in_range :=
           List.filter
             (fun r => between (TransactionRow.date r) start_date end_date)
             (transactions db) in
         in_range = [ti; te] \/ in_range = [te; ti]) ->
        (income res == 2000)%Q /\ (expense res == 300)%Q).
Proof.
  intros res.
  assert (Hinc : (income res ==
     Qsum (map TransactionRow.amount
             (List.filter (typed_in_range "Income" start_date end_date)
                (transactions db))))%Q).
  { unfold res, get_income_vs_expense. cbn [income].
    rewrite or_zero_sql_sum, Qsum_case_filter, filter_filter. reflexivity. }
  assert (Hexp : (expense res ==
     Qsum (map TransactionRow.amount
             (List.filter (typed_in_range "Expense" start_date end_date)
                (transactions db))))%Q).
  { unfold res, get_income_vs_expense. cbn [expense].
    rewrite or_zero_sql_sum, Qsum_case_filter, filter_filter. reflexivity. }
  split; [exact Hinc|]. split; [exact Hexp|]. split.
  - intros Hnone. unfold res, get_income_vs_expense.
    rewrite (filter_none _ _ Hnone). reflexivity.
  - intros ti te Hti Hai Hte Hae Hrows.
    assert (Hty : forall ty,
      List.filter (typed_in_range ty start_date end_date) (transactions db)
      = List.filter (fun r => String.eqb (TransactionRow.transaction_type r) ty)
          (List.filter
             (fun r => between (TransactionRow.date r) start_date end_date)
             (transactions db))).
    { intros ty. rewrite filter_filter. reflexivity. }
    rewrite Hinc, Hexp, !Hty.
    destruct Hrows as [-> | ->]; simpl; rewrite Hti, Hte; simpl;
      rewrite Hai, Hae; split; ring.
Qed.

Lemma get_income_vs_expense_spec_witness :
  (get_income_vs_expense Sample.db_report "2024-02-01" "2024-02-29"
   = mkIncomeExpense 0 0)
  /\ ((income (get_income_vs_expense Sample.db_report
                 "2024-01-01" "2024-01-31") == 2000)%Q
      /\ (expense (get_income_vs_expense Sample.db_report
                     "2024-01-01" "2024-01-31") == 300)%Q).
Proof.
  split.
  - apply (get_income_vs_expense_spec Sample.db_report
             "2024-02-01" "2024-02-29").
    intros r Hr. vm_compute in Hr.
    repeat (destruct Hr as [<-|Hr]; [reflexivity|]). destruct Hr.
  - refine (proj2 (proj2 (proj2 (get_income_vs_expense_spec Sample.db_report
             "2024-01-01" "2024-01-31")))
             (TransactionRow.mk 1 "Income" 2000 None None (Some 1) None
                "2024-01-10" "12:00" "" "" "" None None)
             (TransactionRow.mk 2 "Expense" 300 None None (Some 1) None
                "2024-01-20" "12:00" "" "" "" None None)
             eq_refl _ eq_refl _ _).
    + reflexivity.
    + reflexivity.
    + left. reflexivity.
Defined.

(** ** Budget alerts *)

Lemma fold_left_select {A B : Type} (p : A -> bool) (f : A -> B)
    (l : list A) (acc : list B) :
  fold_left (fun out x => if p x then (out ++ [f x])%list else out) l acc
  = (acc ++ map f (List.filter p l))%list.
Proof.
  revert acc. induction l as [|x l IH]; intros acc; simpl.
  - rewrite app_nil_r. reflexivity.
  - rewrite IH. destruct (p x); simpl; [|reflexivity].
    rewrite <- app_assoc. reflexivity.
Qed.

Lemma check_budget_alerts_select (db : Store) :
  ReminderManager.check_budget_alerts db
  = map alert_for (List.filter alert_fires (get_budgets db)).
Proof.
  unfold ReminderManager.check_budget_alerts.
  exact (fold_left_select alert_fires alert_for (get_budgets db) []).
Qed.

(** C7. [check_budget_alerts] goes through every budget of the store. The
    percentage of a budget is spent/amount*100 when the amount is positive
    and 0 when the amount is 0. The check reports, in the order of the
    budgets, one alert for every budget whose percentage is at least its
    [alert_percentage] and none for the others; the alert carries
    that percentage, and its severity is "high" when the percentage is at
    least 100 and "medium" otherwise. *)
Theorem check_budget_alerts_spec (db : Store) :
  map fst (get_budgets db) = budgets db
  /\ (forall b, (0 < BudgetRow.amount b)%Q ->
        (ReminderManager.budget_percentage b
         == BudgetRow.spent b / BudgetRow.amount b * 100)%Q)
  /\ (forall b, (BudgetRow.amount b == 0)%Q ->
        ReminderManager.budget_percentage b = 0%Q)
  /\ ReminderManager.check_budget_alerts db
     = map alert_for (List.filter alert_fires (get_budgets db))
  /\ (forall budget,
        alert_fires budget = true <->
        (BudgetRow.alert_percentage (fst budget)
         <= ReminderManager.budget_percentage (fst budget))%Q)
  /\ (forall budget,
        ReminderManager.percentage (alert_for budget)
        = ReminderManager.budget_percentage (fst budget)
        /\ ((100 <= ReminderManager.budget_percentage (fst budget))%Q ->
            ReminderManager.severity (alert_for budget) = "high")
        /\ ((ReminderManager.budget_percentage (fst budget) < 100)%Q ->
            ReminderManager.severity (alert_for budget) = "medium")).
Proof.
  split; [|split; [|split; [|split; [|split]]]].
  - unfold get_budgets. rewrite map_map. apply map_id.
  - intros b Hpos. unfold ReminderManager.budget_percentage.
    destruct (Qle_bool (BudgetRow.amount b) 0) eqn:E; simpl; [|reflexivity].
    apply Qle_bool_iff in E. exfalso. apply (Qlt_not_le _ _ Hpos E).
  - intros b Hz. unfold ReminderManager.budget_percentage.
    destruct (Qle_bool (BudgetRow.amount b) 0) eqn:E; simpl; [reflexivity|].
    exfalso. assert (H : (BudgetRow.amount b <= 0)%Q) by (rewrite Hz; apply Qle_refl).
    apply Qle_bool_iff in H. congruence.
  - apply check_budget_alerts_select.
  - intros budget. unfold alert_fires. apply Qle_bool_iff.
  - intros budget. split; [reflexivity|]. unfold alert_for. cbn [ReminderManager.severity].
    split; intros H.
    + apply Qle_bool_iff in H. rewrite H. reflexivity.
    + destruct (Qle_bool 100 _) eqn:E; [|reflexivity].
      apply Qle_bool_iff in E. exfalso. apply (Qlt_not_le _ _ H E).
Qed.

Lemma check_budget_alerts_spec_witness :
  let b := BudgetRow.mk 3 (Some 3) 200 "Monthly" None None 80 240 in
  let z := BudgetRow.mk 4 (Some 3) 0 "Monthly" None None 80 500 in
  let m := BudgetRow.mk 2 (Some 3) 200 "Monthly" None None 80 160 in
  ((0 < BudgetRow.amount b)%Q
   /\ (ReminderManager.budget_percentage b == 240 / 200 * 100)%Q)
  /\ ((BudgetRow.amount z == 0)%Q
      /\ ReminderManager.budget_percentage z = 0%Q)
  /\ ((100 <= ReminderManager.budget_percentage b)%Q
      /\ ReminderManager.severity (alert_for (b, None)) = "high")
  /\ ((ReminderManager.budget_percentage m < 100)%Q
      /\ ReminderManager.severity (alert_for (m, None)) = "medium").
Proof.
  intros b z m.
  assert (Hb : (0 < BudgetRow.amount b)%Q) by reflexivity.
  assert (Hz : (BudgetRow.amount z == 0)%Q) by reflexivity.
  assert (Hh : (100 <= ReminderManager.budget_percentage b)%Q)
    by (vm_compute; discriminate).
  assert (Hm : (ReminderManager.budget_percentage m < 100)%Q) by reflexivity.
  split; [split; [exact Hb|]|split; [split; [exact Hz|]|split; (split; [eassumption|])]].
  - exact (proj1 (proj2 (check_budget_alerts_spec Sample.db_alerts)) b Hb).
  - exact (proj1 (proj2 (proj2 (check_budget_alerts_spec Sample.db_alerts)))
             z Hz).
  - exact (proj1 (proj2 (proj2 (proj2 (proj2 (proj2 (proj2
             (check_budget_alerts_spec Sample.db_alerts))))) (b, None))) Hh).
  - exact (proj2 (proj2 (proj2 (proj2 (proj2 (proj2 (proj2
             (check_budget_alerts_spec Sample.db_alerts))))) (m, None))) Hm).
Defined.

(** On the sample store the budgets at 80% and 120% raise an alert, the one
    at 50% and the one with a ceiling of 0 do not. *)
Example check_budget_alerts_sample :
  map (fun a => (ReminderManager.spent a, ReminderManager.severity a))
    (ReminderManager.check_budget_alerts Sample.db_alerts)
  = [(160%Q, "medium"); (240%Q, "high")].
Proof. vm_compute. reflexivity. Qed.

(** ** Recurrence *)

Lemma add_transaction_transactions (db : Store) (transaction : Transaction.t) :
  transactions (fst (add_transaction db transaction))
  = (transactions db
     ++ [inserted_row (seq_transactions db + 1) transaction])%list.
Proof.
  unfold add_transaction, inserted_row.
  destruct (String.eqb _ "Expense"), (String.eqb _ "Income"),
    (String.eqb _ "Transfer"),
    (truthy_id (Transaction.account_id transaction)),
    (truthy_id (Transaction.to_account_id transaction)); reflexivity.
Qed.

Lemma add_transaction_recurring (db : Store) (transaction : Transaction.t) :
  recurring_transactions (fst (add_transaction db transaction))
  = recurring_transactions db.
Proof.
  unfold add_transaction.
  destruct (String.eqb _ "Expense"), (String.eqb _ "Income"),
    (String.eqb _ "Transfer"),
    (truthy_id (Transaction.account_id transaction)),
    (truthy_id (Transaction.to_account_id transaction)); reflexivity.
Qed.

Lemma due_loop_filter (today : string)
    (l acc : list (RecurringRow.t * option CategoryRow.t)) :
  fold_left
    (fun due_transactions trans =>
       match truthy_str (RecurringRow.next_due_date (fst trans)) with
       | Some d =>
           if String.leb d today then
             if RecurringRow.active (fst trans)
                && RecurringRow.auto_create (fst trans)
             then (due_transactions ++ [trans])%list
             else due_transactions
           else due_transactions
       | None => due_transactions
       end)
    l acc
  = (acc ++ List.filter (is_due today) l)%list.
Proof.
  revert acc. induction l as [|x l IH]; intros acc; simpl.
  - rewrite app_nil_r. reflexivity.
  - rewrite IH. unfold is_due at 2.
    destruct (truthy_str _) as [d|]; [|reflexivity].
    destruct (String.leb d today); [|reflexivity].
    destruct (RecurringRow.active x.1 && RecurringRow.auto_create x.1);
      simpl; [|reflexivity].
    rewrite <- app_assoc. reflexivity.
Qed.

Lemma check_recurring_transactions_filter (db : Store) (today : string) :
  ReminderManager.check_recurring_transactions db today
  = List.filter (is_due today) (get_recurring_transactions db).
Proof.
  unfold ReminderManager.check_recurring_transactions.
  apply (due_loop_filter today (get_recurring_transactions db) []).
Qed.

Lemma in_insert_by_due r x l : In x (insert_by_due r l) <-> x = r \/ In x l.
Proof.
  induction l as [|y l IH]; simpl.
  - intuition.
  - destruct (due_leb _ _); simpl; [intuition|].
    rewrite IH. intuition.
Qed.

Lemma in_order_by_due x l : In x (order_by_due l) <-> In x l.
Proof.
  induction l as [|y l IH]; simpl; [reflexivity|].
  rewrite in_insert_by_due, IH. intuition.
Qed.

(** A reported pattern is a row of the table that is due. *)
Lemma check_recurring_transactions_in db today r c :
  In (r, c) (ReminderManager.check_recurring_transactions db today) ->
  In r (recurring_transactions db) /\ is_due today (r, c) = true.
Proof.
  rewrite check_recurring_transactions_filter. intros H.
  apply filter_In in H. destruct H as [Hin Hdue]. split; [|exact Hdue].
  unfold get_recurring_transactions in Hin.
  apply in_map_iff in Hin. destruct Hin as [r' [E Hr']].
  injection E as -> _. rewrite in_order_by_due in Hr'.
  apply filter_In in Hr'. tauto.
Qed.

Lemma is_due_dated today r c :
  is_due today (r, c) = true -> RecurringRow.next_due_date r <> None.
Proof.
  unfold is_due. simpl. destruct (RecurringRow.next_due_date r); simpl;
    [discriminate|congruence].
Qed.

Lemma create_instances_loop_cons db now recurring c rest count :
  ReminderManager.create_instances_loop db now ((recurring, c) :: rest) count
  = let db1 := fst (add_transaction db (instance_of now recurring)) in
    match next_due_of recurring with
    | None => (db1, None)
    | Some next_date =>
        ReminderManager.create_instances_loop
          (set_recurring_transactions db1
             (advance_rows (RecurringRow.id recurring) next_date
                (recurring_transactions db1)))
          now rest (count + 1)
    end.
Proof. reflexivity. Qed.

(** The loop appends one row per pattern it handles and touches no existing
    transaction row. *)
Lemma create_instances_loop_transactions now due :
  forall db count,
  exists new,
    transactions (fst (ReminderManager.create_instances_loop db now due count))
    = (transactions db ++ new)%list
    /\ Forall (fun t => exists r, In r (map fst due)
                 /\ TransactionRow.recurring_id t = Some (RecurringRow.id r))
         new.
Proof.
  induction due as [|[recurring c] due IH]; intros db count.
  - exists []. simpl. rewrite app_nil_r. split; [reflexivity|constructor].
  - rewrite create_instances_loop_cons. cbv zeta.
    assert (Hrow : Forall (fun t => exists r,
               In r (map fst ((recurring, c) :: due))
               /\ TransactionRow.recurring_id t = Some (RecurringRow.id r))
             [inserted_row (seq_transactions db + 1)
                (instance_of now recurring)]).
    { constructor; [|constructor]. exists recurring. split; [left|]; reflexivity. }
    destruct (next_due_of recurring) as [next_date|].
    + match goal with
      | |- context [ReminderManager.create_instances_loop ?d now due ?n] =>
          destruct (IH d n) as [new [E Hnew]]
      end.
      rewrite E. cbn [transactions set_recurring_transactions].
      rewrite add_transaction_transactions.
      exists (inserted_row (seq_transactions db + 1)
                (instance_of now recurring) :: new).
      split; [rewrite <- app_assoc; reflexivity|].
      inversion Hrow; subst. constructor; [assumption|].
      eapply List.Forall_impl; [|exact Hnew].
      intros t [r [Hr Ht]]. exists r. split; [right; exact Hr|exact Ht].
    + cbn [fst]. rewrite add_transaction_transactions.
      eexists. split; [reflexivity|exact Hrow].
Qed.

Lemma NoDup_map_eq {A B : Type} (f : A -> B) (l : list A) (x y : A) :
  List.NoDup (map f l) -> In x l -> In y l -> f x = f y -> x = y.
Proof.
  induction l as [|a l IH]; simpl; intros Hnd Hx Hy E; [contradiction|].
  inversion Hnd as [|? ? Hnotin Hnd']; subst.
  destruct Hx as [->|Hx], Hy as [->|Hy].
  - reflexivity.
  - exfalso. apply Hnotin. rewrite E. apply in_map. exact Hy.
  - exfalso. apply Hnotin. rewrite <- E. apply in_map. exact Hx.
  - apply IH; assumption.
Qed.

Lemma NoDup_map_filter {A B : Type} (f : A -> B) (p : A -> bool)
    (l : list A) :
  List.NoDup (map f l) -> List.NoDup (map f (List.filter p l)).
Proof.
  induction l as [|a l IH]; simpl; intros H; [constructor|].
  inversion H as [|? ? Hnotin Hnd]; subst.
  destruct (p a); simpl; [|apply IH; exact Hnd].
  constructor; [|apply IH; exact Hnd].
  intros Hin. apply Hnotin. apply in_map_iff in Hin.
  destruct Hin as [y [E Hy]]. apply filter_In in Hy.
  rewrite <- E. apply in_map. tauto.
Qed.

Lemma NoDup_ids_insert r l :
  List.NoDup (map RecurringRow.id l) ->
  ~ In (RecurringRow.id r) (map RecurringRow.id l) ->
  List.NoDup (map RecurringRow.id (insert_by_due r l)).
Proof.
  induction l as [|x l IH]; simpl; intros Hnd Hnotin.
  - constructor; [tauto|constructor].
  - destruct (due_leb _ _); simpl; [constructor; assumption|].
    inversion Hnd as [|? ? Hx Hnd']; subst.
    constructor; [|apply IH; tauto].
    intros Hin. apply in_map_iff in Hin. destruct Hin as [y [E Hy]].
    apply in_insert_by_due in Hy. destruct Hy as [->|Hy].
    + apply Hnotin. left. symmetry. exact E.
    + apply Hx. rewrite <- E. apply in_map. exact Hy.
Qed.

Lemma NoDup_ids_order l :
  List.NoDup (map RecurringRow.id l) ->
  List.NoDup (map RecurringRow.id (order_by_due l)).
Proof.
  induction l as [|x l IH]; simpl; intros Hnd; [constructor|].
  inversion Hnd as [|? ? Hx Hnd']; subst.
  apply NoDup_ids_insert; [apply IH; exact Hnd'|].
  intros Hin. apply Hx. apply in_map_iff in Hin.
  destruct Hin as [y [E Hy]]. rewrite in_order_by_due in Hy.
  rewrite <- E. apply in_map. exact Hy.
Qed.

(** The due patterns carry pairwise different keys. *)
Lemma check_recurring_transactions_NoDup db today :
  List.NoDup (map RecurringRow.id (recurring_transactions db)) ->
  List.NoDup (map (fun x => RecurringRow.id (fst x))
                (ReminderManager.check_recurring_transactions db today)).
Proof.
  intros Hnd. rewrite check_recurring_transactions_filter.
  apply NoDup_map_filter. unfold get_recurring_transactions.
  rewrite map_map. simpl. apply NoDup_ids_order.
  apply NoDup_map_filter. exact Hnd.
Qed.

Lemma advance_rows_ids k v rows :
  map RecurringRow.id (advance_rows k v rows) = map RecurringRow.id rows.
Proof.
  unfold advance_rows. rewrite map_map. apply map_ext.
  intros r. destruct (RecurringRow.id r =? k); reflexivity.
Qed.

Lemma advance_all_ids due rows :
  map RecurringRow.id (advance_all due rows) = map RecurringRow.id rows.
Proof.
  unfold advance_all. revert rows.
  induction due as [|x due IH]; intros rows; simpl; [reflexivity|].
  rewrite IH. destruct (next_due_of _); [apply advance_rows_ids|reflexivity].
Qed.

Lemma advance_rows_other k v rows q :
  In q rows -> RecurringRow.id q <> k -> In q (advance_rows k v rows).
Proof.
  intros Hin Hne. unfold advance_rows. apply in_map_iff. exists q.
  split; [|exact Hin].
  destruct (Z.eqb_spec (RecurringRow.id q) k); [contradiction|reflexivity].
Qed.

Lemma advance_rows_same k v rows q :
  In q rows -> RecurringRow.id q = k ->
  In (RecurringRow.set_next_due_date q (Some v)) (advance_rows k v rows).
Proof.
  intros Hin He. unfold advance_rows. apply in_map_iff. exists q.
  split; [|exact Hin]. rewrite He, Z.eqb_refl. reflexivity.
Qed.

Lemma advance_all_other due rows q :
  (forall x, In x due -> RecurringRow.id (fst x) <> RecurringRow.id q) ->
  In q rows -> In q (advance_all due rows).
Proof.
  unfold advance_all. revert rows.
  induction due as [|x due IH]; intros rows Hne Hin; simpl; [exact Hin|].
  apply IH; [intros y Hy; apply Hne; right; exact Hy|].
  destruct (next_due_of _); [|exact Hin].
  apply advance_rows_other; [exact Hin|].
  intros E. apply (Hne x); [left; reflexivity|]. symmetry. exact E.
Qed.

(** With pairwise different keys, the pass moves the cursor of a due pattern
    to its computed date. *)
Lemma advance_all_same due rows p c v :
  List.NoDup (map (fun x => RecurringRow.id (fst x)) due) ->
  In (p, c) due -> In p rows -> next_due_of p = Some v ->
  In (RecurringRow.set_next_due_date p (Some v)) (advance_all due rows).
Proof.
  unfold advance_all. revert rows.
  induction due as [|x due IH]; intros rows Hnd Hin Hrow Hv; simpl;
    [contradiction|].
  inversion Hnd as [|? ? Hx Hnd']; subst.
  destruct Hin as [->|Hin].
  - simpl. rewrite Hv. apply (advance_all_other due).
    + intros y Hy E. apply Hx. simpl in E |- *. rewrite <- E.
      apply (in_map (fun x => RecurringRow.id (fst x))). exact Hy.
    + apply advance_rows_same; [exact Hrow|reflexivity].
  - apply IH; [exact Hnd'|exact Hin| |exact Hv].
    destruct (next_due_of (fst x)); [|exact Hrow].
    apply advance_rows_other; [exact Hrow|].
    intros E. apply Hx. rewrite <- E.
    apply (in_map (fun x => RecurringRow.id (fst x)) _ (p, c)). exact Hin.
Qed.

(** When no date computation raises, the loop handles every due pattern. *)
Lemma create_instances_loop_complete now due :
  forall db count,
  (forall x, In x due -> next_due_of (fst x) <> None) ->
  let res := ReminderManager.create_instances_loop db now due count in
  snd res = Some (count + Z.of_nat (length due))
  /\ recurring_transactions (fst res)
     = advance_all due (recurring_transactions db)
  /\ exists new,
       transactions (fst res) = (transactions db ++ new)%list
       /\ map TransactionRow.recurring_id new
          = map (fun x => Some (RecurringRow.id (fst x))) due.
Proof.
  induction due as [|[recurring c] due IH]; intros db count Hok.
  - simpl. split; [f_equal; lia|]. split; [reflexivity|].
    exists []. rewrite app_nil_r. split; reflexivity.
  - cbv zeta. rewrite create_instances_loop_cons. cbv zeta.
    destruct (next_due_of recurring) as [v|] eqn:Hv;
      [|exfalso; apply (Hok (recurring, c)); [left; reflexivity|exact Hv]].
    match goal with
    | |- context [ReminderManager.create_instances_loop ?d now due ?n] =>
        destruct (IH d n) as [Hcount [Hrows [new [Htx Hnew]]]]
    end.
    { intros x Hx. apply Hok. right. exact Hx. }
    split; [rewrite Hcount; f_equal; simpl length; lia|].
    split.
    + rewrite Hrows. cbn [recurring_transactions set_recurring_transactions].
      rewrite add_transaction_recurring.
      unfold advance_all. simpl. rewrite Hv. reflexivity.
    + exists (inserted_row (seq_transactions db + 1)
                (instance_of now recurring) :: new).
      rewrite Htx. cbn [transactions set_recurring_transactions].
      rewrite add_transaction_transactions, <- app_assoc.
      split; [reflexivity|]. simpl. rewrite Hnew. reflexivity.
Qed.

Lemma count_key_once {A : Type} (f : A -> Z) (l : list A) (x : A) :
  List.NoDup (map f l) -> In x l ->
  length (List.filter (fun y => f y =? f x) l) = 1%nat.
Proof.
  induction l as [|a l IH]; simpl; intros Hnd Hin; [contradiction|].
  inversion Hnd as [|? ? Hnotin Hnd']; subst.
  destruct Hin as [->|Hin].
  - rewrite Z.eqb_refl. simpl. f_equal.
    rewrite (filter_none (fun y => f y =? f x) l); [reflexivity|].
    intros y Hy. apply Z.eqb_neq. intros E. apply Hnotin.
    rewrite <- E. apply in_map. exact Hy.
  - destruct (Z.eqb_spec (f a) (f x)) as [E|_]; [|apply IH; assumption].
    exfalso. apply Hnotin. rewrite E. apply in_map. exact Hin.
Qed.

Lemma filter_length_map {A B : Type} (f : A -> B) (g : B -> bool)
    (l : list A) :
  length (List.filter (fun y => g (f y)) l)
  = length (List.filter g (map f l)).
Proof.
  induction l as [|a l IH]; simpl; [reflexivity|].
  destruct (g (f a)); simpl; rewrite IH; reflexivity.
Qed.

(** C10. A pattern of the table without a next due date is not among the
    due patterns on any day, whatever its [active] and [auto_create] flags,
    and materializing the due patterns of any store appends no transaction
    that refers to it. *)
Theorem undated_pattern_never_due (db : Store) (now : Datetime.t)
    (p : RecurringRow.t) :
  List.NoDup (map RecurringRow.id (recurring_transactions db)) ->
  In p (recurring_transactions db) ->
  RecurringRow.next_due_date p = None ->
  (forall today c,
     ~ In (p, c) (ReminderManager.check_recurring_transactions db today))
  /\ exists new,
       transactions
         (fst (ReminderManager.create_recurring_transaction_instances db now))
       = (transactions db ++ new)%list
       /\ Forall (fun t => TransactionRow.recurring_id t
                           <> Some (RecurringRow.id p)) new.
Proof.
  intros Hnd Hp Hnone.
  assert (Hnot : forall today c,
    ~ In (p, c) (ReminderManager.check_recurring_transactions db today)).
  { intros today c Hin.
    apply check_recurring_transactions_in in Hin. destruct Hin as [_ Hdue].
    apply is_due_dated in Hdue. contradiction. }
  split; [exact Hnot|].
  unfold ReminderManager.create_recurring_transaction_instances.
  destruct (create_instances_loop_transactions now
              (ReminderManager.check_recurring_transactions db
                 (Datetime.strftime_ymd now)) db 0) as [new [E Hnew]].
  exists new. split; [exact E|].
  eapply List.Forall_impl; [|exact Hnew].
  intros t [r [Hr Ht]] Heq. rewrite Ht in Heq. injection Heq as Hid.
  apply in_map_iff in Hr. destruct Hr as [[r' c] [Er Hin]]. simpl in Er. subst r'.
  destruct (check_recurring_transactions_in _ _ _ _ Hin) as [Hrow _].
  assert (r = p) by (eapply NoDup_map_eq; eauto). subst r.
  exact (Hnot _ _ Hin).
Qed.

Lemma undated_pattern_never_due_witness :
  let p := RecurringRow.mk 2 "Expense" 15 (Some 3) None (Some 1)
             "subscription" "Monthly" 1 None None None true true in
  (forall today c,
     ~ In (p, c)
         (ReminderManager.check_recurring_transactions Sample.db_undated today))
  /\ exists new,
       transactions
         (fst (ReminderManager.create_recurring_transaction_instances
                 Sample.db_undated Sample.noon))
       = (transactions Sample.db_undated ++ new)%list
       /\ Forall (fun t => TransactionRow.recurring_id t
                           <> Some (RecurringRow.id p)) new.
Proof.
  intros p.
  apply (undated_pattern_never_due Sample.db_undated Sample.noon p).
  - vm_compute. repeat constructor; simpl; intuition discriminate.
  - vm_compute. right. left. reflexivity.
  - reflexivity.
Defined.

(** On the sample store only the dated pattern is materialized. *)
Example undated_pattern_sample :
  map TransactionRow.recurring_id
    (transactions
       (fst (ReminderManager.create_recurring_transaction_instances
               Sample.db_undated Sample.noon)))
  = [Some 1]
  /\ snd (ReminderManager.create_recurring_transaction_instances
            Sample.db_undated Sample.noon) = Some 1.
Proof. vm_compute. split; reflexivity. Qed.

Lemma year_of_ordinal (y m d : Z) :
  Datetime.valid_date y m d = true ->
  FIRST_FOUR_DIGIT_DAY <= Datetime.ymd2ord y m d ->
  1000 <= y.
Proof.
  intros Hv Ho.
  pose proof (valid_date_bounds _ _ _ Hv) as [Hy _].
  pose proof (day_of_year_bounds _ _ _ Hv) as Hd.
  destruct (Z_lt_le_dec y 1000) as [Hlt|]; [|assumption]. exfalso.
  pose proof (days_before_year_succ y ltac:(lia)) as Hs.
  pose proof (days_before_year_le (y + 1) 1000 ltac:(lia) ltac:(lia)) as Hle.
  unfold FIRST_FOUR_DIGIT_DAY, Datetime.ymd2ord in Ho.
  change (Datetime.days_before_year 1000 + Datetime.days_before_month 1000 1
          + 1)
    with (Datetime.days_before_year 1000 + 1) in Ho.
  lia.
Qed.

Lemma calculate_next_due_date_moves D F N k :
  (forall d, (if String.eqb F "Daily" then Datetime.add_days d N
              else if String.eqb F "Weekly" then Datetime.add_days d (7 * N)
              else if String.eqb F "Monthly"
              then Datetime.add_days d (30 * N)
              else if String.eqb F "Yearly"
              then Datetime.add_days d (365 * N)
              else Datetime.add_days d N)
             = Datetime.add_days d k) ->
  moves_cursor D F N k.
Proof.
  intros Hk d Hd Hrange.
  unfold ReminderManager.calculate_next_due_date. rewrite Hd, Hk.
  assert (Hlow : 1 <= Datetime.toordinal d + k).
  { unfold FIRST_FOUR_DIGIT_DAY in Hrange.
    assert (1 <= Datetime.ymd2ord 1000 1 1) by (vm_compute; discriminate).
    lia. }
  destruct (Datetime.add_days d k) as [d'|] eqn:E.
  - destruct (add_days_spec d d' k E) as [Hv Ho].
    exists (Datetime.strftime_ymd d'), (midnight d').
    split; [reflexivity|].
    split; [apply strptime_strftime; exact Hv|].
    split; [reflexivity|].
    split; [|exact Ho].
    apply (year_of_ordinal _ _ _ Hv). fold (Datetime.toordinal d').
    rewrite Ho. apply Hrange.
  - exfalso. unfold Datetime.add_days in E. cbv zeta in E.
    destruct ((1 <=? Datetime.toordinal d + k)
              && (Datetime.toordinal d + k <=? Datetime.MAXORDINAL)) eqn:B.
    + destruct (Datetime.ord2ymd _) as [[? ?] ?]. discriminate.
    + apply andb_false_iff in B. rewrite !Z.leb_gt in B. lia.
Qed.

(** The patterns handled before one that raises are handled as in a pass
    of their own. *)
Lemma create_instances_loop_app now pre :
  forall db count rest,
  (forall x, In x pre -> next_due_of (fst x) <> None) ->
  ReminderManager.create_instances_loop db now (pre ++ rest) count
  = ReminderManager.create_instances_loop
      (fst (ReminderManager.create_instances_loop db now pre count))
      now rest (count + Z.of_nat (length pre)).
Proof.
  induction pre as [|[recurring c] pre IH]; intros db count rest Hok.
  - cbn [app length ReminderManager.create_instances_loop fst Z.of_nat].
    rewrite Z.add_0_r. reflexivity.
  - cbn [app]. rewrite !create_instances_loop_cons. cbv zeta.
    destruct (next_due_of recurring) as [v|] eqn:Hv;
      [|exfalso; apply (Hok (recurring, c)); [left; reflexivity|exact Hv]].
    rewrite IH; [|intros x Hx; apply Hok; right; exact Hx].
    f_equal. cbn [length]. lia.
Qed.

(** Raising or not, the loop keeps the keys of the patterns and the rows of
    the patterns it does not handle. *)
Lemma create_instances_loop_ids now due :
  forall db count,
  map RecurringRow.id
    (recurring_transactions
       (fst (ReminderManager.create_instances_loop db now due count)))
  = map RecurringRow.id (recurring_transactions db).
Proof.
  induction due as [|[recurring c] due IH]; intros db count; [reflexivity|].
  rewrite create_instances_loop_cons. cbv zeta.
  destruct (next_due_of recurring) as [v|].
  - rewrite IH. cbn [recurring_transactions set_recurring_transactions].
    rewrite advance_rows_ids, add_transaction_recurring. reflexivity.
  - cbn [fst]. rewrite add_transaction_recurring. reflexivity.
Qed.

Lemma create_instances_loop_other now due :
  forall db count q,
  (forall x, In x due -> RecurringRow.id (fst x) <> RecurringRow.id q) ->
  In q (recurring_transactions db) ->
  In q (recurring_transactions
          (fst (ReminderManager.create_instances_loop db now due count))).
Proof.
  induction due as [|[recurring c] due IH]; intros db count q Hne Hin;
    [exact Hin|].
  rewrite create_instances_loop_cons. cbv zeta.
  destruct (next_due_of recurring) as [v|].
  - apply IH; [intros x Hx; apply Hne; right; exact Hx|].
    cbn [recurring_transactions set_recurring_transactions].
    rewrite add_transaction_recurring.
    apply advance_rows_other; [exact Hin|].
    intros E. apply (Hne (recurring, c)); [left; reflexivity|].
    symmetry. exact E.
  - cbn [fst]. rewrite add_transaction_recurring. exact Hin.
Qed.

Lemma filter_key_none (k : Z) (l : list TransactionRow.t) :
  Forall (fun t => TransactionRow.recurring_id t <> Some k) l ->
  List.filter (fun t => col_eq (TransactionRow.recurring_id t) k) l = [].
Proof.
  intros H. apply filter_none. intros t Ht.
  pose proof (proj1 (List.Forall_forall _ l) H t Ht) as Hne. cbv beta in Hne.
  destruct (TransactionRow.recurring_id t) as [j|]; [|reflexivity].
  cbn [col_eq]. apply Z.eqb_neq. intros E. apply Hne. rewrite E. reflexivity.
Qed.

Lemma same_but_next_due_set p v :
  same_but_next_due p (RecurringRow.set_next_due_date p v)
  /\ RecurringRow.next_due_date (RecurringRow.set_next_due_date p v) = v.
Proof. split; [repeat split|reflexivity]. Qed.

(** A due pattern whose date computation succeeds is advanced and gets one
    transaction as soon as no pattern handled before it raises. *)
Lemma create_instances_advances db now pre p c post v :
  List.NoDup (map RecurringRow.id (recurring_transactions db)) ->
  ReminderManager.check_recurring_transactions db (Datetime.strftime_ymd now)
  = (pre ++ (p, c) :: post)%list ->
  (forall x, In x pre -> next_due_of (fst x) <> None) ->
  next_due_of p = Some v ->
  let res := ReminderManager.create_recurring_transaction_instances db now in
  In (RecurringRow.set_next_due_date p (Some v))
    (recurring_transactions (fst res))
  /\ map RecurringRow.id (recurring_transactions (fst res))
     = map RecurringRow.id (recurring_transactions db)
  /\ exists new,
       transactions (fst res) = (transactions db ++ new)%list
       /\ length (List.filter
                    (fun t => col_eq (TransactionRow.recurring_id t)
                                (RecurringRow.id p))
                    new) = 1%nat.
Proof.
  intros Hnd Hdue Hok Hv res.
  assert (Hnd_due : List.NoDup (map (fun x => RecurringRow.id (fst x))
                                  (pre ++ (p, c) :: post)))
    by (rewrite <- Hdue; apply check_recurring_transactions_NoDup; exact Hnd).
  assert (Hrow : In p (recurring_transactions db)).
  { apply (check_recurring_transactions_in db (Datetime.strftime_ymd now) p c).
    rewrite Hdue. apply in_or_app. right. left. reflexivity. }
  rewrite map_app in Hnd_due. cbn [map fst] in Hnd_due.
  assert (Hpre : forall x, In x pre ->
            RecurringRow.id (fst x) <> RecurringRow.id p).
  { intros x Hx E. apply NoDup_remove_2 in Hnd_due. apply Hnd_due.
    apply in_or_app. left. rewrite <- E.
    apply (in_map (fun x => RecurringRow.id (fst x))). exact Hx. }
  assert (Hpost : forall x, In x post ->
            RecurringRow.id (fst x) <> RecurringRow.id p).
  { intros x Hx E. apply NoDup_remove_2 in Hnd_due. apply Hnd_due.
    apply in_or_app. right. rewrite <- E.
    apply (in_map (fun x => RecurringRow.id (fst x))). exact Hx. }
  subst res. unfold ReminderManager.create_recurring_transaction_instances.
  cbv zeta. rewrite Hdue.
  split; [|split; [apply create_instances_loop_ids|]].
  - rewrite (create_instances_loop_app now pre db 0 _ Hok).
    destruct (create_instances_loop_complete now pre db 0 Hok)
      as [_ [Hrows _]]. cbv zeta in Hrows.
    rewrite create_instances_loop_cons. cbv zeta. rewrite Hv.
    apply create_instances_loop_other.
    + intros x Hx. cbn [RecurringRow.id]. destruct p. apply (Hpost x Hx).
    + cbn [recurring_transactions set_recurring_transactions].
      rewrite add_transaction_recurring, Hrows.
      apply advance_rows_same; [|reflexivity].
      apply advance_all_other; [|exact Hrow].
      intros x Hx. apply Hpre. exact Hx.
  - rewrite (create_instances_loop_app now pre db 0 _ Hok).
    destruct (create_instances_loop_complete now pre db 0 Hok)
      as [_ [_ [new1 [Htx1 Hnew1]]]]. cbv zeta in Htx1.
    rewrite create_instances_loop_cons. cbv zeta. rewrite Hv.
    match goal with
    | |- context [ReminderManager.create_instances_loop ?d now post ?n] =>
        destruct (create_instances_loop_transactions now post d n)
          as [new3 [Htx3 Hnew3]]
    end.
    exists (new1 ++ inserted_row
                      (seq_transactions
                         (fst (ReminderManager.create_instances_loop db now
                                 pre 0)) + 1)
                      (instance_of now p) :: new3)%list.
    split.
    + rewrite Htx3. cbn [transactions set_recurring_transactions].
      rewrite add_transaction_transactions, Htx1, <- !app_assoc.
      reflexivity.
    + rewrite List.filter_app. cbn [List.filter].
      rewrite (filter_key_none (RecurringRow.id p) new1).
      * rewrite (filter_key_none (RecurringRow.id p) new3).
        -- cbn [inserted_row instance_of TransactionRow.recurring_id col_eq].
           unfold instance_of, Transaction.init.
           cbn [Transaction.recurring_id col_eq].
           rewrite Z.eqb_refl. reflexivity.
        -- eapply List.Forall_impl; [|exact Hnew3].
           intros t [r [Hr Ht]] E. rewrite Ht in E. injection E as E.
           apply in_map_iff in Hr. destruct Hr as [x [Ex Hx]].
           apply (Hpost x Hx). rewrite Ex. exact E.
      * apply List.Forall_forall. intros t Ht E.
        apply (in_map TransactionRow.recurring_id) in Ht.
        rewrite Hnew1, E in Ht. apply in_map_iff in Ht.
        destruct Ht as [x [Ex Hx]]. injection Ex as Ex.
        apply (Hpre x Hx). exact Ex.
Qed.

(** C5, as amended. For a cursor that is a date, [calculate_next_due_date]
    returns the ISO text of the date [N] days later for Daily, [7N] for
    Weekly, [30N] for Monthly, [365N] for Yearly and [N] for any other
    frequency, whenever that day lies in the years 1000 to 9999; thirty days
    after 2024-01-01 is 2024-01-31. When the date computation raises for no
    pattern that the pass handles before it, a due Monthly pattern of
    interval 1 whose cursor is 2024-01-01 ends with the cursor 2024-01-31,
    its other fields as they were, and exactly one of the appended
    transactions refers to it. *)
Theorem next_due_date_rule :
  (forall D N,
      moves_cursor D "Daily" N N
      /\ moves_cursor D "Weekly" N (7 * N)
      /\ moves_cursor D "Monthly" N (30 * N)
      /\ moves_cursor D "Yearly" N (365 * N))
  /\ (forall D F N,
        F <> "Daily" -> F <> "Weekly" -> F <> "Monthly" -> F <> "Yearly" ->
        moves_cursor D F N N)
  /\ ReminderManager.calculate_next_due_date "2024-01-01" "Monthly" 1
     = Some "2024-01-31"
  /\ (forall db now pre p c post,
        List.NoDup (map RecurringRow.id (recurring_transactions db)) ->
        ReminderManager.check_recurring_transactions db
          (Datetime.strftime_ymd now)
        = (pre ++ (p, c) :: post)%list ->
        (forall x, In x pre -> next_due_of (fst x) <> None) ->
        RecurringRow.frequency p = "Monthly" ->
        RecurringRow.custom_interval p = 1 ->
        RecurringRow.next_due_date p = Some "2024-01-01" ->
        let res :=
          ReminderManager.create_recurring_transaction_instances db now in
        (exists p',
           In p' (recurring_transactions (fst res))
           /\ same_but_next_due p p'
           /\ RecurringRow.next_due_date p' = Some "2024-01-31")
        /\ map RecurringRow.id (recurring_transactions (fst res))
           = map RecurringRow.id (recurring_transactions db)
        /\ exists new,
             transactions (fst res) = (transactions db ++ new)%list
             /\ length (List.filter
                          (fun t => col_eq (TransactionRow.recurring_id t)
                                      (RecurringRow.id p))
                          new) = 1%nat).
Proof.
  split; [|split; [|split]].
  - intros D N. repeat split; apply calculate_next_due_date_moves;
      intros d; reflexivity.
  - intros D F N H1 H2 H3 H4. apply calculate_next_due_date_moves.
    intros d. apply String.eqb_neq in H1, H2, H3, H4.
    rewrite H1, H2, H3, H4. reflexivity.
  - reflexivity.
  - intros db now pre p c post Hnd Hdue Hok Hfreq Hint Hcursor res.
    assert (Hv : next_due_of p = Some "2024-01-31").
    { unfold next_due_of. rewrite Hcursor, Hfreq, Hint. reflexivity. }
    destruct (create_instances_advances db now pre p c post "2024-01-31"
                Hnd Hdue Hok Hv) as [Hp [Hids Hnew]].
    split; [|split; [exact Hids|exact Hnew]].
    exists (RecurringRow.set_next_due_date p (Some "2024-01-31")).
    split; [exact Hp|].
    apply (same_but_next_due_set p (Some "2024-01-31")).
Qed.

Lemma next_due_date_rule_witness :
  let d := Fixture.day 2024 1 1 in
  let res :=
    ReminderManager.create_recurring_transaction_instances Fixture.db_late
      Fixture.march in
  (exists D' d',
     ReminderManager.calculate_next_due_date "2024-01-01" "Custom" 3
     = Some D'
     /\ Datetime.strptime_ymd D' = Some d'
     /\ D' = Datetime.strftime_ymd d'
     /\ 1000 <= Datetime.year d'
     /\ Datetime.toordinal d' = Datetime.toordinal d + 3)
  /\ (exists p',
        In p' (recurring_transactions (fst res))
        /\ same_but_next_due Fixture.monthly_row p'
        /\ RecurringRow.next_due_date p' = Some "2024-01-31")
  /\ map RecurringRow.id (recurring_transactions (fst res))
     = map RecurringRow.id (recurring_transactions Fixture.db_late)
  /\ exists new,
       transactions (fst res) = (transactions Fixture.db_late ++ new)%list
       /\ length (List.filter
                    (fun t => col_eq (TransactionRow.recurring_id t)
                                (RecurringRow.id Fixture.monthly_row))
                    new) = 1%nat.
Proof.
  cbv zeta. split.
  - apply (proj1 (proj2 next_due_date_rule) "2024-01-01" "Custom" 3);
      try discriminate; [reflexivity|].
    vm_compute. split; discriminate.
  - apply (proj2 (proj2 (proj2 next_due_date_rule))
             Fixture.db_late Fixture.march [] Fixture.monthly_row None
             [(Fixture.late_row, None)]).
    + vm_compute. repeat constructor; simpl; intuition discriminate.
    + reflexivity.
    + intros x [].
    + reflexivity.
    + reflexivity.
    + reflexivity.
Defined.

(** A pass in which an earlier pattern raises: the pattern with the cursor
    "01/02/2024" is handled first and its date computation raises, so the
    due Monthly pattern keeps the cursor 2024-01-01 and no transaction
    refers to it. *)
Lemma next_due_date_rule_counterexample :
  let res :=
    ReminderManager.create_recurring_transaction_instances Fixture.db_blocked
      Sample.noon in
  In (Fixture.blocked_row, None)
    (ReminderManager.check_recurring_transactions Fixture.db_blocked
       (Datetime.strftime_ymd Sample.noon))
  /\ RecurringRow.frequency Fixture.blocked_row = "Monthly"
  /\ RecurringRow.custom_interval Fixture.blocked_row = 1
  /\ RecurringRow.next_due_date Fixture.blocked_row = Some "2024-01-01"
  /\ snd res = None
  /\ map (fun r => (RecurringRow.id r, RecurringRow.next_due_date r))
       (recurring_transactions (fst res))
     = [(1, Some "01/02/2024"); (2, Some "2024-01-01")]
  /\ map TransactionRow.recurring_id (transactions (fst res)) = [Some 1].
Proof.
  cbv zeta. split; [right; left; reflexivity|].
  repeat split; reflexivity.
Qed.

(** In the pass of the witness the later pattern raises after the Monthly
    pattern was handled. *)
Example late_raise_sample :
  let res :=
    ReminderManager.create_recurring_transaction_instances Fixture.db_late
      Fixture.march in
  snd res = None
  /\ map (fun r => (RecurringRow.id r, RecurringRow.next_due_date r))
       (recurring_transactions (fst res))
     = [(1, Some "2024-01-31"); (2, Some "2024-02-30")]
  /\ map TransactionRow.recurring_id (transactions (fst res))
     = [Some 1; Some 2].
Proof. vm_compute. repeat split; reflexivity. Qed.

(** The scenario of the specification: one Monthly pattern due on
    2024-01-01, materialized on that day. *)
Example materialize_monthly_sample :
  let res :=
    ReminderManager.create_recurring_transaction_instances
      Sample.db_monthly Sample.noon in
  snd res = Some 1
  /\ map RecurringRow.next_due_date (recurring_transactions (fst res))
     = [Some "2024-01-31"]
  /\ map (fun t => (TransactionRow.recurring_id t, TransactionRow.date t))
       (transactions (fst res))
     = [(Some 1, "2024-01-01")]
  /\ map AccountRow.current_balance (accounts (fst res)) = [(1000 + - 15)%Q].
Proof. vm_compute. repeat split; reflexivity. Qed.

(** The date arithmetic across month, leap day and year ends. *)
Example shift_date_samples :
  shift_date "2024-02-28" 1 = Some "2024-02-29"
  /\ shift_date "2023-02-28" 1 = Some "2023-03-01"
  /\ shift_date "2023-12-25" 7 = Some "2024-01-01"
  /\ shift_date "2024-01-01" 365 = Some "2024-12-31"
  /\ shift_date "2024-03-01" (-1) = Some "2024-02-29"
  /\ shift_date "9999-12-31" 1 = None
  /\ shift_date "2024-02-30" 1 = None.
Proof. vm_compute. repeat split; reflexivity. Qed.

(** ** Round trip of the entity dictionaries *)

Lemma truthy_str_nonempty (s : string) :
  s <> "" -> truthy_str (Some s) = Some s.
Proof.
  intros H. unfold truthy_str.
  destruct (String.eqb_spec s ""); [contradiction|reflexivity].
Qed.

Lemma Transaction_to_dict_date (t : Transaction.t) :
  Transaction.to_dict t !! "date"
  = Some (VStr (Transaction.date_text (Transaction.date t))).
Proof. reflexivity. Qed.

(** What [from_dict] rebuilds from the dictionary of a transaction: the
    constructor called on the attributes, with the date text parsed. *)
Lemma Transaction_from_to_dict (now : Datetime.t) (t : Transaction.t) :
  Transaction.from_dict now (Transaction.to_dict t)
  = match Datetime.strptime_ymd (Transaction.date_text (Transaction.date t))
    with
    | Some parsed =>
        Some (Transaction.init now (Transaction.id t)
                (Transaction.transaction_type t) (Transaction.amount t)
                (Transaction.category_id t) (Transaction.subcategory_id t)
                (Transaction.account_id t) (Transaction.to_account_id t)
                (Some (Transaction.PyDatetime parsed))
                (Some (Transaction.time t))
                (Transaction.description t) (Transaction.payment_method t)
                (Transaction.tags t) (Transaction.receipt_path t)
                (Transaction.recurring_id t))
    | None => None
    end.
Proof.
  unfold Transaction.from_dict, Transaction.read_date.
  rewrite Transaction_to_dict_date.
  destruct (Datetime.strptime_ymd _) as [parsed|]; [|reflexivity].
  destruct t as [i ty am cat sub acc to_acc d tm desc pm tg rp rec].
  destruct i, cat, sub, acc, to_acc, rp, rec; reflexivity.
Qed.

(** The round trip of a transaction: every attribute but [date] comes back,
    the date comes back as midnight of its day. *)
Lemma Transaction_round_trip (now : Datetime.t) (t : Transaction.t)
    (dt : Datetime.t) :
  Transaction.date t = Transaction.PyDatetime dt ->
  Datetime.valid_date (Datetime.year dt) (Datetime.month dt)
    (Datetime.day dt) = true ->
  Transaction.time t <> "" ->
  Transaction.from_dict now (Transaction.to_dict t)
  = Some (with_date t (Transaction.PyDatetime (midnight dt))).
Proof.
  intros Hdate Hvalid Htime.
  rewrite Transaction_from_to_dict, Hdate.
  cbn [Transaction.date_text]. rewrite (strptime_strftime dt Hvalid).
  unfold Transaction.init. rewrite (truthy_str_nonempty _ Htime).
  reflexivity.
Qed.

(** C6, as amended. For Account, Category, Subcategory, Budget, Goal, Debt
    and RecurringTransaction, [from_dict (to_dict e)] is [e], attribute by
    attribute. For a Transaction whose date is a valid [datetime] of the
    years 1000 to 9999 and whose time is not empty, every attribute but
    [date] comes back unchanged and [date] comes back as midnight of the same
    day; the round trip is the identity when the date is already at
    midnight. *)
Theorem entity_round_trip :
  (forall e, Account.from_dict (Account.to_dict e) = Some e)
  /\ (forall e, Category.from_dict (Category.to_dict e) = Some e)
  /\ (forall e, Subcategory.from_dict (Subcategory.to_dict e) = Some e)
  /\ (forall e, Budget.from_dict (Budget.to_dict e) = Some e)
  /\ (forall e, Goal.from_dict (Goal.to_dict e) = Some e)
  /\ (forall e, Debt.from_dict (Debt.to_dict e) = Some e)
  /\ (forall e, RecurringTransaction.from_dict (RecurringTransaction.to_dict e)
                = Some e)
  /\ (forall now e dt,
        Transaction.date e = Transaction.PyDatetime dt ->
        Datetime.valid_date (Datetime.year dt) (Datetime.month dt)
          (Datetime.day dt) = true ->
        1000 <= Datetime.year dt ->
        Transaction.time e <> "" ->
        Transaction.from_dict now (Transaction.to_dict e)
        = Some (with_date e (Transaction.PyDatetime (midnight dt)))
        /\ (midnight dt = dt ->
            Transaction.from_dict now (Transaction.to_dict e) = Some e)).
Proof.
  repeat split.
  - intros [i n ty ib cb cur ic col cc cl dd ir nt].
    destruct i, dd; reflexivity.
  - intros [i n ty ic col]. destruct i; reflexivity.
  - intros [i n cat]. destruct i, cat; reflexivity.
  - intros [i cat am per sd ed ap sp]. destruct i, cat, sd, ed; reflexivity.
  - intros [i n ta ca dl ic col nt cp]. destruct i, dl; reflexivity.
  - intros [i ty pn am ap d dd ir nt st]. destruct i, d, dd; reflexivity.
  - intros [i ty am cat sub acc desc fr ci sd ed nd ac av].
    destruct i, cat, sub, acc, sd, ed, nd; reflexivity.
  - apply Transaction_round_trip; assumption.
  - intros Hmid. rewrite (Transaction_round_trip now e dt) by assumption.
    rewrite Hmid. f_equal. destruct e; simpl in *. subst. reflexivity.
Qed.

Lemma entity_round_trip_witness :
  let e := with_date Sample.form_transaction
             (Transaction.PyDatetime (midnight Sample.noon)) in
  Transaction.from_dict Sample.noon (Transaction.to_dict Sample.form_transaction)
  = Some e
  /\ Transaction.from_dict Sample.noon (Transaction.to_dict e) = Some e.
Proof.
  intros e. split.
  - apply (proj2 (proj2 (proj2 (proj2 (proj2 (proj2 (proj2
             entity_round_trip)))))) Sample.noon Sample.form_transaction
             Sample.noon);
      [reflexivity|reflexivity|vm_compute; discriminate|discriminate].
  - apply (proj2 (proj2 (proj2 (proj2 (proj2 (proj2 (proj2
             entity_round_trip)))))) Sample.noon e (midnight Sample.noon));
      [reflexivity|reflexivity|vm_compute; discriminate|discriminate
      |reflexivity].
Defined.

(** The transaction built by the entry form at noon does not survive the
    round trip: its date comes back as midnight. *)
Lemma entity_round_trip_counterexample :
  Transaction.from_dict Sample.noon (Transaction.to_dict Sample.form_transaction)
  <> Some Sample.form_transaction.
Proof.
  rewrite (Transaction_round_trip Sample.noon Sample.form_transaction
             Sample.noon); [|reflexivity|reflexivity|discriminate].
  intros H. injection H as H. vm_compute in H. discriminate H.
Qed.

(** ** Updating a transaction *)

Lemma find_none_all {A : Type} (f : A -> bool) (l : list A) :
  find f l = None -> forall x, In x l -> f x = false.
Proof.
  induction l as [|a l IH]; simpl; intros H x Hx; [contradiction|].
  destruct (f a) eqn:E; [discriminate|].
  destruct Hx as [<-|Hx]; [exact E|apply IH; assumption].
Qed.

(** ** The balance invariant *)

(** C1, at the failing input. On accounts A (1000) and B (200), adding a
    Transfer of 300 from A to B keeps the invariant (700 and 500); deleting
    that Transfer removes the row and leaves the balances at 700 and 500,
    while the invariant asks for 1000 and 200 again. *)
Theorem balance_invariant_broken_by_transfer_delete :
  let transfer :=
    Sample.transaction "Transfer" 300 None (Some 1) (Some 2) "2024-01-01" in
  let db1 := run Sample.db_AB [Add transfer] in
  let db2 := run Sample.db_AB [Add transfer; Delete 1] in
  balance_invariant Sample.db_AB
  /\ balance_invariant db1
  /\ transactions db2 = []
  /\ map AccountRow.current_balance (accounts db2)
     = [(1000 + - 300)%Q; (200 + 300)%Q]
  /\ map (expected_balance db2) (accounts db2) = [(1000 + 0)%Q; (200 + 0)%Q]
  /\ ~ balance_invariant db2.
Proof.
  intros transfer db1 db2.
  split; [|split; [|split; [|split; [|split]]]]; try reflexivity.
  - intros a Ha. vm_compute in Ha.
    repeat (destruct Ha as [<-|Ha]; [reflexivity|]). destruct Ha.
  - intros a Ha. vm_compute in Ha.
    repeat (destruct Ha as [<-|Ha]; [reflexivity|]). destruct Ha.
  - intros H.
    specialize (H (AccountRow.mk 1 "A" "Bank" 1000 (1000 + - 300) "USD" "bank"
                     "#1976D2" false 0 None 0 "")).
    assert (Hin : In (AccountRow.mk 1 "A" "Bank" 1000 (1000 + - 300) "USD"
                        "bank" "#1976D2" false 0 None 0 "") (accounts db2))
      by (left; reflexivity).
    specialize (H Hin). vm_compute in H. discriminate H.
Qed.


(** ** Where the write path keeps the balances

    The transaction write path does keep every balance equal to the initial
    balance plus the signed effects of the existing rows as long as no
    Transfer is edited or deleted and every edit hits a row. *)

Lemma balances_are_ext db f g :
  (forall a, In a (accounts db) ->
     (f (AccountRow.id a) == g (AccountRow.id a))%Q) ->
  balances_are db f -> balances_are db g.
Proof.
  intros Hfg Hf a Ha. rewrite (Hf a Ha), (Hfg a Ha). reflexivity.
Qed.

Lemma balances_update_account_balance db k q f :
  balances_are db f ->
  balances_are (update_account_balance db k q)
    (fun a => (f a + (if a =? k then q else 0))%Q).
Proof.
  intros Hf a' Ha'. unfold update_account_balance in Ha'.
  destruct db as [c s acc t b g d r st n1 n2 n3 n4]. simpl in Ha'.
  apply in_map_cases in Ha'. destruct Ha' as [a [Ha ->]].
  specialize (Hf a Ha).
  destruct (AccountRow.id a =? k) eqn:E; simpl.
  - rewrite E, Hf. ring.
  - rewrite E, Hf. ring.
Qed.

Lemma balances_credit db o q f :
  (forall a, In a (accounts db) -> AccountRow.id a <> 0) ->
  balances_are db f ->
  balances_are (credit db o q)
    (fun a => (f a + (if col_eq o a then q else 0))%Q).
Proof.
  intros Hnz Hf. unfold credit, truthy_id.
  destruct o as [k|]; cbn [col_eq].
  - destruct (Z.eqb_spec k 0) as [->|Hk].
    + eapply balances_are_ext; [|exact Hf]. intros a Ha. cbv beta.
      destruct (Z.eqb_spec 0 (AccountRow.id a)) as [E|_];
        [exfalso; apply (Hnz a Ha); symmetry; exact E|ring].
    + eapply balances_are_ext; [|apply balances_update_account_balance, Hf].
      intros a Ha. cbv beta. rewrite (Z.eqb_sym k). reflexivity.
  - eapply balances_are_ext; [|exact Hf]. intros a Ha. cbv beta. ring.
Qed.

Lemma credit_frame db o q :
  transactions (credit db o q) = transactions db
  /\ seq_transactions (credit db o q) = seq_transactions db
  /\ map AccountRow.id (accounts (credit db o q))
     = map AccountRow.id (accounts db).
Proof.
  unfold credit. destruct (truthy_id o) as [k|]; [|repeat split].
  repeat split. unfold update_account_balance.
  destruct db as [c s acc t b g d r st n1 n2 n3 n4]. simpl.
  rewrite map_map. apply map_ext. intros a.
  destruct (AccountRow.id a =? k); reflexivity.
Qed.

Lemma credit_nonzero db o q :
  (forall a, In a (accounts db) -> AccountRow.id a <> 0) ->
  forall a, In a (accounts (credit db o q)) -> AccountRow.id a <> 0.
Proof.
  intros Hnz a Ha.
  pose proof (in_map AccountRow.id _ _ Ha) as Hid.
  rewrite (proj2 (proj2 (credit_frame db o q))) in Hid.
  apply in_map_iff in Hid. destruct Hid as [a0 [E Ha0]].
  rewrite <- E. apply Hnz. exact Ha0.
Qed.

Lemma add_transaction_steps db transaction :
  fst (add_transaction db transaction)
  = added
      (with_new_row db (inserted_row (seq_transactions db + 1) transaction))
      transaction.
Proof.
  unfold add_transaction, added, credit, with_new_row, inserted_row. cbv zeta.
  cbn [fst TransactionRow.id].
  destruct (String.eqb_spec (Transaction.transaction_type transaction)
              "Expense") as [E|_].
  - rewrite E. cbn [String.eqb Ascii.eqb Bool.eqb andb].
    destruct (truthy_id (Transaction.account_id transaction)); reflexivity.
  - destruct (String.eqb_spec (Transaction.transaction_type transaction)
                "Income") as [E|_].
    + destruct (truthy_id (Transaction.account_id transaction));
        [reflexivity|].
      rewrite E. reflexivity.
    + destruct (truthy_id (Transaction.account_id transaction)); reflexivity.
Qed.

Lemma update_transaction_steps db transaction :
  update_transaction db transaction
  = let db1 :=
      reverted db (get_transaction_by_id db (Transaction.id transaction)) in
    applied
      (set_transactions db1
         (map (fun r =>
                 if col_eq (Transaction.id transaction) (TransactionRow.id r)
                 then updated_row r transaction else r)
              (transactions db1)))
      transaction.
Proof.
  unfold update_transaction, reverted, applied, credit, updated_row.
  cbv zeta.
  destruct (get_transaction_by_id db (Transaction.id transaction)) as [old|].
  - destruct (String.eqb (TransactionRow.transaction_type old) "Expense"),
      (String.eqb (TransactionRow.transaction_type old) "Income"),
      (truthy_id (TransactionRow.account_id old)),
      (String.eqb (Transaction.transaction_type transaction) "Expense"),
      (String.eqb (Transaction.transaction_type transaction) "Income"),
      (truthy_id (Transaction.account_id transaction)); reflexivity.
  - destruct
      (String.eqb (Transaction.transaction_type transaction) "Expense"),
      (String.eqb (Transaction.transaction_type transaction) "Income"),
      (truthy_id (Transaction.account_id transaction)); reflexivity.
Qed.

Lemma delete_transaction_steps db k :
  delete_transaction db k
  = let db1 := reverted db (get_transaction_by_id db (Some k)) in
    set_transactions db1
      (List.filter (fun r => negb (TransactionRow.id r =? k))
         (transactions db1)).
Proof.
  unfold delete_transaction, reverted, credit. cbv zeta.
  destruct (get_transaction_by_id db (Some k)) as [old|]; [|reflexivity].
  destruct (String.eqb (TransactionRow.transaction_type old) "Expense"),
    (String.eqb (TransactionRow.transaction_type old) "Income"),
    (truthy_id (TransactionRow.account_id old)); reflexivity.
Qed.

Lemma effects_app a rows r :
  (effects a (rows ++ [r]) == effects a rows + signed_effect a r)%Q.
Proof.
  unfold effects. rewrite map_app, Qsum_app. simpl. ring.
Qed.

Lemma key_absent_filter k rows :
  ~ In k (map TransactionRow.id rows) ->
  List.filter (fun r => negb (TransactionRow.id r =? k)) rows = rows.
Proof.
  induction rows as [|r rows IH]; simpl; intros H; [reflexivity|].
  destruct (Z.eqb_spec (TransactionRow.id r) k) as [E|_]; [tauto|].
  simpl. rewrite IH; [reflexivity|tauto].
Qed.

Lemma key_absent_map k (g : TransactionRow.t -> TransactionRow.t) rows :
  ~ In k (map TransactionRow.id rows) ->
  map (fun r => if col_eq (Some k) (TransactionRow.id r) then g r else r) rows
  = rows.
Proof.
  intros H. apply map_id_on. intros r Hr. simpl.
  destruct (Z.eqb_spec k (TransactionRow.id r)) as [E|_]; [|reflexivity].
  exfalso. apply H. rewrite E. apply in_map. exact Hr.
Qed.

Lemma effects_delete a k rows old :
  List.NoDup (map TransactionRow.id rows) ->
  find (fun r => TransactionRow.id r =? k) rows = Some old ->
  (effects a (List.filter (fun r => negb (TransactionRow.id r =? k)) rows)
   == effects a rows - signed_effect a old)%Q.
Proof.
  induction rows as [|r rows IH]; simpl; intros Hnd Hfind; [discriminate|].
  inversion Hnd as [|? ? Hnotin Hnd']; subst.
  destruct (Z.eqb_spec (TransactionRow.id r) k) as [E|_].
  - injection Hfind as ->. simpl. rewrite key_absent_filter by (rewrite <- E; exact Hnotin).
    unfold effects. simpl. ring.
  - simpl. unfold effects in *. simpl. rewrite (IH Hnd' Hfind). ring.
Qed.

Lemma effects_update a k (g : TransactionRow.t -> TransactionRow.t) rows old :
  List.NoDup (map TransactionRow.id rows) ->
  find (fun r => TransactionRow.id r =? k) rows = Some old ->
  (effects a
     (map (fun r => if col_eq (Some k) (TransactionRow.id r) then g r else r)
        rows)
   == effects a rows - signed_effect a old + signed_effect a (g old))%Q.
Proof.
  induction rows as [|r rows IH]; intros Hnd Hfind; [discriminate|].
  simpl in Hnd, Hfind. inversion Hnd as [|? ? Hnotin Hnd']; subst.
  cbn [map]. destruct (Z.eqb_spec (TransactionRow.id r) k) as [E|Hne].
  - injection Hfind as ->.
    rewrite key_absent_map by (rewrite <- E; exact Hnotin).
    cbn [col_eq]. rewrite <- E, Z.eqb_refl. unfold effects. simpl. ring.
  - cbn [col_eq]. destruct (Z.eqb_spec k (TransactionRow.id r)) as [E|_];
      [exfalso; apply Hne; symmetry; exact E|].
    unfold effects in *. cbn [map Qsum fold_right].
    change (fold_right Qplus 0%Q ?l) with (Qsum l).
    rewrite (IH Hnd' Hfind). ring.
Qed.

(** The three balance steps touch nothing but balances. *)
Lemma added_frame db transaction :
  transactions (added db transaction) = transactions db
  /\ seq_transactions (added db transaction) = seq_transactions db
  /\ map AccountRow.id (accounts (added db transaction))
     = map AccountRow.id (accounts db).
Proof.
  unfold added. cbv zeta.
  repeat match goal with
         | |- context [if ?b then _ else _] => destruct b
         end;
    repeat split;
    repeat first
      [ rewrite (proj1 (credit_frame _ _ _))
      | rewrite (proj1 (proj2 (credit_frame _ _ _)))
      | rewrite (proj2 (proj2 (credit_frame _ _ _))) ];
    reflexivity.
Qed.

Lemma reverted_frame db old :
  transactions (reverted db old) = transactions db
  /\ seq_transactions (reverted db old) = seq_transactions db
  /\ map AccountRow.id (accounts (reverted db old))
     = map AccountRow.id (accounts db).
Proof.
  unfold reverted. destruct old as [old|]; [|repeat split].
  repeat match goal with
         | |- context [if ?b then _ else _] => destruct b
         end;
    repeat split;
    repeat first
      [ rewrite (proj1 (credit_frame _ _ _))
      | rewrite (proj1 (proj2 (credit_frame _ _ _)))
      | rewrite (proj2 (proj2 (credit_frame _ _ _))) ];
    reflexivity.
Qed.

Lemma applied_frame db transaction :
  transactions (applied db transaction) = transactions db
  /\ seq_transactions (applied db transaction) = seq_transactions db
  /\ map AccountRow.id (accounts (applied db transaction))
     = map AccountRow.id (accounts db).
Proof.
  unfold applied.
  repeat match goal with
         | |- context [if ?b then _ else _] => destruct b
         end;
    repeat split;
    repeat first
      [ rewrite (proj1 (credit_frame _ _ _))
      | rewrite (proj1 (proj2 (credit_frame _ _ _)))
      | rewrite (proj2 (proj2 (credit_frame _ _ _))) ];
    reflexivity.
Qed.

Lemma nonzero_ids_transfer db db' :
  map AccountRow.id (accounts db') = map AccountRow.id (accounts db) ->
  (forall a, In a (accounts db) -> AccountRow.id a <> 0) ->
  forall a, In a (accounts db') -> AccountRow.id a <> 0.
Proof.
  intros Hids Hnz a Ha.
  pose proof (in_map AccountRow.id _ _ Ha) as Hid. rewrite Hids in Hid.
  apply in_map_iff in Hid. destruct Hid as [a0 [E Ha0]].
  rewrite <- E. apply Hnz. exact Ha0.
Qed.

(** What the three balance steps do to the balances. *)
Lemma balances_added db transaction k f :
  (forall a, In a (accounts db) -> AccountRow.id a <> 0) ->
  balances_are db f ->
  balances_are (added db transaction)
    (fun a => (f a + signed_effect a (inserted_row k transaction))%Q).
Proof.
  intros Hnz Hf. unfold added, signed_effect, inserted_row. cbv zeta.
  cbn [TransactionRow.transaction_type TransactionRow.amount
       TransactionRow.account_id TransactionRow.to_account_id].
  destruct (String.eqb _ "Expense"); [apply balances_credit; assumption|].
  destruct (String.eqb _ "Income"); [apply balances_credit; assumption|].
  destruct (String.eqb _ "Transfer").
  - eapply balances_are_ext;
      [|apply balances_credit;
        [apply credit_nonzero; exact Hnz
        |apply balances_credit; [exact Hnz|exact Hf]]].
    intros a Ha. cbv beta. ring.
  - eapply balances_are_ext; [|exact Hf]. intros a Ha. cbv beta. ring.
Qed.

Lemma balances_reverted db old f :
  (forall a, In a (accounts db) -> AccountRow.id a <> 0) ->
  TransactionRow.transaction_type old <> "Transfer" ->
  balances_are db f ->
  balances_are (reverted db (Some old))
    (fun a => (f a - signed_effect a old)%Q).
Proof.
  intros Hnz Hty Hf. unfold reverted, signed_effect. cbv zeta.
  apply String.eqb_neq in Hty. rewrite Hty.
  destruct (String.eqb _ "Expense").
  - eapply balances_are_ext; [|apply balances_credit; [exact Hnz|exact Hf]].
    intros a Ha. cbv beta.
    destruct (col_eq (TransactionRow.account_id old) (AccountRow.id a)); ring.
  - destruct (String.eqb _ "Income").
    + eapply balances_are_ext; [|apply balances_credit; [exact Hnz|exact Hf]].
      intros a Ha. cbv beta.
      destruct (col_eq (TransactionRow.account_id old) (AccountRow.id a)); ring.
    + eapply balances_are_ext; [|exact Hf]. intros a Ha. cbv beta. ring.
Qed.

Lemma balances_applied db transaction r f :
  (forall a, In a (accounts db) -> AccountRow.id a <> 0) ->
  Transaction.transaction_type transaction <> "Transfer" ->
  balances_are db f ->
  balances_are (applied db transaction)
    (fun a => (f a + signed_effect a (updated_row r transaction))%Q).
Proof.
  intros Hnz Hty Hf. unfold applied, signed_effect, updated_row. cbv zeta.
  cbn [TransactionRow.transaction_type TransactionRow.amount
       TransactionRow.account_id TransactionRow.to_account_id].
  apply String.eqb_neq in Hty. rewrite Hty.
  destruct (String.eqb _ "Expense"); [apply balances_credit; assumption|].
  destruct (String.eqb _ "Income"); [apply balances_credit; assumption|].
  eapply balances_are_ext; [|exact Hf]. intros a Ha. cbv beta. ring.
Qed.

Lemma NoDup_snoc {A : Type} (l : list A) (x : A) :
  List.NoDup l -> ~ In x l -> List.NoDup (l ++ [x]).
Proof.
  induction l as [|a l IH]; simpl; intros Hnd Hx.
  - constructor; [tauto|constructor].
  - inversion Hnd as [|? ? Ha Hnd']; subst. constructor.
    + intros Hin. apply in_app_or in Hin. destruct Hin as [Hin|[->|[]]]; tauto.
    + apply IH; tauto.
Qed.

Lemma balance_invariant_balances db :
  balance_invariant db
  <-> balances_are db (fun a => effects a (transactions db)).
Proof. reflexivity. Qed.

(** One supported operation keeps the store well formed and the balances
    equal to the initial balances plus the effects of the rows. *)
Lemma step_keeps_balances db o :
  wf_store db -> balance_invariant db -> supported db o ->
  wf_store (step db o) /\ balance_invariant (step db o).
Proof.
  intros [Hnd [Hseq Hnz]] Hinv Hsup.
  assert (Hb : balances_are db (fun a => effects a (transactions db)))
    by exact Hinv.
  clear Hinv.
  destruct o as [transaction|transaction|k]; cbn [step].
  - (* add_transaction *)
    rewrite add_transaction_steps.
    set (row := inserted_row (seq_transactions db + 1) transaction).
    destruct (added_frame (with_new_row db row) transaction)
      as [Htx [Hsq Hids]].
    split.
    + unfold wf_store. rewrite Htx, Hsq. cbn [with_new_row transactions
        seq_transactions]. split; [|split].
      * rewrite map_app. apply NoDup_snoc; [exact Hnd|].
        intros Hx. apply in_map_iff in Hx.
        destruct Hx as [r [E Hr]]. specialize (Hseq r Hr).
        unfold row, inserted_row in E. simpl in E. lia.
      * intros r Hr. apply in_app_or in Hr. destruct Hr as [Hr|[<-|[]]].
        -- specialize (Hseq r Hr). unfold row, inserted_row. simpl. lia.
        -- lia.
      * apply (nonzero_ids_transfer (with_new_row db row)); assumption.
    + apply balance_invariant_balances. rewrite Htx.
      cbn [with_new_row transactions].
      eapply balances_are_ext;
        [|apply (balances_added (with_new_row db row) transaction
                   (seq_transactions db + 1)
                   (fun a => effects a (transactions db)));
          [exact Hnz|exact Hb]].
      intros a Ha. cbv beta. fold row. rewrite effects_app. reflexivity.
  - (* update_transaction *)
    destruct Hsup as [old [Hold [Hty Hnew]]].
    rewrite update_transaction_steps, Hold. cbv zeta.
    destruct (reverted_frame db (Some old)) as [Htx [Hsq Hids]].
    set (db1 := reverted db (Some old)) in *.
    set (rows' := map _ (transactions db1)).
    destruct (applied_frame (set_transactions db1 rows') transaction)
      as [Htx2 [Hsq2 Hids2]].
    assert (Hk : exists k, Transaction.id transaction = Some k
                 /\ find (fun r => TransactionRow.id r =? k) (transactions db)
                    = Some old).
    { unfold get_transaction_by_id in Hold.
      destruct (Transaction.id transaction) as [k|]; [|discriminate].
      exists k. split; [reflexivity|exact Hold]. }
    destruct Hk as [k [Hid Hfind]].
    assert (Hmapid : map TransactionRow.id rows'
                     = map TransactionRow.id (transactions db)).
    { unfold rows'. rewrite Htx, map_map. apply map_ext. intros r.
      destruct (col_eq _ _); reflexivity. }
    split.
    + unfold wf_store. rewrite Htx2, Hsq2.
      cbn [set_transactions transactions seq_transactions]. rewrite Hsq.
      split; [rewrite Hmapid; exact Hnd|]. split.
      * intros r Hr. apply (in_map TransactionRow.id) in Hr.
        rewrite Hmapid in Hr. apply in_map_iff in Hr.
        destruct Hr as [r0 [E Hr0]]. rewrite <- E. apply Hseq. exact Hr0.
      * apply (nonzero_ids_transfer (set_transactions db1 rows'));
          [exact Hids2|].
        apply (nonzero_ids_transfer db); [exact Hids|exact Hnz].
    + apply balance_invariant_balances. rewrite Htx2.
      cbn [set_transactions transactions].
      eapply balances_are_ext;
        [|apply (balances_applied (set_transactions db1 rows') transaction old);
          [apply (nonzero_ids_transfer db); [exact Hids|exact Hnz]
          |exact Hnew
          |apply (balances_reverted db old _ Hnz Hty Hb)]].
      intros a Ha. cbv beta. unfold rows'. rewrite Htx, Hid.
      rewrite (effects_update _ k (fun r => updated_row r transaction)
                 _ old Hnd Hfind).
      reflexivity.
  - (* delete_transaction *)
    rewrite delete_transaction_steps. cbv zeta.
    destruct (reverted_frame db (get_transaction_by_id db (Some k)))
      as [Htx [Hsq Hids]].
    set (db1 := reverted db (get_transaction_by_id db (Some k))) in *.
    split.
    + unfold wf_store. cbn [set_transactions transactions seq_transactions
        accounts]. rewrite Htx, Hsq. split; [|split].
      * apply NoDup_map_filter. exact Hnd.
      * intros r Hr. apply filter_In in Hr. apply Hseq. tauto.
      * apply (nonzero_ids_transfer db); [exact Hids|exact Hnz].
    + apply balance_invariant_balances.
      cbn [set_transactions transactions]. rewrite Htx.
      unfold db1. cbn [supported] in Hsup.
      destruct (get_transaction_by_id db (Some k)) as [old|] eqn:Hold.
      * eapply balances_are_ext;
          [|apply (balances_reverted db old _ Hnz (Hsup old eq_refl) Hb)].
        intros a Ha. cbv beta.
        rewrite (effects_delete _ k _ old Hnd Hold). reflexivity.
      * cbn [reverted]. eapply balances_are_ext; [|exact Hb].
        intros a Ha. cbv beta. rewrite key_absent_filter; [reflexivity|].
        intros Hin. apply in_map_iff in Hin. destruct Hin as [r [E Hr]].
        pose proof (find_none_all _ _ Hold r Hr) as F. simpl in F.
        rewrite E, Z.eqb_refl in F. discriminate.
Qed.

(** With amounts added as exact rationals: after every operation of a
    supported sequence, every balance is the initial balance plus the signed
    effects of the rows that exist. *)
Lemma supported_run_keeps_balances ops :
  forall db, wf_store db -> balance_invariant db -> all_supported db ops ->
  forall n, balance_invariant (run db (firstn n ops)).
Proof.
  induction ops as [|o ops IH]; intros db Hwf Hinv Hsup n.
  - rewrite firstn_nil. exact Hinv.
  - destruct n as [|n]; [exact Hinv|].
    destruct Hsup as [Ho Hrest].
    destruct (step_keeps_balances db o Hwf Hinv Ho) as [Hwf' Hinv'].
    cbn [firstn run fold_left]. apply (IH (step db o) Hwf' Hinv' Hrest n).
Qed.

(** The scenario of the specification: 1000.00, an Expense of 50.00, its
    edit to 75.00, its deletion. *)
Example expense_scenario :
  let ops := [Add (Sample.transaction "Expense" 50 None (Some 1) None
                     "2024-01-01");
              Update (Sample.edit 1 "Expense" 75 (Some 1) None);
              Delete 1] in
  map (fun n => map AccountRow.current_balance
                  (accounts (run Sample.db_A (firstn n ops))))
    [1; 2; 3]%nat
  = [[(1000 + - 50)%Q]; [(1000 + - 50 + 50 + - 75)%Q];
     [(1000 + - 50 + 50 + - 75 + 75)%Q]]
  /\ all_supported Sample.db_A ops.
Proof.
  split; [vm_compute; reflexivity|].
  cbn [all_supported supported]. split; [exact I|]. split.
  - eexists. split; [vm_compute; reflexivity|].
    split; vm_compute; discriminate.
  - split; [|exact I]. intros old H. vm_compute in H.
    injection H as <-. vm_compute. discriminate.
Qed.

(** ** Updating a transaction, by account *)

Lemma Forall2_same_rows (P : AccountRow.t -> AccountRow.t -> Prop) l :
  (forall a, P a a) -> Forall2 P l l.
Proof. intros H. induction l; constructor; auto. Qed.

(** The last step of [update_transaction], account by account. *)
Lemma applied_rows db transaction :
  Forall2
    (fun a a' =>
       same_but_balance a a'
       /\ AccountRow.current_balance a'
          = if match applied_account transaction with
               | Some k => AccountRow.id a =? k
               | None => false
               end
            then applied_balance transaction (AccountRow.current_balance a)
            else AccountRow.current_balance a)
    (accounts db) (accounts (applied db transaction))
  /\ (applied_account transaction = None -> applied db transaction = db).
Proof.
  unfold applied, applied_account, applied_balance, credit.
  destruct (String.eqb (Transaction.transaction_type transaction) "Expense")
    eqn:E.
  - cbn [orb].
    destruct (truthy_id (Transaction.account_id transaction)) as [k|].
    + split; [apply update_account_balance_rows|discriminate].
    + split; [|reflexivity]. apply Forall2_same_rows.
      intros a. split; [apply same_but_balance_refl|reflexivity].
  - cbn [orb].
    destruct (String.eqb (Transaction.transaction_type transaction) "Income").
    + destruct (truthy_id (Transaction.account_id transaction)) as [k|].
      * split; [apply update_account_balance_rows|discriminate].
      * split; [|reflexivity]. apply Forall2_same_rows.
        intros a. split; [apply same_but_balance_refl|reflexivity].
    + split; [|reflexivity]. apply Forall2_same_rows.
      intros a. split; [apply same_but_balance_refl|reflexivity].
Qed.

Lemma applied_same_but_accounts db transaction :
  same_but_accounts db (applied db transaction).
Proof.
  unfold applied, credit, update_account_balance.
  repeat match goal with
         | |- context [if ?c then _ else _] => destruct c
         | |- context [match truthy_id ?o with _ => _ end] =>
             destruct (truthy_id o)
         end; repeat split.
Qed.

(** The [UPDATE] of a key that no row has writes no row. *)
Lemma update_missing_rows db (transaction : Transaction.t) :
  get_transaction_by_id db (Transaction.id transaction) = None ->
  map (fun r =>
         if col_eq (Transaction.id transaction) (TransactionRow.id r)
         then updated_row r transaction else r)
      (transactions db)
  = transactions db.
Proof.
  intros Hnone. apply map_id_on. intros r Hr.
  destruct (Transaction.id transaction) as [k|]; [|reflexivity].
  cbn [get_transaction_by_id col_eq] in *.
  pose proof (find_none_all _ _ Hnone r Hr) as E. cbv beta in E.
  rewrite Z.eqb_sym, E. reflexivity.
Qed.

(** C3, as amended. Updating an existing Transfer, whatever the replacement
    value, reverses no balance effect and writes the new attributes into the
    rows with the key of the transaction (keeping key and [recurring_id]);
    no other table changes. In the accounts no field other than
    [current_balance] changes, and a balance changes only on the account that
    the replacement names as an Expense or as an Income, by the effect of
    the replacement. When the replacement names no account of the store in
    that way, as when it is a Transfer again, the accounts table is as it
    was. *)
Theorem update_transfer_keeps_balances (db : Store)
    (transaction : Transaction.t) (old : TransactionRow.t) :
  get_transaction_by_id db (Transaction.id transaction) = Some old ->
  TransactionRow.transaction_type old = "Transfer" ->
  let db' := update_transaction db transaction in
  transactions db' =
    map (fun r =>
           if col_eq (Transaction.id transaction) (TransactionRow.id r)
           then updated_row r transaction else r)
        (transactions db)
  /\ same_other_tables db db'
  /\ Forall2
       (fun a a' =>
          same_but_balance a a'
          /\ AccountRow.current_balance a'
             = if match applied_account transaction with
                  | Some k => AccountRow.id a =? k
                  | None => false
                  end
               then applied_balance transaction (AccountRow.current_balance a)
               else AccountRow.current_balance a)
       (accounts db) (accounts db')
  /\ ((forall a, In a (accounts db) ->
         applied_account transaction <> Some (AccountRow.id a)) ->
      accounts db' = accounts db).
Proof.
  intros Hold Hty db'.
  assert (E : db' = applied
                      (set_transactions db
                         (map (fun r =>
                                 if col_eq (Transaction.id transaction)
                                      (TransactionRow.id r)
                                 then updated_row r transaction else r)
                            (transactions db)))
                      transaction).
  { unfold db'. rewrite update_transaction_steps, Hold. cbv zeta.
    cbn [reverted]. rewrite Hty. reflexivity. }
  set (db1 := set_transactions db _) in E.
  destruct (applied_frame db1 transaction) as [Ht [Hs _]].
  destruct (applied_rows db1 transaction) as [Hrows Hsame].
  split; [rewrite E, Ht; reflexivity|].
  split; [|split; [rewrite E; exact Hrows|]].
  - rewrite E.
    destruct (applied_same_but_accounts db1 transaction)
      as (H1 & H2 & _ & H4 & H5 & H6 & H7 & H8 & H9 & H10 & H11 & H12).
    repeat split; assumption.
  - intros Hno. rewrite E. unfold applied, credit.
    assert (Hk : forall k, applied_account transaction = Some k ->
              accounts (update_account_balance db1 k
                          (if String.eqb
                                (Transaction.transaction_type transaction)
                                "Expense"
                           then - Transaction.amount transaction
                           else Transaction.amount transaction)%Q)
              = accounts db).
    { intros k Hk. unfold update_account_balance.
      cbn [set_accounts accounts db1 set_transactions].
      apply map_id_on. intros a Ha.
      destruct (Z.eqb_spec (AccountRow.id a) k) as [Ek|_]; [|reflexivity].
      exfalso. apply (Hno a Ha). rewrite Ek. exact Hk. }
    unfold applied_account in Hk.
    destruct (String.eqb (Transaction.transaction_type transaction) "Expense").
    + cbn [orb] in Hk.
      destruct (truthy_id (Transaction.account_id transaction)) as [k|];
        [exact (Hk k eq_refl)|reflexivity].
    + cbn [orb] in Hk.
      destruct (String.eqb (Transaction.transaction_type transaction)
                  "Income").
      * destruct (truthy_id (Transaction.account_id transaction)) as [k|];
          [exact (Hk k eq_refl)|reflexivity].
      * reflexivity.
Qed.

Lemma update_transfer_keeps_balances_witness :
  let transaction := Sample.edit 1 "Transfer" 999 (Some 2) (Some 1) in
  let db' := update_transaction Sample.db_transfer transaction in
  transactions db' =
    map (fun r =>
           if col_eq (Transaction.id transaction) (TransactionRow.id r)
           then updated_row r transaction else r)
        (transactions Sample.db_transfer)
  /\ same_other_tables Sample.db_transfer db'
  /\ accounts db' = accounts Sample.db_transfer.
Proof.
  cbv zeta.
  destruct (update_transfer_keeps_balances Sample.db_transfer
              (Sample.edit 1 "Transfer" 999 (Some 2) (Some 1))
              (inserted_row 1
                 (Sample.transaction "Transfer" 300 None (Some 1) (Some 2)
                    "2024-01-01"))
              eq_refl eq_refl)
    as [H1 [H2 [_ H4]]].
  split; [exact H1|]. split; [exact H2|].
  apply H4. intros a _. discriminate.
Defined.

(** A replacement of another type: the sample Transfer of 300 from A to B
    is edited into an Expense of 50 on A, and the balance of A goes from 700
    to 650. *)
Lemma update_transfer_keeps_balances_counterexample :
  let transaction := Sample.edit 1 "Expense" 50 (Some 1) None in
  let db' := update_transaction Sample.db_transfer transaction in
  option_map TransactionRow.transaction_type
    (get_transaction_by_id Sample.db_transfer (Transaction.id transaction))
  = Some "Transfer"
  /\ map AccountRow.current_balance (accounts Sample.db_transfer)
     = [(1000 + - 300)%Q; (200 + 300)%Q]
  /\ map AccountRow.current_balance (accounts db')
     = [(1000 + - 300 + - 50)%Q; (200 + 300)%Q]
  /\ ~ Forall2
         (fun a a' =>
            (AccountRow.current_balance a' == AccountRow.current_balance a)%Q)
         (accounts Sample.db_transfer) (accounts db').
Proof.
  cbv zeta. split; [reflexivity|]. split; [reflexivity|].
  split; [reflexivity|].
  intros H. vm_compute in H. inversion H as [|? ? ? ? Hq _]; subst.
  vm_compute in Hq. discriminate Hq.
Qed.

(** The sample Transfer of 300 from A to B edited into one of 999 from B to
    A: the balances stay at 700 and 500. *)
Example update_transfer_sample :
  map AccountRow.current_balance
    (accounts (update_transaction Sample.db_transfer
                 (Sample.edit 1 "Transfer" 999 (Some 2) (Some 1))))
  = [(1000 + - 300)%Q; (200 + 300)%Q]
  /\ map (fun r => (TransactionRow.amount r, TransactionRow.account_id r,
                    TransactionRow.to_account_id r))
       (transactions (update_transaction Sample.db_transfer
                        (Sample.edit 1 "Transfer" 999 (Some 2) (Some 1))))
     = [(999%Q, Some 2, Some 1)].
Proof. vm_compute. split; reflexivity. Qed.

(** C2, as amended. When no row has the key of the transaction,
    [update_transaction] returns normally; it writes no row of any table
    other than [accounts], and in [accounts] it keeps the rows, every field
    other than [current_balance], and [current_balance] of every account
    other than the one that the value names as an Expense or as an Income.
    When the value names no account in that way, the store is as it was. *)
Theorem update_missing_transaction (db : Store) (transaction : Transaction.t) :
  get_transaction_by_id db (Transaction.id transaction) = None ->
  let db' := update_transaction db transaction in
  same_but_accounts db db'
  /\ Forall2
       (fun a a' =>
          same_but_balance a a'
          /\ (applied_account transaction <> Some (AccountRow.id a) ->
              AccountRow.current_balance a' = AccountRow.current_balance a))
       (accounts db) (accounts db')
  /\ (applied_account transaction = None -> db' = db).
Proof.
  intros Hnone db'.
  assert (E : db' = applied db transaction).
  { unfold db'. rewrite update_transaction_steps, Hnone. cbv zeta.
    cbn [reverted]. rewrite (update_missing_rows db transaction Hnone).
    rewrite set_transactions_id. reflexivity. }
  rewrite E. destruct (applied_rows db transaction) as [Hrows Hsame].
  split; [apply applied_same_but_accounts|]. split; [|exact Hsame].
  eapply List.Forall2_impl; [|exact Hrows].
  intros a a' [Hsb Hbal]. split; [exact Hsb|]. intros Hne.
  rewrite Hbal. destruct (applied_account transaction) as [k|];
    [|reflexivity].
  destruct (Z.eqb_spec (AccountRow.id a) k) as [Ek|_]; [|reflexivity].
  exfalso. apply Hne. rewrite Ek. reflexivity.
Qed.

Lemma update_missing_transaction_witness :
  let transaction := Sample.edit 7 "Expense" 50 (Some 1) None in
  let db' := update_transaction Sample.db_AB transaction in
  same_but_accounts Sample.db_AB db'
  /\ Forall2
       (fun a a' =>
          same_but_balance a a'
          /\ (applied_account transaction <> Some (AccountRow.id a) ->
              AccountRow.current_balance a' = AccountRow.current_balance a))
       (accounts Sample.db_AB) (accounts db')
  /\ update_transaction Sample.db_AB
       (Sample.edit 7 "Transfer" 50 (Some 1) (Some 2))
     = Sample.db_AB.
Proof.
  cbv zeta.
  destruct (update_missing_transaction Sample.db_AB
              (Sample.edit 7 "Expense" 50 (Some 1) None) eq_refl)
    as [H1 [H2 _]].
  split; [exact H1|]. split; [exact H2|].
  apply (update_missing_transaction Sample.db_AB
           (Sample.edit 7 "Transfer" 50 (Some 1) (Some 2)) eq_refl).
  reflexivity.
Defined.

(** No transaction has the key 7, yet updating "transaction 7" as an Expense
    of 50 on account A returns a store in which A went from 1000 to 950. *)
Lemma update_missing_transaction_counterexample :
  get_transaction_by_id Sample.db_A (Some 7) = None
  /\ update_transaction Sample.db_A (Sample.edit 7 "Expense" 50 (Some 1) None)
     <> Sample.db_A
  /\ map AccountRow.current_balance
       (accounts (update_transaction Sample.db_A
                    (Sample.edit 7 "Expense" 50 (Some 1) None)))
     = [(1000 + - 50)%Q].
Proof.
  split; [reflexivity|]. split; [|reflexivity].
  intros H. apply (f_equal (fun d => map AccountRow.current_balance (accounts d))) in H.
  vm_compute in H. discriminate H.
Qed.

(** * Further properties of the code *)

(** ** Further properties of the write path *)

Lemma map_id_updated (transaction : Transaction.t) rows :
  map TransactionRow.id
    (map (fun r =>
            if col_eq (Transaction.id transaction) (TransactionRow.id r)
            then updated_row r transaction else r) rows)
  = map TransactionRow.id rows.
Proof.
  rewrite map_map. apply map_ext. intros r.
  destruct (col_eq _ _); reflexivity.
Qed.

Lemma step_keys_ok db o :
  keys_ok db ->
  keys_ok (step db o) /\ seq_transactions db <= seq_transactions (step db o).
Proof.
  intros [Hnd Hseq]. destruct o as [transaction|transaction|k]; cbn [step].
  - rewrite add_transaction_steps.
    destruct (added_frame
                (with_new_row db
                   (inserted_row (seq_transactions db + 1) transaction))
                transaction) as [Ht [Hs _]].
    unfold keys_ok. rewrite Ht, Hs. cbn [with_new_row transactions
      seq_transactions inserted_row TransactionRow.id].
    split; [split|lia].
    + rewrite map_app. cbn [map TransactionRow.id]. apply NoDup_snoc; [exact Hnd|].
      intros Hin. apply in_map_iff in Hin. destruct Hin as [r [E Hr]].
      specialize (Hseq r Hr). cbn in E. lia.
    + intros r Hr. apply in_app_or in Hr. destruct Hr as [Hr|[<-|[]]].
      * specialize (Hseq r Hr). lia.
      * cbn. lia.
  - rewrite update_transaction_steps. cbv zeta.
    set (db1 := reverted db _).
    destruct (reverted_frame db
                (get_transaction_by_id db (Transaction.id transaction)))
      as [Ht [Hs _]]. fold db1 in Ht, Hs.
    match goal with
    | |- context [applied ?d transaction] =>
        destruct (applied_frame d transaction) as [Ht' [Hs' _]]
    end.
    unfold keys_ok. rewrite Ht', Hs'.
    cbn [set_transactions transactions seq_transactions].
    rewrite Hs, Ht. split; [split|lia].
    + rewrite map_id_updated. exact Hnd.
    + intros r Hr. apply in_map_iff in Hr. destruct Hr as [r0 [E Hr0]].
      specialize (Hseq r0 Hr0).
      destruct (col_eq _ _); subst r; cbn; exact Hseq.
  - rewrite delete_transaction_steps. cbv zeta.
    destruct (reverted_frame db (get_transaction_by_id db (Some k)))
      as [Ht [Hs _]].
    unfold keys_ok. cbn [set_transactions transactions seq_transactions].
    rewrite Hs, Ht. split; [split|lia].
    + apply NoDup_map_filter. exact Hnd.
    + intros r Hr. apply filter_In in Hr. apply Hseq. tauto.
Qed.

Lemma run_keys_ok ops :
  forall db, keys_ok db ->
  keys_ok (run db ops) /\ seq_transactions db <= seq_transactions (run db ops).
Proof.
  induction ops as [|o ops IH]; intros db H; cbn [run fold_left].
  - split; [exact H|lia].
  - destruct (step_keys_ok db o H) as [H1 H2].
    destruct (IH (step db o) H1) as [H3 H4]. unfold run in *.
    split; [exact H3|lia].
Qed.

Lemma run_firstn_skipn db ops n :
  run db ops = run (run db (firstn n ops)) (skipn n ops).
Proof.
  unfold run. rewrite <- fold_left_app, firstn_skipn. reflexivity.
Qed.

(** X2. Whatever sequence of inserts, edits and deletions is run, the keys
    of the transactions stay pairwise different, and the key that the next
    [add_transaction] returns is larger than the key of every row that
    existed at any point of the sequence: the key of a deleted row is never
    given again. *)
Lemma transaction_keys_never_reused db ops transaction :
  keys_ok db ->
  List.NoDup (map TransactionRow.id (transactions (run db ops)))
  /\ forall n r,
       In r (transactions (run db (firstn n ops))) ->
       TransactionRow.id r < snd (add_transaction (run db ops) transaction).
Proof.
  intros H. split; [apply (run_keys_ok ops db H)|].
  intros n r Hr.
  destruct (run_keys_ok (firstn n ops) db H) as [[_ Hb] _].
  specialize (Hb r Hr).
  destruct (run_keys_ok (skipn n ops) _ (proj1 (run_keys_ok (firstn n ops) db H)))
    as [_ Hc].
  rewrite <- run_firstn_skipn in Hc.
  cbn [add_transaction snd]. lia.
Qed.

Lemma transaction_keys_never_reused_witness :
  let first := Sample.transaction "Expense" 50 None (Some 1) None
                 "2024-01-01" in
  let ops := [Add first; Delete 1] in
  let transaction := Sample.transaction "Income" 20 None (Some 1) None
                       "2024-01-03" in
  List.NoDup (map TransactionRow.id (transactions (run Sample.db_A ops)))
  /\ TransactionRow.id (inserted_row 1 first)
     < snd (add_transaction (run Sample.db_A ops) transaction).
Proof.
  cbv zeta.
  destruct (transaction_keys_never_reused Sample.db_A
              [Add (Sample.transaction "Expense" 50 None (Some 1) None
                      "2024-01-01");
               Delete 1]
              (Sample.transaction "Income" 20 None (Some 1) None
                 "2024-01-03"))
    as [H1 H2].
  - split; [constructor|intros r []].
  - split; [exact H1|]. apply (H2 1%nat). left. reflexivity.
Defined.

Lemma filter_all {A : Type} (f : A -> bool) (l : list A) :
  (forall x, In x l -> f x = true) -> List.filter f l = l.
Proof.
  induction l as [|x l IH]; intros H; simpl; [reflexivity|].
  rewrite (H x) by (left; reflexivity). f_equal.
  apply IH. intros y Hy. apply H. right. exact Hy.
Qed.

(** X3. Deleting a key that no transaction has changes nothing: no row, no
    balance, no counter, and no error. *)
Lemma delete_missing_transaction db k :
  get_transaction_by_id db (Some k) = None ->
  delete_transaction db k = db.
Proof.
  intros H. rewrite delete_transaction_steps, H. cbn [reverted].
  rewrite filter_all; [apply set_transactions_id|].
  intros r Hr. cbn [get_transaction_by_id] in H.
  pose proof (find_none_all _ _ H r Hr) as F. cbv beta in F.
  rewrite F. reflexivity.
Qed.

Lemma delete_missing_transaction_witness :
  delete_transaction Sample.db_A 7 = Sample.db_A.
Proof. apply (delete_missing_transaction Sample.db_A 7). reflexivity. Defined.

Lemma Forall2_map_r {A B : Type} (P : A -> B -> Prop) (g : A -> B) l :
  (forall x, In x l -> P x (g x)) -> Forall2 P l (map g l).
Proof.
  induction l as [|x l IH]; intros H; simpl; constructor.
  - apply H. left. reflexivity.
  - apply IH. intros y Hy. apply H. right. exact Hy.
Qed.

Lemma find_fresh_row db row :
  (forall r, In r (transactions db) ->
     TransactionRow.id r <= seq_transactions db) ->
  TransactionRow.id row = seq_transactions db + 1 ->
  find (fun r => TransactionRow.id r =? (seq_transactions db + 1))
    (transactions db ++ [row])
  = Some row
  /\ List.filter
       (fun r => negb (TransactionRow.id r =? (seq_transactions db + 1)))
       (transactions db ++ [row])
     = transactions db.
Proof.
  intros Hseq Hid. induction (transactions db) as [|x l IH]; simpl.
  - rewrite Hid, Z.eqb_refl. simpl. split; reflexivity.
  - assert (Hx : (TransactionRow.id x =? seq_transactions db + 1) = false).
    { apply Z.eqb_neq. specialize (Hseq x (or_introl eq_refl)). lia. }
    rewrite Hx. simpl. destruct IH as [IH1 IH2].
    { intros r Hr. apply Hseq. right. exact Hr. }
    split; [exact IH1|]. f_equal. exact IH2.
Qed.

Lemma credit_twice_rows db o q q' :
  Forall2
    (fun a a' =>
       same_but_balance a a'
       /\ AccountRow.current_balance a'
          = if match truthy_id o with
               | Some k => AccountRow.id a =? k
               | None => false
               end
            then (AccountRow.current_balance a + q + q')%Q
            else AccountRow.current_balance a)
    (accounts db) (accounts (credit (credit db o q) o q')).
Proof.
  unfold credit. destruct (truthy_id o) as [k|].
  - unfold update_account_balance. cbn [set_accounts accounts].
    rewrite map_map. apply Forall2_map_r. intros x _.
    destruct (AccountRow.id x =? k) eqn:E.
    + destruct x. cbn in E |- *. rewrite E. cbn.
      split; [repeat split|reflexivity].
    + rewrite E. split; [apply same_but_balance_refl|reflexivity].
  - rewrite <- (map_id (accounts db)) at 2. apply Forall2_map_r.
    intros x _. split; [apply same_but_balance_refl|reflexivity].
Qed.

(** X4. A transaction that is not a Transfer is found under the key that
    [add_transaction] returns, and deleting that key again restores the
    table of transactions. In the accounts no field other than
    [current_balance] changes, the balance of every account other than the
    one the transaction names is untouched, and the balance of that account
    is the old one with the amount taken off and added back for an Expense,
    added and taken off for an Income. *)
Lemma add_then_delete_transaction db transaction :
  keys_ok db ->
  Transaction.transaction_type transaction <> "Transfer" ->
  let db1 := fst (add_transaction db transaction) in
  let k := snd (add_transaction db transaction) in
  get_transaction_by_id db1 (Some k)
  = Some (inserted_row k transaction)
  /\ transactions (delete_transaction db1 k) = transactions db
  /\ Forall2
       (fun a a' =>
          same_but_balance a a'
          /\ AccountRow.current_balance a'
             = if match applied_account transaction with
                  | Some j => AccountRow.id a =? j
                  | None => false
                  end
               then
                 if String.eqb (Transaction.transaction_type transaction)
                      "Expense"
                 then (AccountRow.current_balance a
                       + - Transaction.amount transaction
                       + Transaction.amount transaction)%Q
                 else (AccountRow.current_balance a
                       + Transaction.amount transaction
                       + - Transaction.amount transaction)%Q
               else AccountRow.current_balance a)
       (accounts db) (accounts (delete_transaction db1 k)).
Proof.
  intros [_ Hseq] Hty. cbv zeta.
  assert (Hk : snd (add_transaction db transaction) = seq_transactions db + 1)
    by reflexivity.
  rewrite Hk. set (row := inserted_row (seq_transactions db + 1) transaction).
  destruct (find_fresh_row db row Hseq eq_refl) as [Hfind Hfilter].
  assert (Hget : get_transaction_by_id (fst (add_transaction db transaction))
                   (Some (seq_transactions db + 1)) = Some row).
  { cbn [get_transaction_by_id]. rewrite add_transaction_transactions.
    exact Hfind. }
  split; [exact Hget|].
  rewrite delete_transaction_steps, Hget. cbv zeta.
  cbn [set_transactions transactions accounts].
  destruct (reverted_frame (fst (add_transaction db transaction)) (Some row))
    as [Ht _].
  rewrite Ht, add_transaction_transactions. split; [exact Hfilter|].
  rewrite add_transaction_steps. fold row.
  unfold reverted, added, applied_account.
  cbn [row inserted_row TransactionRow.transaction_type
    TransactionRow.account_id TransactionRow.amount].
  destruct (String.eqb (Transaction.transaction_type transaction) "Expense").
  - cbn [orb]. apply (credit_twice_rows (with_new_row db row)).
  - cbn [orb].
    destruct (String.eqb (Transaction.transaction_type transaction) "Income").
    + apply (credit_twice_rows (with_new_row db row)).
    + destruct (String.eqb (Transaction.transaction_type transaction)
                  "Transfer") eqn:E.
      * apply String.eqb_eq in E. contradiction.
      * cbn [with_new_row accounts].
        rewrite <- (map_id (accounts db)) at 2. apply Forall2_map_r.
        intros x _. split; [apply same_but_balance_refl|reflexivity].
Qed.

Lemma add_then_delete_transaction_witness :
  let transaction := Sample.transaction "Expense" 50 None (Some 1) None
                       "2024-01-01" in
  let db1 := fst (add_transaction Sample.db_AB transaction) in
  let k := snd (add_transaction Sample.db_AB transaction) in
  get_transaction_by_id db1 (Some k) = Some (inserted_row k transaction)
  /\ transactions (delete_transaction db1 k) = transactions Sample.db_AB
  /\ Forall2
       (fun a a' =>
          same_but_balance a a'
          /\ AccountRow.current_balance a'
             = if match applied_account transaction with
                  | Some j => AccountRow.id a =? j
                  | None => false
                  end
               then
                 if String.eqb (Transaction.transaction_type transaction)
                      "Expense"
                 then (AccountRow.current_balance a
                       + - Transaction.amount transaction
                       + Transaction.amount transaction)%Q
                 else (AccountRow.current_balance a
                       + Transaction.amount transaction
                       + - Transaction.amount transaction)%Q
               else AccountRow.current_balance a)
       (accounts Sample.db_AB) (accounts (delete_transaction db1 k)).
Proof.
  apply (add_then_delete_transaction Sample.db_AB).
  - split; [constructor|intros r []].
  - vm_compute. discriminate.
Defined.

(** ** Accounts *)

Lemma find_app_l {A : Type} (f : A -> bool) (l l' : list A) :
  find f (l ++ l') =
  match find f l with Some x => Some x | None => find f l' end.
Proof.
  induction l as [|x l IH]; simpl; [reflexivity|].
  destruct (f x); [reflexivity|exact IH].
Qed.

(** X6. When no account has a key above the counter, the account just
    added is found under the key that [add_account] returns, with the
    fields that were given, and every other key finds what it found
    before. *)
Lemma add_account_lookup db account k :
  (forall r, In r (accounts db) -> AccountRow.id r <= seq_accounts db) ->
  let new := snd (add_account db account) in
  get_account_by_id (fst (add_account db account)) k
  = if k =? new then Some (account_row new account)
    else get_account_by_id db k.
Proof.
  intros Hseq. cbv zeta. unfold get_account_by_id.
  cbn [add_account fst snd accounts]. rewrite find_app_l. cbn [find].
  cbn [AccountRow.id]. fold (account_row (seq_accounts db + 1) account).
  destruct (k =? seq_accounts db + 1) eqn:E.
  - apply Z.eqb_eq in E. subst k. rewrite Z.eqb_refl.
    destruct (find _ (accounts db)) as [r|] eqn:F; [|reflexivity].
    apply find_some in F. destruct F as [Hin Hid].
    apply Z.eqb_eq in Hid. specialize (Hseq r Hin). lia.
  - rewrite Z.eqb_sym, E. destruct (find _ (accounts db)); reflexivity.
Qed.

Lemma add_account_lookup_witness :
  let account := Sample.account "B" 200 in
  let new := snd (add_account Sample.db_A account) in
  get_account_by_id (fst (add_account Sample.db_A account)) 2
  = if 2 =? new then Some (account_row new account)
    else get_account_by_id Sample.db_A 2.
Proof.
  apply (add_account_lookup Sample.db_A (Sample.account "B" 200) 2).
  intros r [<-|[]]. vm_compute. discriminate.
Defined.

Lemma find_filter_other {A : Type} (f p : A -> bool) (l : list A) :
  (forall x, In x l -> f x = true -> p x = true) ->
  find f (List.filter p l) = find f l.
Proof.
  induction l as [|x l IH]; intros H; simpl; [reflexivity|].
  assert (IH' : find f (List.filter p l) = find f l).
  { apply IH. intros y Hy. apply H. right. exact Hy. }
  destruct (f x) eqn:Fx.
  - rewrite (H x (or_introl eq_refl) Fx). simpl. rewrite Fx. reflexivity.
  - destruct (p x); simpl; [rewrite Fx|]; exact IH'.
Qed.

Lemma find_filter_none {A : Type} (f p : A -> bool) (l : list A) :
  (forall x, f x = true -> p x = false) ->
  find f (List.filter p l) = None.
Proof.
  intros H. induction l as [|x l IH]; simpl; [reflexivity|].
  destruct (p x) eqn:Px; [|exact IH]. simpl.
  destruct (f x) eqn:Fx; [|exact IH].
  rewrite (H x Fx) in Px. discriminate.
Qed.

(** X7. After [delete_account] the deleted key finds no account and every
    other key finds what it found before; nothing but the table of accounts
    changes, so the transactions that refer to the deleted account stay. *)
Lemma delete_account_lookup db account_id k :
  get_account_by_id (delete_account db account_id) k
  = (if k =? account_id then None else get_account_by_id db k)
  /\ same_but_accounts db (delete_account db account_id).
Proof.
  split; [|repeat split].
  unfold get_account_by_id, delete_account. cbn [set_accounts accounts].
  destruct (k =? account_id) eqn:E.
  - apply Z.eqb_eq in E. subst k. apply find_filter_none.
    intros x Hx. rewrite Hx. reflexivity.
  - apply find_filter_other. intros x _ Hx. apply Z.eqb_eq in Hx.
    rewrite Hx, E. reflexivity.
Qed.

Lemma find_map_key {A : Type} (key : A -> Z) (g : A -> A) (k : Z) l :
  (forall x, key (g x) = key x) ->
  find (fun r => key r =? k) (map g l)
  = option_map g (find (fun r => key r =? k) l).
Proof.
  intros H. induction l as [|x l IH]; simpl; [reflexivity|].
  rewrite H. destruct (key x =? k); [reflexivity|exact IH].
Qed.

(** X8. [update_account] replaces the fields of the account whose key is
    the [id] of the value and nothing else: a key that found no account
    still finds none (an unknown or missing [id] creates no row), and the
    other tables are unchanged. *)
Lemma update_account_lookup db account k :
  get_account_by_id (update_account db account) k
  = match get_account_by_id db k with
    | Some r =>
        if col_eq (Account.id account) k then Some (account_row k account)
        else Some r
    | None => None
    end
  /\ same_but_accounts db (update_account db account).
Proof.
  split; [|repeat split].
  unfold get_account_by_id, update_account. cbn [set_accounts accounts].
  rewrite (find_map_key AccountRow.id).
  - destruct (find _ (accounts db)) as [r|] eqn:F; [|reflexivity].
    apply find_some in F. destruct F as [_ Hid]. apply Z.eqb_eq in Hid.
    cbn [option_map]. rewrite Hid.
    destruct (col_eq (Account.id account) k); reflexivity.
  - intros x. destruct (col_eq _ _); reflexivity.
Qed.

(** ** Settings and default data *)

Lemma get_setting_rows (db : Store) key :
  get_setting db key
  = option_map snd (find (fun row => String.eqb (fst row) key) (settings db)).
Proof. unfold get_setting. destruct (find _ _); reflexivity. Qed.

(** X9. After [set_setting] the key reads back the value just written and
    every other key reads what it read before; the keys of the table stay
    pairwise different. *)
Lemma set_setting_lookup db key value key' :
  get_setting (set_setting db key value) key'
  = (if String.eqb key key' then Some value else get_setting db key')
  /\ (List.NoDup (map fst (settings db)) ->
      List.NoDup (map fst (settings (set_setting db key value)))).
Proof.
  split.
  - rewrite !get_setting_rows. cbn [set_setting set_settings settings].
    rewrite find_app_l. cbn [find fst].
    destruct (String.eqb key key') eqn:E.
    + apply String.eqb_eq in E. subst key'.
      rewrite find_filter_none; [reflexivity|].
      intros x Hx. rewrite Hx. reflexivity.
    + rewrite find_filter_other.
      * destruct (find _ (settings db)); reflexivity.
      * intros x _ Hx. apply String.eqb_eq in Hx.
        rewrite Hx, String.eqb_sym, E. reflexivity.
  - intros Hnd. cbn [set_setting set_settings settings].
    rewrite map_app. apply NoDup_snoc.
    + apply NoDup_map_filter. exact Hnd.
    + cbn [map fst]. intros Hin. apply in_map_iff in Hin.
      destruct Hin as [x [Hx Hin]]. apply filter_In in Hin.
      destruct Hin as [_ Hne]. rewrite Hx, String.eqb_refl in Hne.
      discriminate.
Qed.

Lemma set_setting_lookup_witness :
  get_setting (set_setting Fixture.db_start "theme" "Dark") "theme"
  = (if String.eqb "theme" "theme" then Some "Dark"
     else get_setting Fixture.db_start "theme")
  /\ List.NoDup
       (map fst (settings (set_setting Fixture.db_start "theme" "Dark"))).
Proof.
  destruct (set_setting_lookup Fixture.db_start "theme" "Dark" "theme")
    as [H1 H2].
  split; [exact H1|]. apply H2.
  repeat constructor; simpl; intuition discriminate.
Defined.

Lemma find_insert_or_ignore rows row key :
  find (fun r => String.eqb (fst r) key) (insert_or_ignore rows row)
  = match find (fun r => String.eqb (fst r) key) rows with
    | Some r => Some r
    | None => if String.eqb (fst row) key then Some row else None
    end.
Proof.
  unfold insert_or_ignore.
  destruct (existsb _ rows) eqn:E.
  - destruct (find _ rows) as [r|] eqn:F; [reflexivity|].
    destruct (String.eqb (fst row) key) eqn:K; [|reflexivity].
    apply String.eqb_eq in K. apply existsb_exists in E.
    destruct E as [x [Hin Hx]]. pose proof (find_none_all _ _ F x Hin) as G.
    cbv beta in G. rewrite <- K in G. congruence.
  - rewrite find_app_l. cbn [find]. destruct (find _ rows); reflexivity.
Qed.

Lemma find_fold_insert_or_ignore entries :
  forall rows key,
  find (fun r => String.eqb (fst r) key)
    (fold_left insert_or_ignore entries rows)
  = match find (fun r => String.eqb (fst r) key) rows with
    | Some r => Some r
    | None => find (fun r => String.eqb (fst r) key) entries
    end.
Proof.
  induction entries as [|e entries IH]; intros rows key; cbn [fold_left find].
  - destruct (find _ rows); reflexivity.
  - rewrite IH, find_insert_or_ignore.
    destruct (find _ rows); [reflexivity|].
    destruct (String.eqb (fst e) key); reflexivity.
Qed.

Lemma initialize_default_data_settings db seq_categories notes :
  settings (fst (initialize_default_data db seq_categories notes))
  = fold_left insert_or_ignore default_settings (settings db).
Proof.
  unfold initialize_default_data.
  destruct (Z.of_nat (length (categories db)) =? 0);
    destruct (Z.of_nat (length (accounts db)) =? 0);
    cbv zeta; try destruct (insert_categories "Income" _ _); reflexivity.
Qed.

Lemma existsb_insert_or_ignore rows row key :
  existsb (fun r => String.eqb (fst r) key) rows = true ->
  existsb (fun r => String.eqb (fst r) key) (insert_or_ignore rows row)
  = true.
Proof.
  intros H. unfold insert_or_ignore.
  destruct (existsb (fun r => String.eqb (fst r) (fst row)) rows);
    [exact H|].
  rewrite existsb_app, H. reflexivity.
Qed.

Lemma existsb_fold_insert_or_ignore entries :
  forall rows key,
  existsb (fun r => String.eqb (fst r) key) rows = true
  \/ In key (map fst entries) ->
  existsb (fun r => String.eqb (fst r) key)
    (fold_left insert_or_ignore entries rows) = true.
Proof.
  induction entries as [|e entries IH]; intros rows key H;
    cbn [fold_left map] in *.
  - destruct H as [H|[]]. exact H.
  - apply IH. destruct H as [H|[H|H]].
    + left. apply existsb_insert_or_ignore. exact H.
    + left. unfold insert_or_ignore.
      destruct (existsb (fun r => String.eqb (fst r) (fst e)) rows) eqn:E.
      * rewrite <- H. exact E.
      * rewrite existsb_app. cbn [existsb]. rewrite H, String.eqb_refl.
        rewrite orb_true_r. reflexivity.
    + right. exact H.
Qed.

Lemma fold_insert_or_ignore_present entries :
  forall rows,
  (forall key, In key (map fst entries) ->
     existsb (fun r => String.eqb (fst r) key) rows = true) ->
  fold_left insert_or_ignore entries rows = rows.
Proof.
  induction entries as [|e entries IH]; intros rows H; cbn [fold_left];
    [reflexivity|].
  assert (E : insert_or_ignore rows e = rows).
  { unfold insert_or_ignore. rewrite (H (fst e)); [reflexivity|].
    left. reflexivity. }
  rewrite E. apply IH. intros key Hk. apply H. right. exact Hk.
Qed.

Lemma initialize_default_data_first db seq_categories notes :
  let first := fst (initialize_default_data db seq_categories notes) in
  categories first <> [] /\ accounts first <> [].
Proof.
  cbv zeta. unfold initialize_default_data.
  set (rows := fold_left insert_or_ignore default_settings (settings db)).
  destruct (categories db) as [|c cs]; destruct (accounts db) as [|a accs];
    cbv [insert_categories expense_categories income_categories fold_left
         fst snd app length Z.of_nat Z.eqb categories accounts];
    split; discriminate.
Qed.

Lemma initialize_default_data_settled db seq_categories notes :
  categories db <> [] -> accounts db <> [] ->
  fold_left insert_or_ignore default_settings (settings db) = settings db ->
  initialize_default_data db seq_categories notes = (db, seq_categories).
Proof.
  intros Hc Ha Hs. unfold initialize_default_data. rewrite Hs.
  destruct db as [cats ? accs ? ? ? ? ? ? ? ? ? ?].
  cbn [categories accounts] in *.
  destruct cats as [|c cats]; [contradiction|].
  destruct accs as [|a accs]; [contradiction|].
  reflexivity.
Qed.

(** X10. [initialize_default_data] is idempotent: run on its own result it
    inserts no category, no account and no setting, and advances no
    counter. *)
Lemma initialize_default_data_idempotent db seq_categories notes notes' :
  let first := initialize_default_data db seq_categories notes in
  initialize_default_data (fst first) (snd first) notes' = first.
Proof.
  cbv zeta.
  destruct (initialize_default_data_first db seq_categories notes)
    as [Hc Ha].
  rewrite initialize_default_data_settled; [|exact Hc|exact Ha|].
  - destruct (initialize_default_data db seq_categories notes); reflexivity.
  - rewrite initialize_default_data_settings.
    apply fold_insert_or_ignore_present. intros key Hk.
    apply existsb_fold_insert_or_ignore. right. exact Hk.
Qed.

(** X11. [initialize_default_data] never overwrites a setting: a key that
    had a value keeps it, and a key without one reads its default
    afterwards, if it has a default. *)
Lemma initialize_default_data_keeps_settings db seq_categories notes key :
  get_setting (fst (initialize_default_data db seq_categories notes)) key
  = match get_setting db key with
    | Some value => Some value
    | None => default_setting key
    end.
Proof.
  rewrite !get_setting_rows, initialize_default_data_settings.
  rewrite find_fold_insert_or_ignore. unfold default_setting.
  destruct (find _ (settings db)); [reflexivity|].
  destruct (find _ default_settings); reflexivity.
Qed.

(** ** Listings and reports *)

Lemma in_insert_row {A : Type} (leb : A -> A -> bool) r x l :
  In x (insert_row leb r l) <-> x = r \/ In x l.
Proof.
  induction l as [|y l IH]; simpl.
  - intuition.
  - destruct (leb r y); simpl; rewrite ?IH; intuition.
Qed.

Lemma in_order_by {A : Type} (leb : A -> A -> bool) x l :
  In x (order_by leb l) <-> In x l.
Proof.
  induction l as [|y l IH]; simpl; [tauto|].
  rewrite in_insert_row, IH. intuition.
Qed.

Lemma insert_row_permutation {A : Type} (leb : A -> A -> bool) x l :
  Permutation (insert_row leb x l) (x :: l).
Proof.
  induction l as [|y l IH]; simpl; [reflexivity|].
  destruct (leb x y); [reflexivity|].
  rewrite IH. apply perm_swap.
Qed.

Lemma order_by_permutation {A : Type} (leb : A -> A -> bool) l :
  Permutation (order_by leb l) l.
Proof.
  induction l as [|y l IH]; simpl; [reflexivity|].
  fold (order_by leb l). rewrite insert_row_permutation, IH. reflexivity.
Qed.

Lemma insert_row_sorted {A : Type} (leb : A -> A -> bool) x l :
  (forall a b, leb a b = false -> leb b a = true) ->
  Sorted (fun a b => leb a b = true) l ->
  Sorted (fun a b => leb a b = true) (insert_row leb x l).
Proof.
  intros Htot. induction l as [|y l IH]; intros Hs; simpl.
  - repeat constructor.
  - destruct (leb x y) eqn:E.
    + constructor; [exact Hs|constructor; exact E].
    + inversion Hs as [|? ? Hl Hhd]; subst. constructor; [apply IH; exact Hl|].
      destruct l as [|z l]; simpl.
      * constructor. apply Htot. exact E.
      * destruct (leb x z).
        -- constructor. apply Htot. exact E.
        -- inversion Hhd; subst. constructor. assumption.
Qed.

Lemma order_by_sorted {A : Type} (leb : A -> A -> bool) l :
  (forall a b, leb a b = false -> leb b a = true) ->
  Sorted (fun a b => leb a b = true) (order_by leb l).
Proof.
  intros Htot. induction l as [|y l IH]; simpl; [constructor|].
  apply insert_row_sorted; assumption.
Qed.

Lemma Sorted_impl {A : Type} (R S : A -> A -> Prop) l :
  (forall a b, R a b -> S a b) -> Sorted R l -> Sorted S l.
Proof.
  intros H. induction 1 as [|x l Hl IH Hhd]; constructor; [exact IH|].
  destruct Hhd; constructor. apply H. assumption.
Qed.

Lemma newest_first_listed a b :
  newest_first a b = true <-> listed_before a b.
Proof.
  unfold newest_first, listed_before.
  destruct (String.compare (TransactionRow.date b) (TransactionRow.date a))
    eqn:E.
  - apply String.compare_eq_iff in E. rewrite Z.leb_le. split.
    + intros H. right. split; [symmetry; exact E|exact H].
    + intros [H|[_ H]]; [discriminate|exact H].
  - split; [intros _; left; reflexivity|reflexivity].
  - split; [discriminate|]. intros [H|[H _]]; [discriminate|].
    rewrite H in E.
    pose proof (String.compare_antisym (TransactionRow.date b)
                  (TransactionRow.date b)) as R.
    rewrite E in R. discriminate.
Qed.

Lemma newest_first_total a b :
  newest_first a b = false -> newest_first b a = true.
Proof.
  unfold newest_first.
  rewrite (String.compare_antisym (TransactionRow.date b)).
  destruct (String.compare (TransactionRow.date a) (TransactionRow.date b));
    cbn [CompOpp]; intros H; try discriminate; [|reflexivity].
  apply Z.leb_gt in H. apply Z.leb_le. lia.
Qed.

(** X12. Without a limit, and also with the limit [0], [get_transactions]
    lists every transaction exactly once whatever the offset, a later date
    first and, within a date, the larger key first. *)
Lemma get_transactions_listing db limit offset :
  truthy_id limit = None ->
  let rows := map (fun x => fst (fst x)) (get_transactions db limit offset) in
  Permutation rows (transactions db) /\ Sorted listed_before rows.
Proof.
  intros Hl. cbv zeta. unfold get_transactions. rewrite Hl. cbv zeta.
  rewrite map_map. cbn [fst]. rewrite map_id.
  split; [apply order_by_permutation|].
  apply (Sorted_impl (fun a b => newest_first a b = true)).
  - intros a b. apply newest_first_listed.
  - apply order_by_sorted. apply newest_first_total.
Qed.

Lemma get_transactions_listing_witness :
  let rows :=
    map (fun x => fst (fst x))
      (get_transactions Fixture.db_spending (Some 0) 5) in
  Permutation rows (transactions Fixture.db_spending)
  /\ Sorted listed_before rows.
Proof.
  apply (get_transactions_listing Fixture.db_spending (Some 0) 5).
  reflexivity.
Defined.

(** X13. [get_expense_by_category] lists, the largest total first, one row
    for each category that has an Expense in the range, with the sum that
    the query computes over these Expenses; a category is left out exactly
    when no Expense of the range refers to it. *)
Lemma get_expense_by_category_rows db start_date end_date :
  let rows := get_expense_by_category db start_date end_date in
  Permutation rows (category_rows db start_date end_date)
  /\ Sorted (fun a b => (snd b <= snd a)%Q) rows
  /\ forall c,
       category_total db start_date end_date c = None
       <-> forall t, In t (transactions db) ->
             expense_in_range start_date end_date t = true ->
             TransactionRow.category_id t <> Some (CategoryRow.id c).
Proof.
  cbv zeta.
  assert (E : get_expense_by_category db start_date end_date
              = order_by (fun a b => Qle_bool (snd b) (snd a))
                  (category_rows db start_date end_date)).
  { unfold get_expense_by_category, category_rows, category_total.
    cbv zeta. f_equal. apply flat_map_ext. intros c.
    rewrite filter_filter.
    rewrite (filter_ext
               (fun t => col_eq (TransactionRow.category_id t)
                           (CategoryRow.id c)
                         && (String.eqb (TransactionRow.transaction_type t)
                               "Expense"
                             && between (TransactionRow.date t) start_date
                                  end_date))
               (fun t => expense_in_range start_date end_date t
                         && col_eq (TransactionRow.category_id t)
                              (CategoryRow.id c)));
      [reflexivity|].
    intros t. apply andb_comm. }
  split; [rewrite E; apply order_by_permutation|].
  split.
  - rewrite E.
    apply (Sorted_impl
             (fun a b : string * string * Q =>
                Qle_bool (snd b) (snd a) = true)).
    + intros a b H. apply Qle_bool_iff. exact H.
    + apply order_by_sorted. intros a b H.
      apply Qle_bool_iff. apply Qlt_le_weak. apply Qnot_le_lt.
      intros Hle. apply Qle_bool_iff in Hle. congruence.
  - intros c. unfold category_total, sql_sum.
    destruct (map TransactionRow.amount _) as [|x xs] eqn:M.
    + split; [intros _|reflexivity]. intros t Ht Hr Hc.
      apply map_eq_nil in M.
      assert (Hin : In t (List.filter
                (fun t => expense_in_range start_date end_date t
                          && col_eq (TransactionRow.category_id t)
                               (CategoryRow.id c))
                (transactions db))).
      { apply filter_In. split; [exact Ht|].
        rewrite Hr, Hc. cbn. apply Z.eqb_refl. }
      rewrite M in Hin. destruct Hin.
    + split; [discriminate|]. intros H. exfalso.
      assert (Hne : List.filter
                (fun t => expense_in_range start_date end_date t
                          && col_eq (TransactionRow.category_id t)
                               (CategoryRow.id c))
                (transactions db) <> []).
      { intros N. rewrite N in M. discriminate. }
      destruct (List.filter _ (transactions db)) as [|t l] eqn:F;
        [contradiction|].
      assert (Hin : In t (t :: l)) by (left; reflexivity).
      rewrite <- F in Hin. apply filter_In in Hin. destruct Hin as [Ht Hp].
      apply andb_true_iff in Hp. destruct Hp as [Hr Hc].
      apply (H t Ht Hr).
      destruct (TransactionRow.category_id t) as [j|]; [|discriminate].
      cbn [col_eq] in Hc. apply Z.eqb_eq in Hc. rewrite Hc. reflexivity.
Qed.

Lemma between_on_days lo hi d :
  Datetime.valid_date (Datetime.year d) (Datetime.month d) (Datetime.day d)
  = true ->
  Datetime.valid_date (Datetime.year lo) (Datetime.month lo) (Datetime.day lo)
  = true ->
  Datetime.valid_date (Datetime.year hi) (Datetime.month hi) (Datetime.day hi)
  = true ->
  between (Datetime.strftime_ymd d) (Datetime.strftime_ymd lo)
    (Datetime.strftime_ymd hi)
  = on_days lo hi (Datetime.strftime_ymd d).
Proof.
  intros Hd Hlo Hhi. unfold on_days. rewrite (strptime_strftime d Hd).
  change (Datetime.toordinal (midnight d)) with (Datetime.toordinal d).
  pose proof (between_iso d lo hi Hd Hlo Hhi) as B.
  destruct (between _ _ _).
  - symmetry. apply andb_true_iff. rewrite !Z.leb_le. apply B. reflexivity.
  - symmetry. apply not_true_is_false. intros H.
    apply andb_true_iff in H. rewrite !Z.leb_le in H.
    apply B in H. discriminate.
Qed.

(** X14. When the dates of the transactions and the two bounds are ISO
    texts of valid dates, the figures of [get_income_vs_expense] are the
    sums over the Income and the Expense rows whose day lies between the
    days of the bounds, both included. *)
Lemma get_income_vs_expense_calendar db lo hi :
  (forall r, In r (transactions db) ->
     exists d,
       Datetime.valid_date (Datetime.year d) (Datetime.month d)
         (Datetime.day d) = true
       /\ TransactionRow.date r = Datetime.strftime_ymd d) ->
  Datetime.valid_date (Datetime.year lo) (Datetime.month lo) (Datetime.day lo)
  = true ->
  Datetime.valid_date (Datetime.year hi) (Datetime.month hi) (Datetime.day hi)
  = true ->
  let report :=
    get_income_vs_expense db (Datetime.strftime_ymd lo)
      (Datetime.strftime_ymd hi) in
  let total ty :=
    Qsum
      (map TransactionRow.amount
         (List.filter
            (fun r => String.eqb (TransactionRow.transaction_type r) ty
                      && on_days lo hi (TransactionRow.date r))
            (transactions db))) in
  (income report == total "Income")%Q /\ (expense report == total "Expense")%Q.
Proof.
  intros Hrows Hlo Hhi. cbv zeta. unfold get_income_vs_expense. cbv zeta.
  cbn [income expense].
  rewrite !or_zero_sql_sum, !Qsum_case_filter, !filter_filter.
  assert (E : forall ty,
            List.filter
              (fun r => String.eqb (TransactionRow.transaction_type r) ty
                        && between (TransactionRow.date r)
                             (Datetime.strftime_ymd lo)
                             (Datetime.strftime_ymd hi))
              (transactions db)
            = List.filter
                (fun r => String.eqb (TransactionRow.transaction_type r) ty
                          && on_days lo hi (TransactionRow.date r))
                (transactions db)).
  { intros ty. apply filter_ext_in. intros r Hr.
    destruct (Hrows r Hr) as [d [Hd ->]].
    rewrite (between_on_days lo hi d Hd Hlo Hhi). reflexivity. }
  rewrite !E. split; reflexivity.
Qed.

Lemma get_income_vs_expense_calendar_witness :
  let lo := Fixture.day 2024 1 1 in
  let hi := Fixture.day 2024 1 31 in
  let report :=
    get_income_vs_expense Sample.db_report (Datetime.strftime_ymd lo)
      (Datetime.strftime_ymd hi) in
  let total ty :=
    Qsum
      (map TransactionRow.amount
         (List.filter
            (fun r => String.eqb (TransactionRow.transaction_type r) ty
                      && on_days lo hi (TransactionRow.date r))
            (transactions Sample.db_report))) in
  (income report == total "Income")%Q /\ (expense report == total "Expense")%Q.
Proof.
  apply (get_income_vs_expense_calendar Sample.db_report
           (Fixture.day 2024 1 1) (Fixture.day 2024 1 31)).
  - intros r [<-|[<-|[]]].
    + exists (Fixture.day 2024 1 10). split; reflexivity.
    + exists (Fixture.day 2024 1 20). split; reflexivity.
  - reflexivity.
  - reflexivity.
Defined.

(** ** Recurrence, continued *)

Lemma strftime_ymd_nonempty d : Datetime.strftime_ymd d <> "".
Proof. unfold Datetime.strftime_ymd, Datetime.pad4. discriminate. Qed.

(** X15. An active, automatic pattern whose next due date is the ISO text
    of a valid date is among the due patterns of a day exactly when that
    date is not after the day: on such texts the comparison of
    [check_recurring_transactions] is the comparison of the calendar. *)
Lemma due_on_iso_dates db now p d :
  In p (recurring_transactions db) ->
  RecurringRow.active p = true ->
  RecurringRow.auto_create p = true ->
  RecurringRow.next_due_date p = Some (Datetime.strftime_ymd d) ->
  Datetime.valid_date (Datetime.year d) (Datetime.month d) (Datetime.day d)
  = true ->
  Datetime.valid_date (Datetime.year now) (Datetime.month now)
    (Datetime.day now) = true ->
  (exists c,
     In (p, c)
       (ReminderManager.check_recurring_transactions db
          (Datetime.strftime_ymd now)))
  <-> Datetime.toordinal d <= Datetime.toordinal now.
Proof.
  intros Hin Hact Hauto Hdate Hd Hnow.
  rewrite <- (iso_text_order d now Hd Hnow).
  assert (Hdue : forall c,
            is_due (Datetime.strftime_ymd now) (p, c)
            = String.leb (Datetime.strftime_ymd d)
                (Datetime.strftime_ymd now)).
  { intros c. unfold is_due. cbn [fst]. rewrite Hdate.
    rewrite (truthy_str_nonempty _ (strftime_ymd_nonempty d)).
    rewrite Hact, Hauto. apply andb_true_r. }
  split.
  - intros [c Hc]. apply check_recurring_transactions_in in Hc.
    destruct Hc as [_ Hc]. rewrite Hdue in Hc. exact Hc.
  - intros Hle.
    exists (find (fun c => col_eq (RecurringRow.category_id p)
                             (CategoryRow.id c)) (categories db)).
    rewrite check_recurring_transactions_filter. apply filter_In.
    split; [|rewrite Hdue; exact Hle].
    unfold get_recurring_transactions.
    apply (in_map (fun r => (r, find (fun c => col_eq
                                        (RecurringRow.category_id r)
                                        (CategoryRow.id c))
                                  (categories db)))).
    apply in_order_by_due. apply filter_In. split; [exact Hin|exact Hact].
Qed.

Lemma due_on_iso_dates_witness :
  (exists c,
     In (Fixture.monthly_row, c)
       (ReminderManager.check_recurring_transactions Sample.db_monthly
          (Datetime.strftime_ymd Sample.noon)))
  <-> Datetime.toordinal (Fixture.day 2024 1 1)
      <= Datetime.toordinal Sample.noon.
Proof.
  apply (due_on_iso_dates Sample.db_monthly Sample.noon Fixture.monthly_row
           (Fixture.day 2024 1 1)).
  - left. reflexivity.
  - reflexivity.
  - reflexivity.
  - reflexivity.
  - reflexivity.
  - reflexivity.
Defined.

Lemma check_recurring_transactions_tables db db' today :
  recurring_transactions db' = recurring_transactions db ->
  categories db' = categories db ->
  ReminderManager.check_recurring_transactions db' today
  = ReminderManager.check_recurring_transactions db today.
Proof.
  intros Hr Hc. rewrite !check_recurring_transactions_filter.
  unfold get_recurring_transactions. rewrite Hr, Hc. reflexivity.
Qed.

Lemma add_transaction_categories db transaction :
  categories (fst (add_transaction db transaction)) = categories db.
Proof.
  rewrite add_transaction_steps. unfold added, credit, update_account_balance.
  repeat match goal with
         | |- context [if ?c then _ else _] => destruct c
         | |- context [match truthy_id ?o with _ => _ end] =>
             destruct (truthy_id o)
         end; reflexivity.
Qed.

(** X16. When the date computation raises for the first due pattern, the
    pass ends with that error after the transaction of the pattern is
    committed: the transaction is in the table, the patterns are unchanged,
    and the same patterns are due again, so every further pass adds one
    more transaction for that pattern. *)
Lemma create_instances_raise_commits db now p c rest :
  ReminderManager.check_recurring_transactions db (Datetime.strftime_ymd now)
  = (p, c) :: rest ->
  next_due_of p = None ->
  let res := ReminderManager.create_recurring_transaction_instances db now in
  snd res = None
  /\ transactions (fst res)
     = (transactions db
        ++ [inserted_row (seq_transactions db + 1) (instance_of now p)])%list
  /\ recurring_transactions (fst res) = recurring_transactions db
  /\ ReminderManager.check_recurring_transactions (fst res)
       (Datetime.strftime_ymd now)
     = (p, c) :: rest.
Proof.
  intros Hdue Hbad. cbv zeta.
  unfold ReminderManager.create_recurring_transaction_instances. cbv zeta.
  rewrite Hdue, create_instances_loop_cons. cbv zeta. rewrite Hbad.
  cbn [fst snd]. split; [reflexivity|].
  split; [apply add_transaction_transactions|].
  split; [apply add_transaction_recurring|].
  rewrite <- Hdue. apply check_recurring_transactions_tables.
  - apply add_transaction_recurring.
  - apply add_transaction_categories.
Qed.

Lemma create_instances_raise_commits_witness :
  let res :=
    ReminderManager.create_recurring_transaction_instances Fixture.db_poison
      Sample.noon in
  snd res = None
  /\ transactions (fst res)
     = (transactions Fixture.db_poison
        ++ [inserted_row (seq_transactions Fixture.db_poison + 1)
              (instance_of Sample.noon Fixture.poison_row)])%list
  /\ recurring_transactions (fst res)
     = recurring_transactions Fixture.db_poison
  /\ ReminderManager.check_recurring_transactions (fst res)
       (Datetime.strftime_ymd Sample.noon)
     = [(Fixture.poison_row, None)].
Proof.
  apply (create_instances_raise_commits Fixture.db_poison Sample.noon
           Fixture.poison_row None []).
  - reflexivity.
  - reflexivity.
Defined.

(** ** Debt and goal alerts *)

Lemma strptime_ymd_midnight s d :
  Datetime.strptime_ymd s = Some d ->
  Datetime.time_of_day d = 0
  /\ Datetime.valid_date (Datetime.year d) (Datetime.month d) (Datetime.day d)
     = true.
Proof.
  unfold Datetime.strptime_ymd. intros H.
  repeat match type of H with
         | match ?x with _ => _ end = _ => destruct x eqn:?; try discriminate
         | (if ?c then _ else _) = _ => destruct c eqn:?; try discriminate
         end.
  injection H as <-. split; [reflexivity|assumption].
Qed.

Lemma sub_days_midnight (due today : Datetime.t) :
  Datetime.time_of_day due = 0 ->
  Datetime.valid_time today = true ->
  Datetime.sub_days due today
  = Datetime.toordinal due - Datetime.toordinal today
    - (if Datetime.time_of_day today =? 0 then 0 else 1).
Proof.
  intros Hdue Hv. unfold Datetime.sub_days. rewrite Hdue.
  assert (Ht : 0 <= Datetime.time_of_day today < Datetime.US_PER_DAY).
  { unfold Datetime.valid_time in Hv.
    repeat (apply andb_prop in Hv; destruct Hv as [Hv ?]).
    unfold Datetime.time_of_day, Datetime.US_PER_DAY. lia. }
  unfold Datetime.US_PER_DAY in *.
  destruct (Datetime.time_of_day today =? 0) eqn:E.
  - apply Z.eqb_eq in E. rewrite E.
    rewrite Z.sub_0_r, Z.add_0_r, Z.sub_0_r. apply Z.div_mul. lia.
  - apply Z.eqb_neq in E. symmetry.
    apply (Z.div_unique _ _ _ (86400000000 - Datetime.time_of_day today));
      lia.
Qed.

Lemma debt_alerts_loop_calendar today debts :
  Datetime.valid_time today = true ->
  Datetime.time_of_day today <> 0 ->
  forall alerts result,
  ReminderManager.debt_alerts_loop debts today alerts = Some result ->
  result = (alerts ++ flat_map (debt_alert_on today) debts)%list.
Proof.
  intros Hv Ht. induction debts as [|debt debts IH]; intros alerts result H.
  - simpl in H. injection H as <-. simpl. rewrite app_nil_r. reflexivity.
  - cbn [ReminderManager.debt_alerts_loop] in H. cbn [flat_map].
    unfold debt_alert_on at 1. unfold open_due_date.
    destruct (Debt.settled debt); [apply IH; exact H|].
    destruct (truthy_str (Debt.due_date debt)) as [text|];
      [|apply IH; exact H].
    destruct (Datetime.strptime_ymd text) as [due|] eqn:P; [|discriminate].
    destruct (strptime_ymd_midnight _ _ P) as [Hm _].
    cbv zeta in H |- *. rewrite (sub_days_midnight due today Hm Hv) in H.
    apply Z.eqb_neq in Ht. rewrite Ht in H.
    set (gap := Datetime.toordinal due - Datetime.toordinal today) in *.
    replace (gap - 1 <=? 7) with (gap <=? 8) in H
      by (destruct (gap <=? 8) eqn:E1; destruct (gap - 1 <=? 7) eqn:E2; lia).
    replace (gap - 1 <=? 0) with (gap <=? 1) in H
      by (destruct (gap <=? 1) eqn:E1; destruct (gap - 1 <=? 0) eqn:E2; lia).
    destruct (gap <=? 8).
    + rewrite (IH _ _ H), <- app_assoc. reflexivity.
    + apply IH. exact H.
Qed.

Lemma debt_alerts_loop_raises today debts :
  forall alerts,
  ReminderManager.debt_alerts_loop debts today alerts = None
  <-> exists debt text,
        In debt debts /\ open_due_date debt = Some text
        /\ Datetime.strptime_ymd text = None.
Proof.
  induction debts as [|debt debts IH]; intros alerts.
  - simpl. split; [discriminate|]. intros [d [t [[] _]]].
  - cbn [ReminderManager.debt_alerts_loop].
    assert (Hskip : open_due_date debt = None ->
              ((exists d text, In d debts /\ open_due_date d = Some text
                               /\ Datetime.strptime_ymd text = None)
               <-> exists d text, In d (debt :: debts)
                     /\ open_due_date d = Some text
                     /\ Datetime.strptime_ymd text = None)).
    { intros Hn. split.
      - intros [d [t [Hin H]]]. exists d, t. split; [right; exact Hin|exact H].
      - intros [d [t [[<-|Hin] [H1 H2]]]]; [congruence|].
        exists d, t. tauto. }
    unfold open_due_date in Hskip at 1.
    destruct (Debt.settled debt) eqn:Hs;
      [rewrite IH; apply Hskip; reflexivity|].
    destruct (truthy_str (Debt.due_date debt)) as [text|] eqn:Hd;
      [|rewrite IH; apply Hskip; reflexivity].
    destruct (Datetime.strptime_ymd text) as [due|] eqn:P.
    + assert (Hstep : (exists d t, In d debts /\ open_due_date d = Some t
                                   /\ Datetime.strptime_ymd t = None)
               <-> exists d t, In d (debt :: debts)
                     /\ open_due_date d = Some t
                     /\ Datetime.strptime_ymd t = None).
      { split.
        - intros [d [t [Hin H]]]. exists d, t. split; [right; exact Hin|exact H].
        - intros [d [t [[<-|Hin] [H1 H2]]]].
          + unfold open_due_date in H1. rewrite Hs, Hd in H1.
            injection H1 as <-. congruence.
          + exists d, t. tauto. }
      cbv zeta. destruct (_ <=? 7); rewrite IH; exact Hstep.
    + split; [intros _|reflexivity]. exists debt, text.
      split; [left; reflexivity|]. unfold open_due_date.
      rewrite Hs, Hd. split; [reflexivity|exact P].
Qed.

(** X17. When the clock is not at midnight sharp and every open due date
    is a date, [check_debt_due_dates] returns, in the order of
    [get_debts], one alert for each unsettled debt with a due date at most
    eight days after the day of the clock: the days until due are one less
    than the days between the two dates, so the alert is of high severity
    as soon as the debt is due on the next day. *)
Lemma check_debt_due_dates_calendar db today :
  Datetime.valid_time today = true ->
  Datetime.time_of_day today <> 0 ->
  (forall debt text,
     In debt (debts db) -> open_due_date debt = Some text ->
     Datetime.strptime_ymd text <> None) ->
  ReminderManager.check_debt_due_dates db today
  = Some (flat_map (debt_alert_on today) (get_debts db)).
Proof.
  intros Hv Ht Hok. unfold ReminderManager.check_debt_due_dates.
  destruct (ReminderManager.debt_alerts_loop (get_debts db) today [])
    as [alerts|] eqn:H.
  - f_equal. apply (debt_alerts_loop_calendar today _ Hv Ht [] alerts H).
  - exfalso. apply debt_alerts_loop_raises in H.
    destruct H as [debt [text [Hin [Hopen Hbad]]]].
    apply in_order_by in Hin. exact (Hok debt text Hin Hopen Hbad).
Qed.

Lemma check_debt_due_dates_calendar_witness :
  ReminderManager.check_debt_due_dates Fixture.db_debts Sample.noon
  = Some (flat_map (debt_alert_on Sample.noon)
            (get_debts Fixture.db_debts)).
Proof.
  apply (check_debt_due_dates_calendar Fixture.db_debts Sample.noon).
  - reflexivity.
  - vm_compute. discriminate.
  - intros debt text Hin Hopen.
    repeat (destruct Hin as [<-|Hin]; [vm_compute in Hopen|]);
      try contradiction; try discriminate;
      injection Hopen as <-; vm_compute; discriminate.
Defined.

(** X18. [check_debt_due_dates] raises exactly when some unsettled debt has
    a non-empty due date that [strptime] rejects: one such debt leaves all
    debts without alert. *)
Lemma check_debt_due_dates_raises db today :
  ReminderManager.check_debt_due_dates db today = None
  <-> exists debt text,
        In debt (debts db) /\ open_due_date debt = Some text
        /\ Datetime.strptime_ymd text = None.
Proof.
  unfold ReminderManager.check_debt_due_dates.
  rewrite debt_alerts_loop_raises. unfold get_debts.
  split; intros [d [t [Hin H]]]; exists d, t; split; try exact H.
  - apply in_order_by in Hin. exact Hin.
  - apply in_order_by. exact Hin.
Qed.

Lemma check_debt_due_dates_raises_witness :
  ReminderManager.check_debt_due_dates Fixture.db_bad_debt Sample.noon = None.
Proof.
  apply (proj2 (check_debt_due_dates_raises Fixture.db_bad_debt Sample.noon)).
  exists (Fixture.debt 1 "Ann" 100 20 (Some "02/01/2024") false).
  exists "02/01/2024".
  split; [left; reflexivity|]. split; reflexivity.
Defined.

Lemma goal_alerts_loop_calendar today goals :
  Datetime.valid_time today = true ->
  Datetime.time_of_day today <> 0 ->
  forall alerts result,
  ReminderManager.goal_alerts_loop goals today alerts = Some result ->
  result = (alerts ++ flat_map (goal_alert_on today) goals)%list.
Proof.
  intros Hv Ht. induction goals as [|goal goals IH]; intros alerts result H.
  - simpl in H. injection H as <-. simpl. rewrite app_nil_r. reflexivity.
  - cbn [ReminderManager.goal_alerts_loop] in H. cbn [flat_map].
    unfold goal_alert_on at 1. unfold open_deadline.
    destruct (Goal.completed goal); [apply IH; exact H|].
    destruct (truthy_str (Goal.deadline goal)) as [text|];
      [|apply IH; exact H].
    destruct (Datetime.strptime_ymd text) as [due|] eqn:P; [|discriminate].
    destruct (strptime_ymd_midnight _ _ P) as [Hm _].
    cbv zeta in H |- *. rewrite (sub_days_midnight due today Hm Hv) in H.
    apply Z.eqb_neq in Ht. rewrite Ht in H.
    set (gap := Datetime.toordinal due - Datetime.toordinal today) in *.
    replace (gap - 1 <=? 30) with (gap <=? 31) in H
      by (destruct (gap <=? 31) eqn:E1; destruct (gap - 1 <=? 30) eqn:E2;
          lia).
    destruct ((gap <=? 31) && _).
    + rewrite (IH _ _ H), <- app_assoc. reflexivity.
    + apply IH. exact H.
Qed.

Lemma goal_alerts_loop_raises today goals :
  forall alerts,
  ReminderManager.goal_alerts_loop goals today alerts = None
  <-> exists goal text,
        In goal goals /\ open_deadline goal = Some text
        /\ Datetime.strptime_ymd text = None.
Proof.
  induction goals as [|goal goals IH]; intros alerts.
  - simpl. split; [discriminate|]. intros [d [t [[] _]]].
  - cbn [ReminderManager.goal_alerts_loop].
    assert (Hskip : open_deadline goal = None ->
              ((exists d text, In d goals /\ open_deadline d = Some text
                               /\ Datetime.strptime_ymd text = None)
               <-> exists d text, In d (goal :: goals)
                     /\ open_deadline d = Some text
                     /\ Datetime.strptime_ymd text = None)).
    { intros Hn. split.
      - intros [d [t [Hin H]]]. exists d, t. split; [right; exact Hin|exact H].
      - intros [d [t [[<-|Hin] [H1 H2]]]]; [congruence|].
        exists d, t. tauto. }
    unfold open_deadline in Hskip at 1.
    destruct (Goal.completed goal) eqn:Hs;
      [rewrite IH; apply Hskip; reflexivity|].
    destruct (truthy_str (Goal.deadline goal)) as [text|] eqn:Hd;
      [|rewrite IH; apply Hskip; reflexivity].
    destruct (Datetime.strptime_ymd text) as [due|] eqn:P.
    + assert (Hstep : (exists d t, In d goals /\ open_deadline d = Some t
                                   /\ Datetime.strptime_ymd t = None)
               <-> exists d t, In d (goal :: goals)
                     /\ open_deadline d = Some t
                     /\ Datetime.strptime_ymd t = None).
      { split.
        - intros [d [t [Hin H]]]. exists d, t. split; [right; exact Hin|exact H].
        - intros [d [t [[<-|Hin] [H1 H2]]]].
          + unfold open_deadline in H1. rewrite Hs, Hd in H1.
            injection H1 as <-. congruence.
          + exists d, t. tauto. }
      cbv zeta. destruct (_ && _); rewrite IH; exact Hstep.
    + split; [intros _|reflexivity]. exists goal, text.
      split; [left; reflexivity|]. unfold open_deadline.
      rewrite Hs, Hd. split; [reflexivity|exact P].
Qed.

(** X19. When the clock is not at midnight sharp and every open deadline
    is a date, [check_goal_deadlines] returns, in the order of [get_goals],
    one alert for each goal that is not completed, is below 100 percent and
    has a deadline at most 31 days after the day of the clock. *)
Lemma check_goal_deadlines_calendar db today :
  Datetime.valid_time today = true ->
  Datetime.time_of_day today <> 0 ->
  (forall goal text,
     In goal (goals db) -> open_deadline goal = Some text ->
     Datetime.strptime_ymd text <> None) ->
  ReminderManager.check_goal_deadlines db today
  = Some (flat_map (goal_alert_on today) (get_goals db)).
Proof.
  intros Hv Ht Hok. unfold ReminderManager.check_goal_deadlines.
  destruct (ReminderManager.goal_alerts_loop (get_goals db) today [])
    as [alerts|] eqn:H.
  - f_equal. apply (goal_alerts_loop_calendar today _ Hv Ht [] alerts H).
  - exfalso. apply goal_alerts_loop_raises in H.
    destruct H as [goal [text [Hin [Hopen Hbad]]]].
    apply in_order_by in Hin. exact (Hok goal text Hin Hopen Hbad).
Qed.

Lemma check_goal_deadlines_calendar_witness :
  ReminderManager.check_goal_deadlines Fixture.db_goals Sample.noon
  = Some (flat_map (goal_alert_on Sample.noon)
            (get_goals Fixture.db_goals)).
Proof.
  apply (check_goal_deadlines_calendar Fixture.db_goals Sample.noon).
  - reflexivity.
  - vm_compute. discriminate.
  - intros goal text Hin Hopen.
    repeat (destruct Hin as [<-|Hin]; [vm_compute in Hopen|]);
      try contradiction; try discriminate;
      injection Hopen as <-; vm_compute; discriminate.
Defined.

(** X20. [check_goal_deadlines] raises exactly when some goal that is not
    completed has a non-empty deadline that [strptime] rejects. *)
Lemma check_goal_deadlines_raises db today :
  ReminderManager.check_goal_deadlines db today = None
  <-> exists goal text,
        In goal (goals db) /\ open_deadline goal = Some text
        /\ Datetime.strptime_ymd text = None.
Proof.
  unfold ReminderManager.check_goal_deadlines.
  rewrite goal_alerts_loop_raises. unfold get_goals.
  split; intros [d [t [Hin H]]]; exists d, t; split; try exact H.
  - apply in_order_by in Hin. exact Hin.
  - apply in_order_by. exact Hin.
Qed.

Lemma check_goal_deadlines_raises_witness :
  ReminderManager.check_goal_deadlines Fixture.db_bad_goal Sample.noon = None.
Proof.
  apply (proj2 (check_goal_deadlines_raises Fixture.db_bad_goal Sample.noon)).
  exists (Fixture.goal 1 "Bike" 400 100 (Some "2024-2-30") false).
  exists "2024-2-30".
  split; [left; reflexivity|]. split; reflexivity.
Defined.

(** ** Methods of the models *)

Lemma Qle_bool_false (x y : Q) : Qle_bool x y = false <-> (y < x)%Q.
Proof.
  split.
  - intros H. apply Qnot_le_lt. intros Hle. apply Qle_bool_iff in Hle.
    congruence.
  - intros H. destruct (Qle_bool x y) eqn:E; [|reflexivity].
    apply Qle_bool_iff in E. exfalso. exact (Qlt_not_le _ _ H E).
Qed.

Lemma percentage_over (part whole : Q) :
  (0 < whole)%Q ->
  ((100 < part / whole * 100)%Q <-> (whole < part)%Q)
  /\ ((100 <= part / whole * 100)%Q <-> (whole <= part)%Q).
Proof.
  intros Hw.
  assert (Hne : ~ (whole == 0)%Q).
  { intros E. rewrite E in Hw. exact (Qlt_irrefl 0 Hw). }
  assert (E : (part / whole * 100 == part * 100 / whole)%Q)
    by (field; exact Hne).
  assert (B : (part * 100 / whole * whole == part * 100)%Q)
    by (field; exact Hne).
  rewrite E. split; split; intros H.
  - apply (Qmult_lt_compat_r _ _ whole Hw) in H. rewrite B in H.
    apply (Qmult_lt_r _ _ 100); [reflexivity|].
    rewrite (Qmult_comm whole). exact H.
  - apply Qlt_shift_div_l; [exact Hw|].
    rewrite (Qmult_comm 100). apply Qmult_lt_r; [reflexivity|exact H].
  - apply (Qmult_le_compat_r _ _ whole) in H; [|apply Qlt_le_weak; exact Hw].
    rewrite B in H. apply (Qmult_le_r _ _ 100); [reflexivity|].
    rewrite (Qmult_comm whole). exact H.
  - apply Qle_shift_div_l; [exact Hw|].
    rewrite (Qmult_comm 100). apply Qmult_le_r; [reflexivity|exact H].
Qed.

(** X21. For a budget with a positive amount, [is_over_budget] holds
    exactly when [get_percentage_used] is above 100; so with an alert
    threshold of at most 100 a budget that is over also alerts. *)
Lemma is_over_budget_percentage (b : Budget.t) :
  (0 < Budget.amount b)%Q ->
  (Budget.is_over_budget b = true
   <-> (100 < Budget.get_percentage_used b)%Q)
  /\ ((Budget.alert_percentage b <= 100)%Q ->
      Budget.is_over_budget b = true -> Budget.should_alert b = true).
Proof.
  intros Ha.
  assert (Hne : Qeq_bool (Budget.amount b) 0 = false).
  { destruct (Qeq_bool (Budget.amount b) 0) eqn:E; [|reflexivity].
    apply Qeq_bool_eq in E. rewrite E in Ha. discriminate. }
  assert (Hiff : Budget.is_over_budget b = true
                 <-> (100 < Budget.get_percentage_used b)%Q).
  { unfold Budget.is_over_budget, Budget.get_percentage_used. rewrite Hne.
    rewrite negb_true_iff, Qle_bool_false.
    symmetry. apply (percentage_over _ _ Ha). }
  split; [exact Hiff|]. intros Hal Hover. apply Hiff in Hover.
  unfold Budget.should_alert. apply Qle_bool_iff.
  apply Qlt_le_weak. eapply Qle_lt_trans; [exact Hal|exact Hover].
Qed.

Lemma is_over_budget_percentage_witness :
  let b := Sample.budget 3 200 80 240 in
  (Budget.is_over_budget b = true
   <-> (100 < Budget.get_percentage_used b)%Q)
  /\ Budget.should_alert b = true.
Proof.
  cbv zeta.
  destruct (is_over_budget_percentage (Sample.budget 3 200 80 240))
    as [H1 H2].
  - reflexivity.
  - split; [exact H1|]. apply H2; [vm_compute; discriminate|reflexivity].
Defined.

(** X22. [Goal.get_remaining_amount] is never negative, and for a positive
    target it is zero exactly when [get_percentage_complete] has reached
    100. *)
Lemma goal_remaining_amount (g : Goal.t) :
  (0 <= Goal.get_remaining_amount g)%Q
  /\ ((0 < Goal.target_amount g)%Q ->
      ((Goal.get_remaining_amount g == 0)%Q
       <-> (100 <= Goal.get_percentage_complete g)%Q)).
Proof.
  unfold Goal.get_remaining_amount, Goal.get_percentage_complete. cbv zeta.
  destruct (Qle_bool (Goal.target_amount g - Goal.current_amount g) 0)
    eqn:E; cbn [negb].
  - split; [apply Qle_refl|]. intros Ht.
    assert (Hne : Qeq_bool (Goal.target_amount g) 0 = false).
    { destruct (Qeq_bool (Goal.target_amount g) 0) eqn:E0; [|reflexivity].
      apply Qeq_bool_eq in E0. rewrite E0 in Ht. discriminate. }
    rewrite Hne. split; [intros _|reflexivity].
    apply (percentage_over _ _ Ht). apply Qle_bool_iff in E. lra.
  - apply Qle_bool_false in E. split; [apply Qlt_le_weak; exact E|].
    intros Ht.
    assert (Hne : Qeq_bool (Goal.target_amount g) 0 = false).
    { destruct (Qeq_bool (Goal.target_amount g) 0) eqn:E0; [|reflexivity].
      apply Qeq_bool_eq in E0. rewrite E0 in Ht. discriminate. }
    rewrite Hne. split; intros H.
    + rewrite H in E. discriminate.
    + apply (percentage_over _ _ Ht) in H. lra.
Qed.

Lemma goal_remaining_amount_witness :
  let g := Fixture.goal 3 "Desk" 200 250 None false in
  (0 <= Goal.get_remaining_amount g)%Q
  /\ ((Goal.get_remaining_amount g == 0)%Q
      <-> (100 <= Goal.get_percentage_complete g)%Q).
Proof.
  cbv zeta.
  destruct (goal_remaining_amount (Fixture.goal 3 "Desk" 200 250 None false))
    as [H1 H2].
  split; [exact H1|]. apply H2. reflexivity.
Defined.

(** X23. [Debt.get_remaining_amount] is never negative, and for a positive
    amount it is zero exactly when [get_percentage_paid] has reached 100. *)
Lemma debt_remaining_amount (d : Debt.t) :
  (0 <= Debt.get_remaining_amount d)%Q
  /\ ((0 < Debt.amount d)%Q ->
      ((Debt.get_remaining_amount d == 0)%Q
       <-> (100 <= Debt.get_percentage_paid d)%Q)).
Proof.
  unfold Debt.get_remaining_amount, Debt.get_percentage_paid. cbv zeta.
  destruct (Qle_bool (Debt.amount d - Debt.amount_paid d) 0) eqn:E;
    cbn [negb].
  - split; [apply Qle_refl|]. intros Ht.
    assert (Hne : Qeq_bool (Debt.amount d) 0 = false).
    { destruct (Qeq_bool (Debt.amount d) 0) eqn:E0; [|reflexivity].
      apply Qeq_bool_eq in E0. rewrite E0 in Ht. discriminate. }
    rewrite Hne. split; [intros _|reflexivity].
    apply (percentage_over _ _ Ht). apply Qle_bool_iff in E. lra.
  - apply Qle_bool_false in E. split; [apply Qlt_le_weak; exact E|].
    intros Ht.
    assert (Hne : Qeq_bool (Debt.amount d) 0 = false).
    { destruct (Qeq_bool (Debt.amount d) 0) eqn:E0; [|reflexivity].
      apply Qeq_bool_eq in E0. rewrite E0 in Ht. discriminate. }
    rewrite Hne. split; intros H.
    + rewrite H in E. discriminate.
    + apply (percentage_over _ _ Ht) in H. lra.
Qed.

Lemma debt_remaining_amount_witness :
  let d := Fixture.debt 4 "Dan" 30 30 None false in
  (0 <= Debt.get_remaining_amount d)%Q
  /\ ((Debt.get_remaining_amount d == 0)%Q
      <-> (100 <= Debt.get_percentage_paid d)%Q).
Proof.
  cbv zeta.
  destruct (debt_remaining_amount (Fixture.debt 4 "Dan" 30 30 None false))
    as [H1 H2].
  split; [exact H1|]. apply H2. reflexivity.
Defined.

(** ** Text protection *)

Lemma chr_some i c : Security.chr i = Some c -> c = i /\ 0 <= i <= 1114111.
Proof.
  unfold Security.chr, Security.MAXUNICODE.
  destruct ((0 <=? i) && (i <=? 1114111)) eqn:E; [|discriminate].
  intros H. injection H as <-. lia.
Qed.

Lemma encrypt_loop_round_trip data key :
  Forall (fun c => 0 <= c <= Security.MAXUNICODE) data ->
  forall i encrypted out,
  Security.encrypt_loop data key i encrypted = Security.Returns out ->
  exists enc,
    out = (encrypted ++ enc)%list
    /\ length enc = length data
    /\ forall acc,
         Security.encrypt_loop enc key i acc
         = Security.Returns (acc ++ data)%list.
Proof.
  induction 1 as [|char data Hc Hdata IH]; intros i encrypted out H.
  - cbn in H. injection H as <-. exists []. rewrite app_nil_r.
    repeat split. intros acc. cbn. rewrite app_nil_r. reflexivity.
  - cbn [Security.encrypt_loop] in H. cbv zeta in H.
    destruct (Z.of_nat (length key) =? 0) eqn:K; [discriminate|].
    destruct (Security.chr _) as [c|] eqn:C; [|discriminate].
    apply chr_some in C. destruct C as [-> Hrange].
    destruct (IH _ _ _ H) as [enc [Hout [Hlen Hdec]]].
    exists (Z.lxor char (nth (Z.to_nat (i mod Z.of_nat (length key))) key 0)
            :: enc).
    split; [rewrite Hout, <- app_assoc; reflexivity|].
    split; [cbn; rewrite Hlen; reflexivity|].
    intros acc. cbn [Security.encrypt_loop]. cbv zeta. rewrite K.
    rewrite Z.lxor_assoc, Z.lxor_nilpotent, Z.lxor_0_r.
    unfold Security.chr.
    replace ((0 <=? char) && (char <=? Security.MAXUNICODE)) with true
      by (symmetry; apply andb_true_iff; split; apply Z.leb_le; lia).
    rewrite Hdec, <- app_assoc. reflexivity.
Qed.

(** X24. Whatever the key, when [encrypt_simple] returns, [decrypt_simple]
    with the same key returns the text that was encrypted, and the
    encrypted text has the length of that text. *)
Lemma decrypt_encrypt_simple data key encrypted :
  Forall (fun c => 0 <= c <= Security.MAXUNICODE) data ->
  Security.encrypt_simple data key = Security.Returns encrypted ->
  Security.decrypt_simple encrypted key = Security.Returns data
  /\ length encrypted = length data.
Proof.
  intros Hdata H. unfold Security.encrypt_simple in H.
  destruct (encrypt_loop_round_trip data key Hdata 0 [] encrypted H)
    as [enc [Hout [Hlen Hdec]]].
  cbn [app] in Hout. subst enc. split; [|exact Hlen].
  unfold Security.decrypt_simple, Security.encrypt_simple.
  rewrite Hdec. reflexivity.
Qed.

Lemma decrypt_encrypt_simple_witness :
  Security.decrypt_simple [3; 2] [107] = Security.Returns [104; 105]
  /\ length [3; 2] = length [104; 105].
Proof.
  apply (decrypt_encrypt_simple [104; 105] [107] [3; 2]).
  - repeat (constructor; [unfold Security.MAXUNICODE; lia|]). constructor.
  - reflexivity.
Defined.

Lemma lxor_below (a b : Z) :
  0 <= a < 2 ^ 20 -> 0 <= b < 2 ^ 20 -> 0 <= Z.lxor a b < 2 ^ 20.
Proof.
  intros Ha Hb. split; [apply Z.lxor_nonneg; lia|].
  destruct (Z.eq_dec (Z.lxor a b) 0) as [E|E]; [rewrite E; lia|].
  apply Z.log2_lt_pow2; [pose proof (Z.lxor_nonneg a b); lia|].
  eapply Z.le_lt_trans; [apply Z.log2_lxor; lia|].
  apply Z.max_lub_lt.
  - destruct (Z.eq_dec a 0) as [->|]; [cbn; lia|apply Z.log2_lt_pow2; lia].
  - destruct (Z.eq_dec b 0) as [->|]; [cbn; lia|apply Z.log2_lt_pow2; lia].
Qed.

Lemma encrypt_loop_returns data key :
  key <> [] ->
  Forall (fun c => 0 <= c < 2 ^ 20) key ->
  Forall (fun c => 0 <= c < 2 ^ 20) data ->
  forall i encrypted, 0 <= i ->
  exists out, Security.encrypt_loop data key i encrypted = Security.Returns out.
Proof.
  intros Hne Hkey. induction 1 as [|char data Hc Hdata IH];
    intros i encrypted Hi.
  - eexists. reflexivity.
  - cbn [Security.encrypt_loop]. cbv zeta.
    assert (Hlen : 0 < Z.of_nat (length key)).
    { destruct key; [contradiction|cbn [length]; lia]. }
    destruct (Z.of_nat (length key) =? 0) eqn:K; [lia|].
    assert (Hk : 0 <= nth (Z.to_nat (i mod Z.of_nat (length key))) key 0
                 < 2 ^ 20).
    { apply (proj1 (List.Forall_forall _ key) Hkey). apply nth_In.
      pose proof (Z.mod_pos_bound i _ Hlen). lia. }
    pose proof (lxor_below _ _ Hc Hk) as Hx.
    unfold Security.chr, Security.MAXUNICODE.
    replace ((0 <=? Z.lxor char _) && (Z.lxor char _ <=? 1114111)) with true
      by (symmetry; apply andb_true_iff; split; apply Z.leb_le; lia).
    apply IH. lia.
Qed.

(** X25. With an empty key [encrypt_simple] raises [ZeroDivisionError] on
    every text but the empty one; with a key that is not empty it returns
    a text of the same length whenever all code points of the text and of
    the key are below [2 ^ 20]. *)
Lemma encrypt_simple_outcome data key :
  (key = [] -> data <> [] ->
   Security.encrypt_simple data key
   = Security.Raises Security.ZeroDivisionError)
  /\ (key <> [] ->
      Forall (fun c => 0 <= c < 2 ^ 20) key ->
      Forall (fun c => 0 <= c < 2 ^ 20) data ->
      exists encrypted,
        Security.encrypt_simple data key = Security.Returns encrypted
        /\ length encrypted = length data).
Proof.
  split.
  - intros -> Hd. destruct data as [|c data]; [contradiction|reflexivity].
  - intros Hne Hkey Hdata.
    destruct (encrypt_loop_returns data key Hne Hkey Hdata 0 [] (Z.le_refl 0))
      as [out Hout].
    exists out. split; [exact Hout|].
    assert (Hvalid : Forall (fun c => 0 <= c <= Security.MAXUNICODE) data).
    { eapply List.Forall_impl; [|exact Hdata].
      intros c Hc. unfold Security.MAXUNICODE. cbv beta in Hc. lia. }
    destruct (encrypt_loop_round_trip data key Hvalid 0 [] out Hout)
      as [enc [E [Hlen _]]].
    cbn [app] in E. subst enc. exact Hlen.
Qed.

Lemma encrypt_simple_outcome_witness :
  Security.encrypt_simple [104; 105] []
  = Security.Raises Security.ZeroDivisionError
  /\ exists encrypted,
       Security.encrypt_simple [104; 105] [107]
       = Security.Returns encrypted
       /\ length encrypted = length [104; 105].
Proof.
  split.
  - apply (proj1 (encrypt_simple_outcome [104; 105] []));
      [reflexivity|discriminate].
  - apply (proj2 (encrypt_simple_outcome [104; 105] [107])).
    + discriminate.
    + repeat (constructor; [lia|]). constructor.
    + repeat (constructor; [lia|]). constructor.
Defined.

(** ** Sample runs *)

(** At noon of 2024-01-01 the debt due on the next day has 0 days left and
    is of high severity, the one due on 2024-01-09 has 7; the debt due on
    2024-01-10, the settled one and the one without a date give no alert. *)
Example check_debt_due_dates_sample :
  option_map
    (map (fun a => (ReminderManager.DebtAlert.person a,
                    ReminderManager.DebtAlert.days_until_due a,
                    ReminderManager.DebtAlert.severity a)))
    (ReminderManager.check_debt_due_dates Fixture.db_debts Sample.noon)
  = Some [("Ann", 0, "high"); ("Bob", 7, "medium")].
Proof. vm_compute. reflexivity. Qed.

(** At the same time the goal due on 2024-02-01 has 30 days left and gives
    an alert; the one due a day later and the funded one give none. *)
Example check_goal_deadlines_sample :
  option_map
    (map (fun a => (ReminderManager.GoalAlert.name a,
                    ReminderManager.GoalAlert.days_until_deadline a,
                    ReminderManager.GoalAlert.severity a)))
    (ReminderManager.check_goal_deadlines Fixture.db_goals Sample.noon)
  = Some [("Bike", 30, "low")].
Proof. vm_compute. reflexivity. Qed.

(** The first start gives 15 categories, one account and 7 settings. *)
Example initialize_default_data_sample :
  (length (categories Fixture.db_start), length (accounts Fixture.db_start),
   length (settings Fixture.db_start),
   get_setting Fixture.db_start "currency",
   get_setting Fixture.db_start "language")
  = (15%nat, 1%nat, 7%nat, Some "USD", None).
Proof. vm_compute. reflexivity. Qed.

(** The spending of January 2024 by category, and the second page of two
    rows of the listing. *)
Example listing_samples :
  map (fun row => (fst (fst row), Qeq_bool (snd row) 100,
                   Qeq_bool (snd row) 25))
    (get_expense_by_category Fixture.db_spending "2024-01-01" "2024-01-31")
  = [("Food & Dining", true, false); ("Shopping", false, true)]
  /\ map (fun row => TransactionRow.id (fst (fst row)))
       (get_transactions Fixture.db_spending (Some 2) 1)
     = [3; 1].
Proof. vm_compute. split; reflexivity. Qed.

(** Two code points whose exclusive or is above the largest code point. *)
Example encrypt_simple_value_error :
  Security.encrypt_simple [1048576] [983040]
  = Security.Raises Security.ValueError.
Proof. vm_compute. reflexivity. Qed.
